(** * okta2aws: exchanging Okta credentials for temporary AWS credentials

    A shallow embedding of [okta2aws.py] and of the library calls it makes,
    followed by the properties of the four pipeline stages and of their
    composition [assume].

    Conventions of the embedding.
    - A Python [str] is a Rocq [string] holding its UTF-8 encoding, a Python
      [bytes] is a Rocq [string] holding the bytes themselves.  Every
      delimiter the program looks at is ASCII, so searching, splitting and
      concatenating agree on both views.
    - A Python call that may raise returns [PyExn + A]; [inl] is the raised
      exception, which nothing in [okta2aws.py] catches.
    - The calls into [requests] are recorded in a log that is threaded
      through the stages; the answers come from an environment [http].
    - Library routines that are not transcribed (Unicode normalisation, the
      validation of a bracketed IP literal, the JSON, XML and HTML parsers,
      the JSON printer) are variables of the sections; what is proved holds
      for every choice of them. *)

From Stdlib Require Import String Ascii List Bool Arith NArith ZArith Lia.
Import ListNotations.

Open Scope list_scope.
Open Scope string_scope.

Set Warnings "-register-all".

(** ** Python values and exceptions *)

Definition pystr := string.
Definition pybytes := string.

(** The result of [json.loads] and of [xmltodict.parse]. A [dict] is kept as
    the list of its items; the program only reads it by key. *)
Inductive pyval : Type :=
| PNone
| PBool (b : bool)
| PInt (i : Z)
| PFloat (repr : pystr)
| PStr (s : pystr)
| PList (items : list pyval)
| PDict (items : list (pystr * pyval)).

(** A subscript: [v['name']] or [v[0]]. *)
Inductive pykey : Type :=
| KStr (s : pystr)
| KInt (i : Z).

Inductive PyExn : Type :=
| KeyError (key : pykey)
| IndexError
| TypeError
| ValueError
| UnicodeDecodeError
| BinasciiError
| AttributeError
| LibraryError (cls : string).

(** The name of the class of an exception, which is what a caller sees as
    the kind of a failure. *)
Definition exn_class (e : PyExn) : string :=
  match e with
  | KeyError _ => "KeyError"
  | IndexError => "IndexError"
  | TypeError => "TypeError"
  | ValueError => "ValueError"
  | UnicodeDecodeError => "UnicodeDecodeError"
  | BinasciiError => "binascii.Error"
  | AttributeError => "AttributeError"
  | LibraryError cls => cls
  end.

Definition result (A : Type) : Type := (PyExn + A)%type.

Definition raise {A} (e : PyExn) : result A := inl e.

Definition rbind {A B} (r : result A) (k : A -> result B) : result B :=
  match r with
  | inl e => inl e
  | inr a => k a
  end.

(** [fails_with r k]: the call raised an exception of class [k]. *)
Definition fails_with {A} (r : result A) (kind : string) : Prop :=
  exists e, r = inl e /\ exn_class e = kind.

(** ** Characters and strings *)

Definition code (c : ascii) : N := N_of_ascii c.

Definition is_ascii_char (c : ascii) : bool := (code c <? 128)%N.

Definition is_upper (c : ascii) : bool := ((65 <=? code c) && (code c <=? 90))%N.
Definition is_lower (c : ascii) : bool := ((97 <=? code c) && (code c <=? 122))%N.
Definition is_digit (c : ascii) : bool := ((48 <=? code c) && (code c <=? 57))%N.
Definition is_alpha (c : ascii) : bool := is_upper c || is_lower c.

Definition lower_char (c : ascii) : ascii :=
  if is_upper c then ascii_of_N (code c + 32) else c.

Fixpoint string_forall (p : ascii -> bool) (s : string) : bool :=
  match s with
  | EmptyString => true
  | String c s' => p c && string_forall p s'
  end.

Fixpoint string_map (f : ascii -> ascii) (s : string) : string :=
  match s with
  | EmptyString => EmptyString
  | String c s' => String (f c) (string_map f s')
  end.

Fixpoint string_filter (p : ascii -> bool) (s : string) : string :=
  match s with
  | EmptyString => EmptyString
  | String c s' => if p c then String c (string_filter p s') else string_filter p s'
  end.

(** [c in s] for a one-character [c]. *)
Fixpoint contains (c : ascii) (s : string) : bool :=
  match s with
  | EmptyString => false
  | String d s' => Ascii.eqb d c || contains c s'
  end.

(** [s.isascii()] *)
Definition isascii (s : string) : bool := string_forall is_ascii_char s.

(** [s.lower()], on the ASCII letters. *)
Definition lower (s : string) : string := string_map lower_char s.

(** [s.replace(c, "")] *)
Definition remove_char (c : ascii) (s : string) : string :=
  string_filter (fun d => negb (Ascii.eqb d c)) s.

(** [s.lstrip(chars)] for a set of characters given as a predicate. *)
Fixpoint lstrip (p : ascii -> bool) (s : string) : string :=
  match s with
  | EmptyString => EmptyString
  | String c s' => if p c then lstrip p s' else s
  end.

(** [s.partition(c)]: the text before the first [c], whether [c] was found,
    and the text after it. *)
Fixpoint partition (c : ascii) (s : string) : string * bool * string :=
  match s with
  | EmptyString => (EmptyString, false, EmptyString)
  | String d s' =>
      if Ascii.eqb d c then (EmptyString, true, s')
      else let '(a, found, b) := partition c s' in (String d a, found, b)
  end.

(** [s.rpartition(c)[2]]: the text after the last [c], all of [s] when there
    is none. *)
Fixpoint after_last (c : ascii) (s : string) : string :=
  match s with
  | EmptyString => EmptyString
  | String d s' =>
      if contains c s' then after_last c s'
      else if Ascii.eqb d c then s' else s
  end.

(** [s.split(c)]: never empty, one more segment than there are [c] in [s]. *)
Fixpoint split (c : ascii) (s : string) : list string :=
  match s with
  | EmptyString => [EmptyString]%list
  | String d s' =>
      if Ascii.eqb d c then EmptyString :: split c s'
      else match split c s' with
           | seg :: segs => String d seg :: segs
           | [] => [String d EmptyString]
           end
  end.

(** The longest prefix whose characters all fail [p], and what follows it. *)
Fixpoint break_at (p : ascii -> bool) (s : string) : string * string :=
  match s with
  | EmptyString => (EmptyString, EmptyString)
  | String c s' =>
      if p c then (EmptyString, s)
      else let '(a, b) := break_at p s' in (String c a, b)
  end.

(** [s.startswith(pre)] *)
Fixpoint startswith (pre s : string) : bool :=
  match pre, s with
  | EmptyString, _ => true
  | String a pre', String b s' => Ascii.eqb a b && startswith pre' s'
  | String _ _, EmptyString => false
  end.

(** [s[:n]] *)
Fixpoint string_take (n : nat) (s : string) : string :=
  match n, s with
  | S n', String c s' => String c (string_take n' s')
  | _, _ => EmptyString
  end.

(** [s[n:]] *)
Fixpoint string_drop (n : nat) (s : string) : string :=
  match n, s with
  | O, _ => s
  | S n', String _ s' => string_drop n' s'
  | S _, EmptyString => EmptyString
  end.

(** ** UTF-8

    [bytes.decode('utf-8', errors)] as CPython's decoder does it: the input
    is cut into well-formed sequences, each one code point, and ill-formed
    pieces.  An ill-formed piece is a byte that cannot start a sequence, or
    the longest prefix of a sequence that the next byte fails to continue. *)

Definition is_cont (c : ascii) : bool := ((128 <=? code c) && (code c <=? 191))%N.

(** The range allowed for the second byte after the lead byte [b]: it rules
    out overlong forms, surrogates and code points above 10FFFF. *)
Definition second_ok (b c : ascii) : bool :=
  is_cont c &&
  (if (code b =? 224)%N then (160 <=? code c)%N
   else if (code b =? 237)%N then (code c <=? 159)%N
   else if (code b =? 240)%N then (144 <=? code c)%N
   else if (code b =? 244)%N then (code c <=? 143)%N
   else true).

(** [Some seq] is a well-formed sequence, [None] an ill-formed piece. *)
Fixpoint utf8_scan (bs : pybytes) : list (option string) :=
  match bs with
  | EmptyString => []
  | String b r1 =>
      if (code b <? 128)%N then Some (String b "") :: utf8_scan r1
      else if (code b <? 194)%N then None :: utf8_scan r1
      else if (code b <? 224)%N then
        match r1 with
        | EmptyString => [None]
        | String c2 r2 =>
            if is_cont c2 then Some (String b (String c2 "")) :: utf8_scan r2
            else None :: utf8_scan r1
        end
      else if (code b <? 240)%N then
        match r1 with
        | EmptyString => [None]
        | String c2 r2 =>
            if second_ok b c2 then
              match r2 with
              | EmptyString => [None]
              | String c3 r3 =>
                  if is_cont c3
                  then Some (String b (String c2 (String c3 ""))) :: utf8_scan r3
                  else None :: utf8_scan r2
              end
            else None :: utf8_scan r1
        end
      else if (code b <? 245)%N then
        match r1 with
        | EmptyString => [None]
        | String c2 r2 =>
            if second_ok b c2 then
              match r2 with
              | EmptyString => [None]
              | String c3 r3 =>
                  if is_cont c3 then
                    match r3 with
                    | EmptyString => [None]
                    | String c4 r4 =>
                        if is_cont c4
                        then Some (String b (String c2 (String c3 (String c4 ""))))
                               :: utf8_scan r4
                        else None :: utf8_scan r3
                    end
                  else None :: utf8_scan r2
              end
            else None :: utf8_scan r1
        end
      else None :: utf8_scan r1
  end.

(** U+FFFD, the replacement character, in UTF-8. *)
Definition replacement_char : pystr :=
  String (ascii_of_N 239) (String (ascii_of_N 191) (String (ascii_of_N 189) "")).

(** [bs.decode('utf-8', 'replace')] *)
Definition decode_replace (bs : pybytes) : pystr :=
  String.concat ""
    (map (fun p => match p with Some seq => seq | None => replacement_char end)
         (utf8_scan bs)).

(** [bs.decode()]: strict, raises on the first ill-formed piece. *)
Definition decode (bs : pybytes) : result pystr :=
  if forallb (fun p => match p with Some _ => true | None => false end) (utf8_scan bs)
  then inr bs
  else raise UnicodeDecodeError.

(** The characters of a [str], one string per code point. *)
Definition chars (s : pystr) : list pystr :=
  map (fun p => match p with Some seq => seq | None => "" end) (utf8_scan s).

(** ** Subscripts *)

Fixpoint dict_get (items : list (pystr * pyval)) (k : pystr) : option pyval :=
  match items with
  | [] => None
  | (k', v) :: rest => if String.eqb k' k then Some v else dict_get rest k
  end.

(** [seq[i]] on a sequence, with Python's negative indices. *)
Definition seq_index {A} (l : list A) (i : Z) : option A :=
  let n := Z.of_nat (List.length l) in
  if (0 <=? i)%Z then nth_error l (Z.to_nat i)
  else if (0 <=? n + i)%Z then nth_error l (Z.to_nat (n + i))
  else None.

(** [v[k]] *)
Definition getitem (v : pyval) (k : pykey) : result pyval :=
  match v, k with
  | PDict items, KStr name =>
      match dict_get items name with
      | Some x => inr x
      | None => raise (KeyError k)
      end
  | PDict _, KInt _ => raise (KeyError k)
  | PList items, KInt i =>
      match seq_index items i with
      | Some x => inr x
      | None => raise IndexError
      end
  | PStr s, KInt i =>
      match seq_index (chars s) i with
      | Some c => inr (PStr c)
      | None => raise IndexError
      end
  | _, _ => raise TypeError
  end.

(** ** [urllib.parse]: quoting *)

Definition hex_digit (n : N) : ascii :=
  if (n <? 10)%N then ascii_of_N (48 + n) else ascii_of_N (55 + n).

(** ['%{:02X}'.format(b)] *)
Definition percent_byte (b : ascii) : string :=
  String "%" (String (hex_digit (code b / 16)) (String (hex_digit (code b mod 16)) "")).

(** [_ALWAYS_SAFE] *)
Definition always_safe (c : ascii) : bool :=
  is_alpha c || is_digit c
  || Ascii.eqb c "_" || Ascii.eqb c "." || Ascii.eqb c "-" || Ascii.eqb c "~".

Fixpoint quote_from_bytes (safe : ascii -> bool) (bs : pybytes) : pystr :=
  match bs with
  | EmptyString => ""
  | String b bs' =>
      (if is_ascii_char b && (always_safe b || safe b)
       then String b "" else percent_byte b) ++ quote_from_bytes safe bs'
  end.

(** [quote(string, safe)]: the UTF-8 bytes of the text are quoted. *)
Definition quote (safe : ascii -> bool) (s : pystr) : pystr := quote_from_bytes safe s.

(** [string.replace(' ', '+')] *)
Definition space_to_plus (s : string) : string :=
  string_map (fun c => if Ascii.eqb c " " then "+"%char else c) s.

(** [quote_plus(string)] with the default [safe=''] *)
Definition quote_plus (s : pystr) : pystr :=
  if negb (contains " " s) then quote (fun _ => false) s
  else space_to_plus (quote (fun c => Ascii.eqb c " ") s).

(** The value of a hexadecimal digit, of either case. *)
Definition hex_value (c : ascii) : option N :=
  if is_digit c then Some (code c - 48)%N
  else if ((65 <=? code c) && (code c <=? 70))%N then Some (code c - 55)%N
  else if ((97 <=? code c) && (code c <=? 102))%N then Some (code c - 87)%N
  else None.

(** One item of [string.split(b'%')] after the first: its first two
    characters name a byte, or the item is kept with its ["%"]. *)
Definition unquote_item (item : pybytes) : pybytes :=
  match item with
  | String h (String l rest) =>
      match hex_value h, hex_value l with
      | Some a, Some b => String (ascii_of_N (16 * a + b)) rest
      | _, _ => String "%" item
      end
  | _ => String "%" item
  end.

Definition unquote_to_bytes (s : pystr) : pybytes :=
  match split "%" s with
  | first :: items => String.concat "" (first :: map unquote_item items)
  | [] => s
  end.

(** [_asciire.split(string)]: the maximal runs of ASCII characters ([true])
    and of other characters ([false]), in order. *)
Fixpoint ascii_runs (s : pystr) : list (bool * pystr) :=
  match s with
  | EmptyString => []
  | String c s' =>
      let a := is_ascii_char c in
      match ascii_runs s' with
      | (a', run) :: runs =>
          if Bool.eqb a a' then (a, String c run) :: runs
          else (a, String c "") :: (a', run) :: runs
      | [] => [(a, String c "")]
      end
  end.

(** [unquote(string)] with the defaults [encoding='utf-8'],
    [errors='replace'] *)
Definition unquote (s : pystr) : pystr :=
  if negb (contains "%" s) then s
  else
    String.concat ""
      (map (fun '(a, run) => if a : bool then decode_replace (unquote_to_bytes run) else run)
           (ascii_runs s)).

(** ** [base64.b64decode]

    [binascii.a2b_base64] in its default, lenient mode: characters outside
    the alphabet are skipped, and so is padding that does not complete a
    group of four. *)

(** [table_a2b_base64] *)
Definition b64_value (c : ascii) : option N :=
  if is_upper c then Some (code c - 65)%N
  else if is_lower c then Some (code c - 71)%N
  else if is_digit c then Some (code c + 4)%N
  else if Ascii.eqb c "+" then Some 62%N
  else if Ascii.eqb c "/" then Some 63%N
  else None.

Definition byte_of (n : N) : ascii := ascii_of_N (n mod 256).

Definition emit (b : ascii) (r : result pybytes) : result pybytes :=
  rbind r (fun bs => inr (String b bs)).

Fixpoint a2b_loop (data : pybytes) (quad_pos : nat) (leftchar : N) (pads : nat)
  : result pybytes :=
  match data with
  | EmptyString =>
      match quad_pos with
      | O => inr ""
      | _ => raise BinasciiError
      end
  | String c rest =>
      if Ascii.eqb c "=" then
        if (2 <=? quad_pos)%nat then
          if (4 <=? quad_pos + S pads)%nat then inr ""
          else a2b_loop rest quad_pos leftchar (S pads)
        else a2b_loop rest quad_pos leftchar pads
      else
        match b64_value c with
        | None => a2b_loop rest quad_pos leftchar pads
        | Some this_ch =>
            match quad_pos with
            | 0%nat => a2b_loop rest 1 this_ch 0
            | 1%nat =>
                emit (byte_of (N.lor (N.shiftl leftchar 2) (N.shiftr this_ch 4)))
                     (a2b_loop rest 2 (N.land this_ch 15) 0)
            | 2%nat =>
                emit (byte_of (N.lor (N.shiftl leftchar 4) (N.shiftr this_ch 2)))
                     (a2b_loop rest 3 (N.land this_ch 3) 0)
            | _ =>
                emit (byte_of (N.lor (N.shiftl leftchar 6) this_ch))
                     (a2b_loop rest 0 0%N 0)
            end
        end
  end.

Definition a2b_base64 (data : pybytes) : result pybytes := a2b_loop data 0 0%N 0.

(** [base64.b64decode(s)] for a [str] argument: the text must be ASCII. *)
Definition b64decode (s : pystr) : result pybytes :=
  if isascii s then a2b_base64 s else raise ValueError.

(** [base64.b64encode]: three bytes become four characters of the
    alphabet, a last group of one or two bytes is padded with ["="]. *)

(** [table_b2a_base64] *)
Definition b64_char (n : N) : ascii :=
  if (n <? 26)%N then ascii_of_N (n + 65)
  else if (n <? 52)%N then ascii_of_N (n + 71)
  else if (n <? 62)%N then ascii_of_N (n - 4)
  else if (n =? 62)%N then "+"%char
  else "/"%char.

Fixpoint b64encode (bs : pybytes) : pystr :=
  match bs with
  | EmptyString => ""
  | String a EmptyString =>
      String (b64_char (N.shiftr (code a) 2))
        (String (b64_char (N.shiftl (N.land (code a) 3) 4)) "==")
  | String a (String b EmptyString) =>
      String (b64_char (N.shiftr (code a) 2))
        (String (b64_char (N.lor (N.shiftl (N.land (code a) 3) 4) (N.shiftr (code b) 4)))
           (String (b64_char (N.shiftl (N.land (code b) 15) 2)) "="))
  | String a (String b (String c rest)) =>
      String (b64_char (N.shiftr (code a) 2))
        (String (b64_char (N.lor (N.shiftl (N.land (code a) 3) 4) (N.shiftr (code b) 4)))
           (String (b64_char (N.lor (N.shiftl (N.land (code b) 15) 2) (N.shiftr (code c) 6)))
              (String (b64_char (N.land (code c) 63)) (b64encode rest))))
  end.

(** ** [urllib.parse]: splitting a URL

    After [Lib/urllib/parse.py] of CPython 3.11. *)

Record SplitResult : Type := mkSplit {
  sr_scheme : pystr;
  sr_netloc : pystr;
  sr_path : pystr;
  sr_query : pystr;
  sr_fragment : pystr
}.

Record ParseResult : Type := mkParse {
  scheme : pystr;
  netloc : pystr;
  path : pystr;
  params : pystr;
  query : pystr;
  fragment : pystr
}.

(** [scheme_chars]: the letters, the digits and ["+-."]. *)
Definition scheme_char (c : ascii) : bool :=
  is_alpha c || is_digit c
  || Ascii.eqb c "+" || Ascii.eqb c "-" || Ascii.eqb c ".".

(** [_WHATWG_C0_CONTROL_OR_SPACE]: the code points 0 to 32. *)
Definition c0_control_or_space (c : ascii) : bool := (code c <=? 32)%N.

(** [_UNSAFE_URL_BYTES_TO_REMOVE]: tab, carriage return, line feed. *)
Definition unsafe_url_byte (c : ascii) : bool :=
  (code c =? 9)%N || (code c =? 13)%N || (code c =? 10)%N.

Definition remove_unsafe (url : pystr) : pystr :=
  string_filter (fun c => negb (unsafe_url_byte c)) url.

Definition netloc_delim (c : ascii) : bool :=
  Ascii.eqb c "/" || Ascii.eqb c "?" || Ascii.eqb c "#".

(** [_splitnetloc(url, start)]: the text from [start] up to the first of
    ["/"], ["?"] and ["#"], and the text from there on. *)
Definition _splitnetloc (url : pystr) (start : nat) : pystr * pystr :=
  break_at netloc_delim (string_drop start url).

(** The scheme split of [urlsplit]: when the text before the first [":"] is
    not empty, starts with an ASCII letter and consists of scheme
    characters, it is the scheme, in lower case, and the URL goes on after
    the colon; otherwise the scheme is empty and the URL is left whole. *)
Definition split_scheme (url : pystr) : pystr * pystr :=
  match partition ":" url with
  | (String c0 pre, true, rest) =>
      if is_ascii_char c0 && is_alpha c0 && string_forall scheme_char (String c0 pre)
      then (lower (String c0 pre), rest)
      else (EmptyString, url)
  | _ => (EmptyString, url)
  end.

(** The URL as [urlsplit] reads it: leading control characters and spaces
    stripped, then tabs and line breaks removed. *)
Definition cleaned (url0 : pystr) : pystr :=
  remove_unsafe (lstrip c0_control_or_space url0).

Section Urllib.

(** [unicodedata.normalize('NFKC', s)] *)
Variable nfkc : pystr -> pystr.

(** [_check_bracketed_host(hostname)] returns normally: the host name is
    an IPvFuture literal or parses as an IPv6 address. *)
Variable bracketed_host_ok : pystr -> bool.

Definition _checknetloc (netloc : pystr) : result unit :=
  if (String.eqb netloc "" || isascii netloc)%bool then inr tt
  else
    let n := remove_char "?" (remove_char "#" (remove_char ":" (remove_char "@" netloc))) in
    let netloc2 := nfkc n in
    if String.eqb n netloc2 then inr tt
    else if contains "/" netloc2 || contains "?" netloc2 || contains "#" netloc2
            || contains "@" netloc2 || contains ":" netloc2
         then raise ValueError
         else inr tt.

Definition _check_bracketed_netloc (netloc : pystr) : result unit :=
  let hostname_and_port := after_last "@" netloc in
  let '(before_bracket, have_open_br, bracketed) := partition "[" hostname_and_port in
  if have_open_br then
    if negb (String.eqb before_bracket "") then raise ValueError
    else
      let '(hostname, _, port) := partition "]" bracketed in
      if negb (String.eqb port "") && negb (startswith ":" port) then raise ValueError
      else if bracketed_host_ok hostname then inr tt else raise ValueError
  else
    let '(hostname, _, port) := partition ":" hostname_and_port in
    if bracketed_host_ok hostname then inr tt else raise ValueError.

(** The two tests on the brackets of the network location in [urlsplit]:
    one bracket without the other is an error, and a bracketed host is
    checked. *)
Definition check_brackets (netloc : pystr) : result unit :=
  if (contains "[" netloc && negb (contains "]" netloc))
     || (contains "]" netloc && negb (contains "[" netloc))
  then raise ValueError
  else if contains "[" netloc && contains "]" netloc
       then _check_bracketed_netloc netloc
       else inr tt.

Definition urlsplit (url0 : pystr) : result SplitResult :=
  let url := cleaned url0 in
  let '(scheme, url) := split_scheme url in
  rbind
    (if String.eqb (string_take 2 url) "//" then
       let '(netloc, url) := _splitnetloc url 2 in
       rbind (check_brackets netloc) (fun _ => inr (netloc, url))
     else inr (EmptyString, url))
    (fun '(netloc, url) =>
       let '(url, _, fragment) := partition "#" url in
       let '(url, _, query) := partition "?" url in
       rbind (_checknetloc netloc)
             (fun _ => inr (mkSplit scheme netloc url query fragment))).

(** [uses_params] *)
Definition uses_params : list pystr :=
  [""; "ftp"; "hdl"; "prospero"; "http"; "imap"; "https"; "shttp"; "rtsp";
   "rtspu"; "sip"; "sips"; "mms"; "sftp"; "tel"].

(** [url.rfind('/')] then [url.find(';', that)]: the text after the last
    ["/"] is searched for [";"]. *)
Definition _splitparams (url : pystr) : pystr * pystr :=
  if contains "/" url then
    let last := after_last "/" url in
    let head := string_take (String.length url - String.length last) url in
    let '(a, found, b) := partition ";" last in
    if found then (head ++ a, b) else (url, "")
  else
    let '(a, found, b) := partition ";" url in
    if found then (a, b) else (string_take (String.length url - 1) url, url).

Definition urlparse (url : pystr) : result ParseResult :=
  rbind (urlsplit url) (fun sr =>
    let '(url, params) :=
      if existsb (String.eqb (sr_scheme sr)) uses_params && contains ";" (sr_path sr)
      then _splitparams (sr_path sr)
      else (sr_path sr, "") in
    inr (mkParse (sr_scheme sr) (sr_netloc sr) url params (sr_query sr) (sr_fragment sr))).

End Urllib.

(** ** [bs4]: the parsed document and [find] *)

(** An element with its attribute dictionary and contents, or a piece of
    text.  Attribute values are kept as text. *)
Inductive Node : Type :=
| Tag (name : pystr) (attrs : list (pystr * pystr)) (contents : list Node)
| NavigableString (text : pystr).

(** [tag.descendants]: the nodes below [tag], in document order. *)
Fixpoint descendants (n : Node) : list Node :=
  match n with
  | Tag _ _ contents =>
      (fix below (cs : list Node) : list Node :=
         match cs with
         | [] => []
         | c :: cs' => (c :: descendants c) ++ below cs'
         end%list) contents
  | NavigableString _ => []
  end.

Fixpoint attr_get (attrs : list (pystr * pystr)) (k : pystr) : option pystr :=
  match attrs with
  | [] => None
  | (k', v) :: rest => if String.eqb k' k then Some v else attr_get rest k
  end.

(** A node passes the filter [(name, attrs)] when it is an element called
    [name] each of whose attributes listed in [attrs] has the given value. *)
Definition node_matches (name : pystr) (wanted : list (pystr * pystr)) (n : Node) : bool :=
  match n with
  | Tag tname tattrs _ =>
      String.eqb tname name
      && forallb (fun '(k, v) =>
                    match attr_get tattrs k with
                    | Some v' => String.eqb v' v
                    | None => false
                    end) wanted
  | NavigableString _ => false
  end.

(** [soup.find(name, attrs)]: the first descendant that passes the filter,
    [None] when there is none. *)
Definition find (soup : Node) (name : pystr) (wanted : list (pystr * pystr)) : option Node :=
  List.find (node_matches name wanted) (descendants soup).

(** [found[key]] on the result of [find]: subscripting [None] is a
    [TypeError], a missing attribute a [KeyError]. *)
Definition tag_getitem (found : option Node) (key : pystr) : result pystr :=
  match found with
  | None => raise TypeError
  | Some (NavigableString _) => raise TypeError
  | Some (Tag _ tattrs _) =>
      match attr_get tattrs key with
      | Some v => inr v
      | None => raise (KeyError (KStr key))
      end
  end.

(** ** [requests]: calls and their log *)

Inductive Method : Type := GET | POST.

Record Request : Type := mkRequest {
  method : Method;
  url : pystr;
  headers : list (pystr * pystr);
  data : option pystr
}.

Record Response : Type := mkResponse {
  status_code : Z;
  _content : pybytes
}.

(** A computation that calls [requests]: from the log of the calls made so
    far to its outcome and the extended log. *)
Definition IO (A : Type) : Type := list Request -> result A * list Request.

Definition ret {A} (a : A) : IO A := fun log => (inr a, log).

Definition bind {A B} (m : IO A) (k : A -> IO B) : IO B :=
  fun log =>
    match m log with
    | (inl e, log') => (inl e, log')
    | (inr a, log') => k a log'
    end.

(** A call that does not touch the network. *)
Definition lift {A} (r : result A) : IO A := fun log => (r, log).

Notation "x <- m ;; k" := (bind m (fun x => k))
  (at level 61, m at next level, right associativity).

(** [a + b] where [a] is a [str]: a [TypeError] unless [b] is one too. *)
Definition str_add (a : pystr) (b : pyval) : result pystr :=
  match b with
  | PStr s => inr (a ++ s)
  | _ => raise TypeError
  end.

(** [v.split(",")]: only a [str] has the method. *)
Definition method_split (v : pyval) (sep : ascii) : result (list pystr) :=
  match v with
  | PStr s => inr (split sep s)
  | _ => raise AttributeError
  end.

(** [segments[i]] on the list that [split] returned. *)
Definition list_getitem (l : list pystr) (i : Z) : result pystr :=
  match seq_index l i with
  | Some x => inr x
  | None => raise IndexError
  end.

(** ** The program *)

Section Okta2Aws.

Variable nfkc : pystr -> pystr.
Variable bracketed_host_ok : pystr -> bool.

(** [json.dumps] of a dictionary of strings. *)
Variable json_dumps : list (pystr * pystr) -> pystr.

(** [response.json()] *)
Variable json : Response -> result pyval.

(** [xmltodict.parse] *)
Variable xmltodict_parse : pybytes -> result pyval.

(** [BeautifulSoup(markup, features="html.parser")] *)
Variable BeautifulSoup : pystr -> result Node.

(** The answer of [requests] to a call, given the calls made before it:
    a response, or the exception the call raises. *)
Variable http : list Request -> Request -> result Response.

Definition send (req : Request) : IO Response :=
  fun log => (http log req, (log ++ [req])%list).

Definition requests_post (u : pystr) (hdrs : list (pystr * pystr)) (body : pystr)
  : IO Response :=
  send (mkRequest POST u hdrs (Some body)).

Definition requests_get (u : pystr) : IO Response :=
  send (mkRequest GET u [] None).

(** *** [oktaAuth] *)

Definition oktaAuth (username password oktaUrl : pystr) : IO pyval :=
  let oktaAuthUrl := oktaUrl ++ "/api/v1/authn" in
  let headerDict := [("Content-Type", "application/json; charset=utf-8")] in
  let oktaCreds := json_dumps [("username", username); ("password", password)] in
  response <- requests_post oktaAuthUrl headerDict oktaCreds ;;
  body <- lift (json response) ;;
  lift (getitem body (KStr "sessionToken")).

(** *** [oktaGetSamlResponse] *)

Definition oktaGetSamlResponse (oktaUrl : pystr) (sessionToken : pyval)
           (oktaForwardUrl : pystr) : IO pystr :=
  let samlUrl :=
    oktaUrl ++ "/login/sessionCookieRedirect?checkAccountSetupComplete=true&token=" in
  target <- lift (str_add samlUrl sessionToken) ;;
  samlAuth <- requests_get (target ++ "&redirectUrl=" ++ oktaForwardUrl) ;;
  markup <- lift (decode (_content samlAuth)) ;;
  bs <- lift (BeautifulSoup markup) ;;
  samlResp <- lift (tag_getitem (find bs "input" [("name", "SAMLResponse")]) "value") ;;
  ret (unquote samlResp).

(** *** [awsAssumeRole] *)

(** The subscripts that lead from the parsed assertion to the text
    holding the two ARNs. *)
Definition arn_path : list pykey :=
  [KStr "saml2p:Response"; KStr "saml2:Assertion"; KStr "saml2:AttributeStatement";
   KStr "saml2:Attribute"; KInt 0; KStr "saml2:AttributeValue"; KStr "#text"].

(** The subscripts that lead from the parsed answer of STS to the
    credentials. *)
Definition credentials_path : list pykey :=
  [KStr "AssumeRoleWithSAMLResponse"; KStr "AssumeRoleWithSAMLResult";
   KStr "Credentials"].

(** [v[k1][k2]...] *)
Fixpoint getitems (v : pyval) (ks : list pykey) : result pyval :=
  match ks with
  | [] => inr v
  | k :: ks' => rbind (getitem v k) (fun v' => getitems v' ks')
  end.

Definition sts_prefix : pystr :=
  "https://sts.amazonaws.com/?Version=2011-06-15&Action=AssumeRoleWithSAML&RoleArn=".

Definition awsAssumeRole (samlb64enc : pystr) : IO pyval :=
  xml <- lift (b64decode samlb64enc) ;;
  arnDict <- lift (xmltodict_parse xml) ;;
  arnStr <- lift (getitems arnDict arn_path) ;;
  segments <- lift (method_split arnStr ",") ;;
  roleArn <- lift (list_getitem segments 1) ;;
  segments' <- lift (method_split arnStr ",") ;;
  principalArn <- lift (list_getitem segments' 0) ;;
  let awsReqUrl :=
    sts_prefix ++ roleArn ++ "&PrincipalArn=" ++ principalArn
    ++ "&SAMLAssertion=" ++ quote_plus samlb64enc in
  awsResp <- requests_get awsReqUrl ;;
  awsXml <- lift (decode (_content awsResp)) ;;
  awsDict <- lift (xmltodict_parse awsXml) ;;
  lift (getitems awsDict credentials_path).

(** *** [getOktaUrl] *)

Definition getOktaUrl (fullUrl : pystr) : result pystr :=
  rbind (urlparse nfkc bracketed_host_ok fullUrl) (fun urlTuple =>
    inr (scheme urlTuple ++ "://" ++ netloc urlTuple)).

(** *** [assume] *)

Definition assume (username password oktaForwardUrl : pystr) : IO pyval :=
  oktaUrl <- lift (getOktaUrl oktaForwardUrl) ;;
  sessionToken <- oktaAuth username password oktaUrl ;;
  samlb64enc <- oktaGetSamlResponse oktaUrl sessionToken oktaForwardUrl ;;
  awsAssumeRole samlb64enc.

End Okta2Aws.

(** ** Vocabulary of the properties *)

(** A scheme as RFC 3986 writes it: a letter followed by letters, digits
    and ["+-."]. *)
Definition valid_scheme (s : pystr) : bool :=
  match s with
  | String c _ => is_alpha c && string_forall scheme_char s
  | EmptyString => false
  end.

(** A character of an authority without a bracketed IP literal: ASCII, not
    one of the delimiters that end the authority, not a tab or a line
    break. *)
Definition authority_char (c : ascii) : bool :=
  is_ascii_char c && negb (netloc_delim c) && negb (unsafe_url_byte c)
  && negb (Ascii.eqb c "[") && negb (Ascii.eqb c "]").

(** A host, with its optional user information and port. *)
Definition plain_authority (a : pystr) : bool :=
  negb (String.eqb a "") && string_forall authority_char a.

(** What may follow the authority: nothing, or a path, query or fragment
    introduced by its delimiter. *)
Definition starts_tail (r : pystr) : bool :=
  match r with
  | EmptyString => true
  | String c _ => netloc_delim c
  end.

(** An ASCII character other than a bracket. *)
Definition plain_char (c : ascii) : bool :=
  is_ascii_char c && negb (Ascii.eqb c "[") && negb (Ascii.eqb c "]").

(** The call [oktaAuth] makes. *)
Definition authn_request (json_dumps : list (pystr * pystr) -> pystr)
           (username password oktaUrl : pystr) : Request :=
  mkRequest POST (oktaUrl ++ "/api/v1/authn")
            [("Content-Type", "application/json; charset=utf-8")]
            (Some (json_dumps [("username", username); ("password", password)])).

(** The call [oktaGetSamlResponse] makes. *)
Definition redirect_request (oktaUrl token oktaForwardUrl : pystr) : Request :=
  mkRequest GET
    (oktaUrl ++ "/login/sessionCookieRedirect?checkAccountSetupComplete=true&token="
     ++ token ++ "&redirectUrl=" ++ oktaForwardUrl) [] None.

(** The call [awsAssumeRole] makes: the query string of the STS request. *)
Definition sts_request (roleArn principalArn samlAssertion : pystr) : Request :=
  mkRequest GET
    ("https://sts.amazonaws.com/?Version=2011-06-15&Action=AssumeRoleWithSAML"
     ++ "&RoleArn=" ++ roleArn ++ "&PrincipalArn=" ++ principalArn
     ++ "&SAMLAssertion=" ++ samlAssertion) [] None.

(** The filter [oktaGetSamlResponse] searches with: an [input] element
    whose [name] is [SAMLResponse]. *)
Definition is_saml_input (n : Node) : bool :=
  node_matches "input" [("name", "SAMLResponse")] n.

(** Where a comma-separated segment ends: at the end of the text or at the
    next comma. *)
Definition segment_end (tail : pystr) : bool :=
  match tail with
  | EmptyString => true
  | String c _ => Ascii.eqb c ","
  end.

(** ** A test double of the environment

    Stand-ins for the library routines and for the servers, used to run the
    program on concrete inputs. *)

Module Mock.

Definition nfkc (s : pystr) : pystr := s.

Definition bracketed_host_ok (h : pystr) : bool := true.

(** The double quote. *)
Definition dq : string := String (ascii_of_N 34) "".

Definition json_string (s : pystr) : pystr := dq ++ s ++ dq.

(** Enough of [json.dumps] for values without special characters. *)
Fixpoint json_members (items : list (pystr * pystr)) : pystr :=
  match items with
  | [] => ""
  | [(k, v)] => json_string k ++ ": " ++ json_string v
  | (k, v) :: rest => json_string k ++ ": " ++ json_string v ++ ", " ++ json_members rest
  end.

Definition json_dumps (items : list (pystr * pystr)) : pystr :=
  "{" ++ json_members items ++ "}".

Definition okta_origin : pystr := "https://okta.example.com".

Definition forward_url : pystr :=
  "https://okta.example.com/home/amazon_aws/0oa123/272".

(** The body Okta sends for accepted credentials. *)
Definition authn_ok_body : pybytes :=
  "{" ++ json_string "sessionToken" ++ ":" ++ json_string "abc123" ++ "}".

(** The body Okta sends with status 401 for rejected credentials. *)
Definition authn_rejected_body : pybytes :=
  "{" ++ json_string "errorCode" ++ ":" ++ json_string "E0000004" ++ ","
  ++ json_string "errorSummary" ++ ":" ++ json_string "Authentication failed" ++ "}".

Definition json (r : Response) : result pyval :=
  if String.eqb (_content r) authn_ok_body
  then inr (PDict [("sessionToken", PStr "abc123")])
  else if String.eqb (_content r) authn_rejected_body
  then inr (PDict [("errorCode", PStr "E0000004");
                   ("errorSummary", PStr "Authentication failed")])
  else raise (LibraryError "JSONDecodeError").

Definition principal_arn : pystr := "arn:aws:iam::111111111111:saml-provider/Example".

Definition role_arn : pystr := "arn:aws:iam::111111111111:role/ExampleRole".

(** A SAML response as Okta issues it for the AWS application, reduced to
    the elements the program reads. *)
Definition saml_xml_with (arns : pystr) : pybytes :=
  "<saml2p:Response><saml2:Assertion><saml2:AttributeStatement>"
  ++ "<saml2:Attribute Name='https://aws.amazon.com/SAML/Attributes/Role'>"
  ++ "<saml2:AttributeValue xsi:type='xs:string'>" ++ arns ++ "</saml2:AttributeValue>"
  ++ "</saml2:Attribute>"
  ++ "<saml2:Attribute Name='https://aws.amazon.com/SAML/Attributes/RoleSessionName'>"
  ++ "<saml2:AttributeValue xsi:type='xs:string'>alice</saml2:AttributeValue>"
  ++ "</saml2:Attribute>"
  ++ "</saml2:AttributeStatement></saml2:Assertion></saml2p:Response>".

(** What [xmltodict.parse] makes of it. *)
Definition saml_dict_with (arns : pystr) : pyval :=
  PDict [("saml2p:Response",
    PDict [("saml2:Assertion",
      PDict [("saml2:AttributeStatement",
        PDict [("saml2:Attribute",
          PList [PDict [("@Name", PStr "https://aws.amazon.com/SAML/Attributes/Role");
                        ("saml2:AttributeValue",
                         PDict [("@xsi:type", PStr "xs:string"); ("#text", PStr arns)])];
                 PDict [("@Name", PStr "https://aws.amazon.com/SAML/Attributes/RoleSessionName");
                        ("saml2:AttributeValue",
                         PDict [("@xsi:type", PStr "xs:string"); ("#text", PStr "alice")])]])])])])].

Definition arn_pair : pystr := principal_arn ++ "," ++ role_arn.

Definition saml_xml : pybytes := saml_xml_with arn_pair.

(** An assertion that names the role only. *)
Definition saml_xml_single : pybytes := saml_xml_with role_arn.

Definition samlb64enc : pystr := Eval vm_compute in b64encode saml_xml.

Definition samlb64enc_single : pystr := Eval vm_compute in b64encode saml_xml_single.

Definition credentials : pyval :=
  PDict [("AccessKeyId", PStr "ASIAEXAMPLEKEYID");
         ("SecretAccessKey", PStr "wJalrXUtnFEMIexampleSECRET");
         ("SessionToken", PStr "FQoGZXIvYXdzEexampleTOKEN");
         ("Expiration", PStr "2021-09-24T13:00:00Z")].

Definition sts_xml : pybytes :=
  "<AssumeRoleWithSAMLResponse xmlns='https://sts.amazonaws.com/doc/2011-06-15/'>"
  ++ "<AssumeRoleWithSAMLResult><Credentials>"
  ++ "<AccessKeyId>ASIAEXAMPLEKEYID</AccessKeyId>"
  ++ "<SecretAccessKey>wJalrXUtnFEMIexampleSECRET</SecretAccessKey>"
  ++ "<SessionToken>FQoGZXIvYXdzEexampleTOKEN</SessionToken>"
  ++ "<Expiration>2021-09-24T13:00:00Z</Expiration>"
  ++ "</Credentials></AssumeRoleWithSAMLResult></AssumeRoleWithSAMLResponse>".

Definition sts_dict : pyval :=
  PDict [("AssumeRoleWithSAMLResponse",
    PDict [("@xmlns", PStr "https://sts.amazonaws.com/doc/2011-06-15/");
           ("AssumeRoleWithSAMLResult", PDict [("Credentials", credentials)])])].

Definition xmltodict_parse (xml : pybytes) : result pyval :=
  if String.eqb xml saml_xml then inr (saml_dict_with arn_pair)
  else if String.eqb xml saml_xml_single then inr (saml_dict_with role_arn)
  else if String.eqb xml sts_xml then inr sts_dict
  else raise (LibraryError "ExpatError").

(** The page that carries the assertion in a hidden form field. *)
Definition saml_page : pystr :=
  "<html><body><form method='post'>"
  ++ "<input name='SAMLResponse' type='hidden' value='" ++ quote_plus samlb64enc ++ "'/>"
  ++ "<input name='RelayState' type='hidden' value=''/>"
  ++ "</form></body></html>".

Definition saml_soup : Node :=
  Tag "[document]" []
    [Tag "html" []
       [Tag "body" []
          [Tag "form" [("method", "post")]
             [Tag "input" [("name", "SAMLResponse"); ("type", "hidden");
                           ("value", quote_plus samlb64enc)] [];
              Tag "input" [("name", "RelayState"); ("type", "hidden"); ("value", "")] []]]]].

(** The page Okta answers with when the token is not accepted. *)
Definition login_page : pystr :=
  "<html><body><form><input name='username'/><input name='password' type='password'/>"
  ++ "</form></body></html>".

Definition login_soup : Node :=
  Tag "[document]" []
    [Tag "html" []
       [Tag "body" []
          [Tag "form" []
             [Tag "input" [("name", "username")] [];
              Tag "input" [("name", "password"); ("type", "password")] []]]]].

Definition BeautifulSoup (markup : pystr) : result Node :=
  if String.eqb markup saml_page then inr saml_soup
  else if String.eqb markup login_page then inr login_soup
  else inr (Tag "[document]" [] [NavigableString markup]).

Definition redirect_url (token : pystr) : pystr :=
  okta_origin ++ "/login/sessionCookieRedirect?checkAccountSetupComplete=true&token="
  ++ token ++ "&redirectUrl=" ++ forward_url.

Definition sts_url (assertion : pystr) : pystr :=
  "https://sts.amazonaws.com/?Version=2011-06-15&Action=AssumeRoleWithSAML&RoleArn="
  ++ role_arn ++ "&PrincipalArn=" ++ principal_arn
  ++ "&SAMLAssertion=" ++ quote_plus assertion.

(** The two servers: Okta accepts [alice] with the password [correct horse]
    and redeems the token [abc123]; STS accepts the assertion of
    [saml_xml]. *)
Definition http (log : list Request) (req : Request) : result Response :=
  match method req with
  | POST =>
      if String.eqb (url req) (okta_origin ++ "/api/v1/authn") then
        match data req with
        | Some body =>
            if String.eqb body
                 (json_dumps [("username", "alice"); ("password", "correct horse")])
            then inr (mkResponse 200 authn_ok_body)
            else inr (mkResponse 401 authn_rejected_body)
        | None => inr (mkResponse 400 "")
        end
      else raise (LibraryError "ConnectionError")
  | GET =>
      if String.eqb (url req) (redirect_url "abc123") then inr (mkResponse 200 saml_page)
      else if startswith (okta_origin ++ "/login/sessionCookieRedirect?") (url req)
      then inr (mkResponse 200 login_page)
      else if String.eqb (url req) (sts_url samlb64enc) then inr (mkResponse 200 sts_xml)
      else raise (LibraryError "ConnectionError")
  end.

End Mock.

(** * Properties *)

(** ** Facts about the string operations *)

Section StringFacts.

Lemma string_filter_app p a b :
  string_filter p (a ++ b) = string_filter p a ++ string_filter p b.
Proof.
  induction a as [|c a IH]; simpl; [reflexivity|].
  rewrite IH. destruct (p c); reflexivity.
Qed.

Lemma string_filter_id p s :
  string_forall p s = true -> string_filter p s = s.
Proof.
  induction s as [|c s IH]; simpl; [reflexivity|].
  intros H. apply andb_prop in H as [Hc Hs].
  rewrite Hc, IH by assumption. reflexivity.
Qed.

Lemma string_forall_filter p q s :
  string_forall p s = true -> string_forall p (string_filter q s) = true.
Proof.
  induction s as [|c s IH]; simpl; [reflexivity|].
  intros H. apply andb_prop in H as [Hc Hs].
  destruct (q c); simpl; [rewrite Hc|]; auto.
Qed.

Lemma string_forall_lstrip p q s :
  string_forall p s = true -> string_forall p (lstrip q s) = true.
Proof.
  induction s as [|c s IH]; simpl; [reflexivity|].
  intros H. destruct (q c); [|exact H].
  apply andb_prop in H as [_ Hs]. auto.
Qed.

Lemma string_forall_impl (p q : ascii -> bool) s :
  (forall c, p c = true -> q c = true) ->
  string_forall p s = true -> string_forall q s = true.
Proof.
  intros Hpq. induction s as [|c s IH]; simpl; [reflexivity|].
  intros H. apply andb_prop in H as [Hc Hs].
  rewrite (Hpq _ Hc), IH by assumption. reflexivity.
Qed.

(** A character that fails [p] does not occur in a string all of whose
    characters pass [p]. *)
Lemma forall_not_contains p c s :
  p c = false -> string_forall p s = true -> contains c s = false.
Proof.
  intros Hc. induction s as [|d s IH]; simpl; [reflexivity|].
  intros H. apply andb_prop in H as [Hd Hs].
  rewrite IH by assumption. rewrite orb_false_r.
  destruct (Ascii.eqb_spec d c) as [->|]; [congruence|reflexivity].
Qed.

Lemma partition_found c a b :
  contains c a = false -> partition c (a ++ String c b) = (a, true, b).
Proof.
  induction a as [|d a IH]; simpl.
  - intros _. rewrite Ascii.eqb_refl. reflexivity.
  - intros H. apply orb_false_elim in H as [Hd Ha].
    rewrite Hd, IH by assumption. reflexivity.
Qed.

Lemma partition_absent c s :
  contains c s = false -> partition c s = (s, false, "").
Proof.
  induction s as [|d s IH]; simpl; [reflexivity|].
  intros H. apply orb_false_elim in H as [Hd Hs].
  rewrite Hd, IH by assumption. reflexivity.
Qed.

(** The pieces that [partition] returns are made of characters of the
    string it cuts. *)
Lemma partition_forall p c s a found b :
  partition c s = (a, found, b) -> string_forall p s = true ->
  string_forall p a = true /\ string_forall p b = true.
Proof.
  revert a found b. induction s as [|d s IH]; simpl; intros a found b Hp Hs.
  - inversion Hp; subst. split; reflexivity.
  - apply andb_prop in Hs as [Hd Hs].
    destruct (Ascii.eqb d c).
    + inversion Hp; subst. split; [reflexivity|assumption].
    + destruct (partition c s) as [[a' f'] b'] eqn:E.
      inversion Hp; subst.
      destruct (IH _ _ _ eq_refl Hs) as [Ha Hb].
      simpl. rewrite Hd, Ha. split; [reflexivity|assumption].
Qed.

Lemma break_at_forall p q s a b :
  break_at q s = (a, b) -> string_forall p s = true ->
  string_forall p a = true /\ string_forall p b = true.
Proof.
  revert a b. induction s as [|d s IH]; simpl; intros a b Hb Hs.
  - inversion Hb; subst. split; reflexivity.
  - destruct (q d).
    + inversion Hb; subst. split; [reflexivity|exact Hs].
    + apply andb_prop in Hs as [Hd Hs].
      destruct (break_at q s) as [a' b'] eqn:E.
      inversion Hb; subst.
      destruct (IH _ _ eq_refl Hs) as [Ha Hb'].
      simpl. rewrite Hd, Ha. split; [reflexivity|assumption].
Qed.

(** [break_at] stops exactly where a prefix free of delimiters ends. *)
Lemma break_at_app q a r :
  string_forall (fun c => negb (q c)) a = true ->
  (r = "" \/ exists c r', r = String c r' /\ q c = true) ->
  break_at q (a ++ r) = (a, r).
Proof.
  intros Ha Hr. induction a as [|d a IH]; simpl in *.
  - destruct Hr as [->|(c & r' & -> & Hc)]; simpl; [reflexivity|].
    rewrite Hc. reflexivity.
  - apply andb_prop in Ha as [Hd Ha].
    apply negb_true_iff in Hd. rewrite Hd, IH by assumption. reflexivity.
Qed.

(** [split] on a text that starts with two segments. *)
Lemma split_cons c a rest :
  contains c a = false ->
  split c (a ++ String c rest) = a :: split c rest.
Proof.
  induction a as [|d a IH]; simpl.
  - intros _. rewrite Ascii.eqb_refl. reflexivity.
  - intros H. apply orb_false_elim in H as [Hd Ha].
    rewrite Hd, IH by assumption. reflexivity.
Qed.

Lemma split_single c s : contains c s = false -> split c s = [s].
Proof.
  induction s as [|d s IH]; simpl; [reflexivity|].
  intros H. apply orb_false_elim in H as [Hd Hs].
  rewrite Hd, IH by assumption. reflexivity.
Qed.

End StringFacts.

(** ** [urlsplit] and [getOktaUrl] *)

Section UrlFacts.

Variable nfkc : pystr -> pystr.
Variable bracketed_host_ok : pystr -> bool.

Lemma is_alpha_ascii c : is_alpha c = true -> is_ascii_char c = true.
Proof.
  unfold is_alpha, is_upper, is_lower, is_ascii_char.
  intros H. apply N.ltb_lt.
  apply orb_prop in H as [H|H]; apply andb_prop in H as [_ H];
    apply N.leb_le in H; lia.
Qed.

Lemma is_alpha_not_c0 c : is_alpha c = true -> c0_control_or_space c = false.
Proof.
  unfold is_alpha, is_upper, is_lower, c0_control_or_space.
  intros H. apply N.leb_gt.
  apply orb_prop in H as [H|H]; apply andb_prop in H as [H _];
    apply N.leb_le in H; lia.
Qed.

(** A scheme character is none of the characters [urlsplit] removes or
    splits at. *)
Lemma scheme_char_plain c :
  scheme_char c = true ->
  unsafe_url_byte c = false /\ Ascii.eqb c ":" = false.
Proof.
  unfold scheme_char, unsafe_url_byte, is_alpha, is_upper, is_lower, is_digit.
  destruct (Ascii.eqb_spec c "+") as [->|_]; [split; reflexivity|].
  destruct (Ascii.eqb_spec c "-") as [->|_]; [split; reflexivity|].
  destruct (Ascii.eqb_spec c ".") as [->|_]; [split; reflexivity|].
  rewrite !orb_false_r. intros H.
  assert (Hr : (48 <= code c <= 57 \/ 65 <= code c <= 90 \/ 97 <= code c <= 122)%N).
  { repeat (apply orb_prop in H as [H|H]);
      apply andb_prop in H as [H1 H2];
      apply N.leb_le in H1; apply N.leb_le in H2; lia. }
  split.
  - repeat (apply orb_false_intro); apply N.eqb_neq; lia.
  - destruct (Ascii.eqb_spec c ":") as [->|_]; [|reflexivity].
    unfold code in Hr. simpl in Hr. lia.
Qed.

Lemma authority_char_spec c :
  authority_char c = true ->
  is_ascii_char c = true /\ netloc_delim c = false /\ unsafe_url_byte c = false
  /\ Ascii.eqb c "[" = false /\ Ascii.eqb c "]" = false.
Proof.
  unfold authority_char. intros H.
  repeat (apply andb_prop in H as [H ?]).
  repeat match goal with
         | X : negb _ = true |- _ => apply negb_true_iff in X
         end.
  auto.
Qed.

Lemma valid_scheme_spec s :
  valid_scheme s = true ->
  exists c s', s = String c s' /\ is_alpha c = true
               /\ string_forall scheme_char s = true.
Proof.
  destruct s as [|c s']; simpl; [discriminate|].
  intros H. apply andb_prop in H as [Ha Hs].
  exists c, s'. simpl. auto.
Qed.

Lemma valid_scheme_clean s :
  valid_scheme s = true ->
  string_forall (fun c => negb (unsafe_url_byte c)) s = true
  /\ contains ":" s = false.
Proof.
  intros H. apply valid_scheme_spec in H as (c & s' & -> & _ & Hs). split.
  - eapply string_forall_impl; [|exact Hs].
    intros d Hd. apply scheme_char_plain in Hd as [-> _]. reflexivity.
  - eapply (forall_not_contains scheme_char); [reflexivity|exact Hs].
Qed.

Lemma starts_tail_spec r :
  starts_tail r = true ->
  r = "" \/ exists c r', r = String c r' /\ netloc_delim c = true.
Proof. destruct r as [|c r']; simpl; eauto. Qed.

Lemma netloc_delim_not_unsafe c : netloc_delim c = true -> unsafe_url_byte c = false.
Proof.
  unfold netloc_delim. intros H.
  repeat (apply orb_prop in H as [H|H]);
    apply Ascii.eqb_eq in H; subst; reflexivity.
Qed.

Lemma starts_tail_remove_unsafe r :
  starts_tail r = true -> starts_tail (remove_unsafe r) = true.
Proof.
  destruct r as [|c r']; simpl; [reflexivity|].
  intros H. unfold remove_unsafe. simpl.
  rewrite (netloc_delim_not_unsafe _ H). simpl. exact H.
Qed.

(** What [urlsplit] reads of a URL made of a scheme, ["://"], an authority
    and a tail. *)
Lemma cleaned_url sch auth rest :
  valid_scheme sch = true -> string_forall authority_char auth = true ->
  cleaned (sch ++ "://" ++ auth ++ rest) = sch ++ "://" ++ auth ++ remove_unsafe rest.
Proof.
  intros Hs Ha. unfold cleaned.
  assert (Hl : lstrip c0_control_or_space (sch ++ "://" ++ auth ++ rest)
               = sch ++ "://" ++ auth ++ rest).
  { destruct (valid_scheme_spec _ Hs) as (c & s' & -> & Hc & _).
    simpl. rewrite (is_alpha_not_c0 _ Hc). reflexivity. }
  rewrite Hl. unfold remove_unsafe.
  rewrite string_filter_app.
  rewrite (string_filter_id _ sch) by (apply valid_scheme_clean; exact Hs).
  f_equal. simpl. f_equal. f_equal. f_equal.
  rewrite string_filter_app. f_equal.
  apply string_filter_id.
  eapply string_forall_impl; [|exact Ha].
  intros c Hc. apply authority_char_spec in Hc as (_ & _ & -> & _). reflexivity.
Qed.

Lemma split_scheme_found sch rest :
  valid_scheme sch = true ->
  split_scheme (sch ++ String ":" rest) = (lower sch, rest).
Proof.
  intros Hs. unfold split_scheme.
  rewrite partition_found by (apply valid_scheme_clean; exact Hs).
  destruct (valid_scheme_spec _ Hs) as (c & s' & -> & Hc & Hall).
  rewrite (is_alpha_ascii _ Hc), Hc, Hall. reflexivity.
Qed.

Lemma split_scheme_no_colon url :
  contains ":" url = false -> split_scheme url = ("", url).
Proof.
  intros H. unfold split_scheme. rewrite (partition_absent _ _ H).
  destruct url; reflexivity.
Qed.

(** An ASCII network location without brackets passes both checks. *)
Lemma bracket_free_checks loc :
  isascii loc = true -> contains "[" loc = false -> contains "]" loc = false ->
  check_brackets bracketed_host_ok loc = inr tt /\ _checknetloc nfkc loc = inr tt.
Proof.
  intros Hascii Hob Hcb. split.
  - unfold check_brackets. rewrite Hob, Hcb. reflexivity.
  - unfold _checknetloc. rewrite Hascii, orb_true_r. reflexivity.
Qed.

Lemma authority_checks auth :
  string_forall authority_char auth = true ->
  check_brackets bracketed_host_ok auth = inr tt /\ _checknetloc nfkc auth = inr tt.
Proof.
  intros Ha. apply bracket_free_checks.
  - eapply string_forall_impl; [|exact Ha].
    intros c Hc. apply authority_char_spec in Hc as [-> _]. reflexivity.
  - eapply (forall_not_contains authority_char); [reflexivity|exact Ha].
  - eapply (forall_not_contains authority_char); [reflexivity|exact Ha].
Qed.

Lemma urlsplit_scheme_authority sch auth rest :
  valid_scheme sch = true -> string_forall authority_char auth = true ->
  starts_tail rest = true ->
  exists sr, urlsplit nfkc bracketed_host_ok (sch ++ "://" ++ auth ++ rest) = inr sr
             /\ sr_scheme sr = lower sch /\ sr_netloc sr = auth.
Proof.
  intros Hs Ha Hr. unfold urlsplit.
  rewrite cleaned_url by assumption.
  change (sch ++ "://" ++ auth ++ remove_unsafe rest)
    with (sch ++ String ":" ("//" ++ auth ++ remove_unsafe rest)).
  rewrite split_scheme_found by assumption.
  change (string_take 2 ("//" ++ auth ++ remove_unsafe rest)) with "//".
  rewrite String.eqb_refl.
  unfold _splitnetloc.
  change (string_drop 2 ("//" ++ auth ++ remove_unsafe rest))
    with (auth ++ remove_unsafe rest).
  rewrite break_at_app.
  - destruct (authority_checks _ Ha) as [Hb Hn].
    rewrite Hb. simpl.
    destruct (partition "#" (remove_unsafe rest)) as [[u1 f1] frag].
    destruct (partition "?" u1) as [[u2 f2] q].
    rewrite Hn. simpl. eexists. split; [reflexivity|]. split; reflexivity.
  - eapply string_forall_impl; [|exact Ha].
    intros c Hc. apply authority_char_spec in Hc as (_ & -> & _). reflexivity.
  - apply starts_tail_spec, starts_tail_remove_unsafe, Hr.
Qed.

Lemma plain_authority_chars auth :
  plain_authority auth = true -> string_forall authority_char auth = true.
Proof. unfold plain_authority. intros H. apply andb_prop in H as [_ H]. exact H. Qed.

Lemma getOktaUrl_of_urlsplit url sr :
  urlsplit nfkc bracketed_host_ok url = inr sr ->
  getOktaUrl nfkc bracketed_host_ok url = inr (sr_scheme sr ++ "://" ++ sr_netloc sr).
Proof.
  intros H. unfold getOktaUrl, urlparse. rewrite H. simpl.
  match goal with |- context [if ?b then _ else _] => destruct b end;
    [destruct (_splitparams _)|]; reflexivity.
Qed.

Lemma getOktaUrl_of_urlsplit_error url e :
  urlsplit nfkc bracketed_host_ok url = inl e ->
  getOktaUrl nfkc bracketed_host_ok url = inl e.
Proof.
  intros H. unfold getOktaUrl, urlparse. rewrite H. reflexivity.
Qed.

Lemma take2_not_slashes u :
  startswith "//" u = false -> String.eqb (string_take 2 u) "//" = false.
Proof.
  destruct u as [|a [|b r]]; intros H.
  - reflexivity.
  - cbn [string_take String.eqb]. destruct (Ascii.eqb a "/"); reflexivity.
  - cbn [startswith] in H. cbn [string_take String.eqb].
    rewrite (Ascii.eqb_sym "/" a), (Ascii.eqb_sym "/" b), andb_true_r in H.
    destruct (Ascii.eqb a "/"); [|reflexivity].
    destruct (Ascii.eqb b "/"); [discriminate|reflexivity].
Qed.

(** Without a colon and without a leading ["//"] there is neither a
    scheme nor a network location. *)
Lemma getOktaUrl_no_scheme_no_host url :
  contains ":" url = false -> startswith "//" (cleaned url) = false ->
  getOktaUrl nfkc bracketed_host_ok url = inr "://".
Proof.
  intros Hc Hs.
  assert (Hc' : contains ":" (cleaned url) = false).
  { unfold cleaned, remove_unsafe.
    apply (forall_not_contains (fun c => negb (Ascii.eqb c ":"))).
    - reflexivity.
    - apply string_forall_filter, string_forall_lstrip.
      clear Hs. induction url as [|d url IH]; simpl in *; [reflexivity|].
      apply orb_false_elim in Hc as [-> Hc]. simpl. auto. }
  assert (Hsp : exists sr, urlsplit nfkc bracketed_host_ok url = inr sr
                           /\ sr_scheme sr = "" /\ sr_netloc sr = "").
  { unfold urlsplit. rewrite (split_scheme_no_colon _ Hc').
    rewrite (take2_not_slashes _ Hs). simpl.
    destruct (partition "#" (cleaned url)) as [[u1 f1] frag].
    destruct (partition "?" u1) as [[u2 f2] q].
    eexists. split; [reflexivity|]. split; reflexivity. }
  destruct Hsp as (sr & Hsr & H1 & H2).
  rewrite (getOktaUrl_of_urlsplit _ _ Hsr), H1, H2. reflexivity.
Qed.

(** The only exception [urlsplit] raises is [ValueError]. *)
Lemma urlsplit_error url e :
  urlsplit nfkc bracketed_host_ok url = inl e -> e = ValueError.
Proof.
  unfold urlsplit, check_brackets, _check_bracketed_netloc, _checknetloc, raise, rbind.
  repeat match goal with
         | |- context [let '(_, _) := ?x in _] => destruct x
         | |- context [if ?b then _ else _] => destruct b
         | |- context [match ?x with _ => _ end] => destruct x
         end; intros H; congruence.
Qed.

Lemma string_forall_drop p n s :
  string_forall p s = true -> string_forall p (string_drop n s) = true.
Proof.
  revert s. induction n as [|n IH]; intros [|c s] H; simpl; auto.
  simpl in H. apply andb_prop in H as [_ H]. auto.
Qed.

Lemma plain_forall s :
  isascii s = true -> contains "[" s = false -> contains "]" s = false ->
  string_forall plain_char s = true.
Proof.
  unfold isascii, plain_char.
  induction s as [|c s IH]; simpl; [reflexivity|].
  intros Ha Ho Hc.
  apply andb_prop in Ha as [Hca Ha].
  apply orb_false_elim in Ho as [Hco Ho].
  apply orb_false_elim in Hc as [Hcc Hc].
  rewrite Hca, Hco, Hcc, IH by assumption. reflexivity.
Qed.

Lemma plain_forall_inv s :
  string_forall plain_char s = true ->
  isascii s = true /\ contains "[" s = false /\ contains "]" s = false.
Proof.
  intros H. repeat split.
  - eapply string_forall_impl; [|exact H].
    unfold plain_char. intros c Hc.
    apply andb_prop in Hc as [Hc _]. apply andb_prop in Hc as [Hc _]. exact Hc.
  - eapply (forall_not_contains plain_char); [reflexivity|exact H].
  - eapply (forall_not_contains plain_char); [reflexivity|exact H].
Qed.

Lemma split_scheme_forall p url sch rest :
  split_scheme url = (sch, rest) -> string_forall p url = true ->
  string_forall p rest = true.
Proof.
  unfold split_scheme.
  destruct (partition ":" url) as [[a found] b] eqn:E.
  intros H Hu.
  destruct (partition_forall p _ _ _ _ _ E Hu) as [_ Hb].
  destruct a as [|c0 pre]; [inversion H; subst; exact Hu|].
  destruct found; [|inversion H; subst; exact Hu].
  match type of H with (if ?b then _ else _) = _ => destruct b end;
    inversion H; subst; assumption.
Qed.

(** On ASCII text without brackets [urlsplit] returns. *)
Lemma urlsplit_plain url :
  isascii url = true -> contains "[" url = false -> contains "]" url = false ->
  exists sr, urlsplit nfkc bracketed_host_ok url = inr sr.
Proof.
  intros Ha Ho Hc.
  pose proof (plain_forall _ Ha Ho Hc) as Hp.
  assert (Hcl : string_forall plain_char (cleaned url) = true).
  { unfold cleaned, remove_unsafe.
    apply string_forall_filter, string_forall_lstrip, Hp. }
  unfold urlsplit.
  destruct (split_scheme (cleaned url)) as [sch rest] eqn:Es.
  pose proof (split_scheme_forall _ _ _ _ Es Hcl) as Hrest.
  destruct (String.eqb (string_take 2 rest) "//").
  - unfold _splitnetloc.
    destruct (break_at netloc_delim (string_drop 2 rest)) as [loc u] eqn:Eb.
    destruct (break_at_forall plain_char _ _ _ _ Eb (string_forall_drop _ 2 _ Hrest))
      as [Hloc _].
    apply plain_forall_inv in Hloc as (H1 & H2 & H3).
    destruct (bracket_free_checks _ H1 H2 H3) as [Hb Hn].
    rewrite Hb. simpl.
    destruct (partition "#" u) as [[u1 f1] frag].
    destruct (partition "?" u1) as [[u2 f2] q].
    rewrite Hn. simpl. eexists. reflexivity.
  - simpl.
    destruct (partition "#" rest) as [[u1 f1] frag].
    destruct (partition "?" u1) as [[u2 f2] q].
    simpl. eexists. reflexivity.
Qed.

Lemma cleaned_after_scheme sch rest :
  valid_scheme sch = true ->
  cleaned (sch ++ rest) = sch ++ remove_unsafe rest.
Proof.
  intros Hs. unfold cleaned.
  assert (Hl : lstrip c0_control_or_space (sch ++ rest) = sch ++ rest).
  { destruct (valid_scheme_spec _ Hs) as (c & s' & -> & Hc & _).
    simpl. rewrite (is_alpha_not_c0 _ Hc). reflexivity. }
  rewrite Hl. unfold remove_unsafe. rewrite string_filter_app.
  rewrite (string_filter_id _ sch) by (apply valid_scheme_clean; exact Hs).
  reflexivity.
Qed.

(** A scheme followed by something other than ["//"]: no network
    location. *)
Lemma getOktaUrl_scheme_only sch rest :
  valid_scheme sch = true -> startswith "//" (remove_unsafe rest) = false ->
  getOktaUrl nfkc bracketed_host_ok (sch ++ ":" ++ rest) = inr (lower sch ++ "://").
Proof.
  intros Hs Hr.
  assert (Hsp : exists sr, urlsplit nfkc bracketed_host_ok (sch ++ ":" ++ rest) = inr sr
                           /\ sr_scheme sr = lower sch /\ sr_netloc sr = "").
  { unfold urlsplit. rewrite cleaned_after_scheme by assumption.
    change (remove_unsafe (":" ++ rest)) with (String ":" (remove_unsafe rest)).
    rewrite split_scheme_found by assumption.
    rewrite (take2_not_slashes _ Hr). simpl.
    destruct (partition "#" (remove_unsafe rest)) as [[u1 f1] frag].
    destruct (partition "?" u1) as [[u2 f2] q].
    eexists. split; [reflexivity|]. split; reflexivity. }
  destruct Hsp as (sr & Hsr & H1 & H2).
  rewrite (getOktaUrl_of_urlsplit _ _ Hsr), H1, H2. reflexivity.
Qed.

Lemma split_scheme_not_alpha c r :
  is_alpha c = false -> split_scheme (String c r) = ("", String c r).
Proof.
  intros Hc. unfold split_scheme. simpl.
  destruct (Ascii.eqb c ":"); [reflexivity|].
  destruct (partition ":" r) as [[a found] b].
  destruct found; [|reflexivity].
  rewrite Hc, andb_false_r. reflexivity.
Qed.

(** A network location without a scheme in front. *)
Lemma getOktaUrl_host_only auth rest :
  string_forall authority_char auth = true -> starts_tail rest = true ->
  getOktaUrl nfkc bracketed_host_ok ("//" ++ auth ++ rest) = inr ("://" ++ auth).
Proof.
  intros Ha Hr.
  assert (Hsp : exists sr, urlsplit nfkc bracketed_host_ok ("//" ++ auth ++ rest) = inr sr
                           /\ sr_scheme sr = "" /\ sr_netloc sr = auth).
  { unfold urlsplit.
    assert (Hcl : cleaned ("//" ++ auth ++ rest) = "//" ++ auth ++ remove_unsafe rest).
    { unfold cleaned. simpl. unfold remove_unsafe. simpl. f_equal. f_equal.
      rewrite string_filter_app. f_equal.
      apply string_filter_id.
      eapply string_forall_impl; [|exact Ha].
      intros c Hc. apply authority_char_spec in Hc as (_ & _ & -> & _). reflexivity. }
    rewrite Hcl.
    change ("//" ++ auth ++ remove_unsafe rest)
      with (String "/" ("/" ++ auth ++ remove_unsafe rest)).
    rewrite split_scheme_not_alpha by reflexivity.
    change (string_take 2 (String "/" ("/" ++ auth ++ remove_unsafe rest))) with "//".
    rewrite String.eqb_refl. unfold _splitnetloc.
    change (string_drop 2 (String "/" ("/" ++ auth ++ remove_unsafe rest)))
      with (auth ++ remove_unsafe rest).
    rewrite break_at_app.
    - destruct (authority_checks _ Ha) as [Hb Hn].
      rewrite Hb. simpl.
      destruct (partition "#" (remove_unsafe rest)) as [[u1 f1] frag].
      destruct (partition "?" u1) as [[u2 f2] q].
      rewrite Hn. simpl. eexists. split; [reflexivity|]. split; reflexivity.
    - eapply string_forall_impl; [|exact Ha].
      intros c Hc. apply authority_char_spec in Hc as (_ & -> & _). reflexivity.
    - apply starts_tail_spec, starts_tail_remove_unsafe, Hr. }
  destruct Hsp as (sr & Hsr & H1 & H2).
  rewrite (getOktaUrl_of_urlsplit _ _ Hsr), H1, H2. reflexivity.
Qed.

(** A scheme in front of a network location, which may be empty. *)
Lemma getOktaUrl_scheme_authority sch auth rest :
  valid_scheme sch = true -> string_forall authority_char auth = true ->
  starts_tail rest = true ->
  getOktaUrl nfkc bracketed_host_ok (sch ++ "://" ++ auth ++ rest)
  = inr (lower sch ++ "://" ++ auth).
Proof.
  intros Hs Ha Hr.
  destruct (urlsplit_scheme_authority sch auth rest Hs Ha Hr) as (sr & Hsr & H1 & H2).
  rewrite (getOktaUrl_of_urlsplit _ _ Hsr), H1, H2. reflexivity.
Qed.

End UrlFacts.

(** C2. For a URL made of a scheme, ["://"], an authority (the host with its
    optional user information and port) and an optional path, query or
    fragment, [getOktaUrl] returns the scheme, in the lower case in which
    [urlparse] reports it, followed by ["://"] and the authority; path,
    query and fragment are dropped.  The scheme is any RFC 3986 scheme, the
    authority any non-empty ASCII text free of the delimiters, of tabs and
    line breaks and of brackets. *)
Theorem getOktaUrl_scheme_host :
  forall nfkc bracketed_host_ok sch auth rest,
    valid_scheme sch = true ->
    plain_authority auth = true ->
    starts_tail rest = true ->
    getOktaUrl nfkc bracketed_host_ok (sch ++ "://" ++ auth ++ rest)
    = inr (lower sch ++ "://" ++ auth).
Proof.
  intros nfkc ok sch auth rest Hs Ha Hr.
  apply getOktaUrl_scheme_authority; [exact Hs| |exact Hr].
  apply plain_authority_chars, Ha.
Qed.

(** The example of the specification:
    [resolve("https://okta.example.com/home/amazon_aws/0oa123/272")] is
    ["https://okta.example.com"]. *)
Lemma getOktaUrl_scheme_host_witness :
  valid_scheme "https" = true
  /\ plain_authority "okta.example.com" = true
  /\ starts_tail "/home/amazon_aws/0oa123/272" = true
  /\ getOktaUrl Mock.nfkc Mock.bracketed_host_ok
       "https://okta.example.com/home/amazon_aws/0oa123/272"
     = inr "https://okta.example.com".
Proof.
  split; [reflexivity|]. split; [reflexivity|]. split; [reflexivity|].
  exact (getOktaUrl_scheme_host Mock.nfkc Mock.bracketed_host_ok
           "https" "okta.example.com" "/home/amazon_aws/0oa123/272"
           eq_refl eq_refl eq_refl).
Defined.

(** C3, as the program behaves: a URL without a scheme and without a host
    is answered with the string ["://"], not with an [InvalidUrl] failure. *)
Lemma getOktaUrl_InvalidUrl_counterexample :
  getOktaUrl Mock.nfkc Mock.bracketed_host_ok "okta.example.com/home/amazon_aws/0oa123/272"
  = inr "://"
  /\ ~ fails_with (getOktaUrl Mock.nfkc Mock.bracketed_host_ok
                     "okta.example.com/home/amazon_aws/0oa123/272") "InvalidUrl".
Proof.
  split; [reflexivity|].
  intros (e & H & _). discriminate H.
Qed.

(** C3, amended.  [getOktaUrl] does not reject a URL that lacks a scheme or
    a host; it returns the origin with the missing part empty: ["://"] when
    both are missing, the scheme and ["://"] when only the host is missing
    (nothing after the colon that starts with ["//"], or an empty
    authority), ["://"] and the authority when only the scheme is
    missing. *)
Theorem getOktaUrl_missing_part :
  forall nfkc bracketed_host_ok,
    (forall url,
        contains ":" url = false -> startswith "//" (cleaned url) = false ->
        getOktaUrl nfkc bracketed_host_ok url = inr "://")
    /\ (forall sch rest,
           valid_scheme sch = true -> startswith "//" (remove_unsafe rest) = false ->
           getOktaUrl nfkc bracketed_host_ok (sch ++ ":" ++ rest) = inr (lower sch ++ "://"))
    /\ (forall sch rest,
           valid_scheme sch = true -> starts_tail rest = true ->
           getOktaUrl nfkc bracketed_host_ok (sch ++ "://" ++ rest) = inr (lower sch ++ "://"))
    /\ (forall auth rest,
           plain_authority auth = true -> starts_tail rest = true ->
           getOktaUrl nfkc bracketed_host_ok ("//" ++ auth ++ rest) = inr ("://" ++ auth)).
Proof.
  intros nfkc ok. split; [|split; [|split]].
  - apply getOktaUrl_no_scheme_no_host.
  - apply getOktaUrl_scheme_only.
  - intros sch rest Hs Hr.
    exact (getOktaUrl_scheme_authority nfkc ok sch "" rest Hs eq_refl Hr).
  - intros auth rest Ha Hr.
    apply getOktaUrl_host_only; [apply plain_authority_chars, Ha|exact Hr].
Qed.

Lemma getOktaUrl_missing_part_witness :
  getOktaUrl Mock.nfkc Mock.bracketed_host_ok "okta.example.com/home" = inr "://"
  /\ getOktaUrl Mock.nfkc Mock.bracketed_host_ok "mailto:user@example.com" = inr "mailto://"
  /\ getOktaUrl Mock.nfkc Mock.bracketed_host_ok "file:///etc/hosts" = inr "file://"
  /\ getOktaUrl Mock.nfkc Mock.bracketed_host_ok "//okta.example.com/home"
     = inr "://okta.example.com".
Proof.
  destruct (getOktaUrl_missing_part Mock.nfkc Mock.bracketed_host_ok)
    as (H1 & H2 & H3 & H4).
  split; [|split; [|split]].
  - apply (H1 "okta.example.com/home"); reflexivity.
  - apply (H2 "mailto" "user@example.com"); reflexivity.
  - apply (H3 "file" "/etc/hosts"); reflexivity.
  - apply (H4 "okta.example.com" "/home"); reflexivity.
Defined.

(** C10, as the program behaves: a URL whose authority opens a bracket that
    is never closed makes [urlparse], and so [getOktaUrl], raise
    [ValueError]. *)
Lemma getOktaUrl_total_counterexample :
  getOktaUrl Mock.nfkc Mock.bracketed_host_ok "https://[okta.example.com/home"
  = inl ValueError
  /\ ~ (exists origin, getOktaUrl Mock.nfkc Mock.bracketed_host_ok
                         "https://[okta.example.com/home" = inr origin).
Proof.
  split; [reflexivity|].
  intros (origin & H). discriminate H.
Qed.

(** C10, amended.  [getOktaUrl] either returns a string or raises
    [ValueError], the error of [urlparse] for an authority it rejects; it
    returns a string for every ASCII input without brackets; and for an
    input without a colon and without a leading ["//"] the string is the
    degenerate origin ["://"]. *)
Theorem getOktaUrl_returns_or_ValueError :
  forall nfkc bracketed_host_ok url,
    (getOktaUrl nfkc bracketed_host_ok url = inl ValueError
     \/ exists origin, getOktaUrl nfkc bracketed_host_ok url = inr origin)
    /\ (isascii url = true -> contains "[" url = false -> contains "]" url = false ->
        exists origin, getOktaUrl nfkc bracketed_host_ok url = inr origin)
    /\ (contains ":" url = false -> startswith "//" (cleaned url) = false ->
        getOktaUrl nfkc bracketed_host_ok url = inr "://").
Proof.
  intros nfkc ok url. split; [|split].
  - destruct (urlsplit nfkc ok url) as [e|sr] eqn:E.
    + left. rewrite (getOktaUrl_of_urlsplit_error _ _ _ _ E).
      rewrite (urlsplit_error _ _ _ _ E). reflexivity.
    + right. rewrite (getOktaUrl_of_urlsplit _ _ _ _ E). eexists. reflexivity.
  - intros Ha Ho Hc.
    destruct (urlsplit_plain nfkc ok url Ha Ho Hc) as (sr & E).
    rewrite (getOktaUrl_of_urlsplit _ _ _ _ E). eexists. reflexivity.
  - apply getOktaUrl_no_scheme_no_host.
Qed.

Lemma getOktaUrl_returns_or_ValueError_witness :
  exists origin,
    getOktaUrl Mock.nfkc Mock.bracketed_host_ok "not a url at all" = inr origin.
Proof.
  apply (getOktaUrl_returns_or_ValueError Mock.nfkc Mock.bracketed_host_ok
           "not a url at all"); reflexivity.
Defined.

(** ** The stages *)

Section StageFacts.

Variable json_dumps : list (pystr * pystr) -> pystr.
Variable json : Response -> result pyval.
Variable xmltodict_parse : pybytes -> result pyval.
Variable BeautifulSoup : pystr -> result Node.
Variable http : list Request -> Request -> result Response.

Lemma append_assoc (a b c : string) : (a ++ b) ++ c = a ++ b ++ c.
Proof. induction a as [|x a IH]; simpl; [reflexivity|]. rewrite IH. reflexivity. Qed.

Lemma append_empty_r (a : string) : a ++ "" = a.
Proof. induction a as [|x a IH]; simpl; [reflexivity|]. rewrite IH. reflexivity. Qed.

(** [oktaAuth] makes one call, whatever comes of it. *)
Lemma oktaAuth_log username password oktaUrl log :
  snd (oktaAuth json_dumps json http username password oktaUrl log)
  = (log ++ [authn_request json_dumps username password oktaUrl])%list.
Proof.
  unfold oktaAuth, bind, requests_post, send, lift, authn_request. simpl.
  destruct (http log _) as [e|response]; simpl; [reflexivity|].
  destruct (json response) as [e|body]; reflexivity.
Qed.

(** What [oktaAuth] returns once the server has answered with a JSON
    object. *)
Lemma oktaAuth_answer username password oktaUrl log response items :
  http log (authn_request json_dumps username password oktaUrl) = inr response ->
  json response = inr (PDict items) ->
  oktaAuth json_dumps json http username password oktaUrl log
  = (match dict_get items "sessionToken" with
     | Some token => inr token
     | None => inl (KeyError (KStr "sessionToken"))
     end,
     (log ++ [authn_request json_dumps username password oktaUrl])%list).
Proof.
  intros Hhttp Hjson.
  unfold oktaAuth, bind, requests_post, send, lift.
  unfold authn_request in Hhttp. rewrite Hhttp, Hjson. simpl.
  destruct (dict_get items "sessionToken"); reflexivity.
Qed.

(** [oktaGetSamlResponse] makes one call when the token is a string, none
    otherwise. *)
Lemma oktaGetSamlResponse_log oktaUrl sessionToken oktaForwardUrl log :
  snd (oktaGetSamlResponse BeautifulSoup http oktaUrl sessionToken oktaForwardUrl log)
  = match sessionToken with
    | PStr token => (log ++ [redirect_request oktaUrl token oktaForwardUrl])%list
    | _ => log
    end.
Proof.
  unfold oktaGetSamlResponse, bind, requests_get, send, lift, ret, redirect_request.
  destruct sessionToken; try reflexivity. simpl.
  rewrite append_assoc, append_assoc.
  destruct (http log _) as [e|response]; simpl; [reflexivity|].
  destruct (decode (_content response)) as [e|markup]; simpl; [reflexivity|].
  destruct (BeautifulSoup markup) as [e|bs]; simpl; [reflexivity|].
  destruct (tag_getitem _ _); reflexivity.
Qed.

(** What [oktaGetSamlResponse] returns once the page has been parsed. *)
Lemma oktaGetSamlResponse_answer oktaUrl token oktaForwardUrl log response markup bs :
  http log (redirect_request oktaUrl token oktaForwardUrl) = inr response ->
  decode (_content response) = inr markup ->
  BeautifulSoup markup = inr bs ->
  oktaGetSamlResponse BeautifulSoup http oktaUrl (PStr token) oktaForwardUrl log
  = (rbind (tag_getitem (find bs "input" [("name", "SAMLResponse")]) "value")
           (fun samlResp => inr (unquote samlResp)),
     (log ++ [redirect_request oktaUrl token oktaForwardUrl])%list).
Proof.
  intros Hhttp Hdecode Hsoup.
  unfold oktaGetSamlResponse, bind, requests_get, send, lift, ret. simpl.
  unfold redirect_request in Hhttp.
  rewrite append_assoc, append_assoc. simpl. simpl in Hhttp.
  rewrite Hhttp, Hdecode, Hsoup.
  destruct (tag_getitem _ _); reflexivity.
Qed.

(** [find] returns the first node that passes the filter. *)
Lemma find_unique (f : Node -> bool) (nodes : list Node) (n : Node) :
  In n nodes -> f n = true ->
  (forall m, In m nodes -> f m = true -> m = n) ->
  List.find f nodes = Some n.
Proof.
  induction nodes as [|m nodes IH]; simpl; [contradiction|].
  intros Hin Hn Huniq.
  destruct (f m) eqn:Hm.
  - f_equal. apply Huniq; auto.
  - destruct Hin as [->|Hin]; [congruence|].
    apply IH; auto.
Qed.

Lemma find_none (f : Node -> bool) (nodes : list Node) :
  (forall m, In m nodes -> f m = false) -> List.find f nodes = None.
Proof.
  induction nodes as [|m nodes IH]; simpl; [reflexivity|].
  intros H. rewrite (H m) by auto. apply IH. auto.
Qed.

(** A text with a comma starts with two segments. *)
Lemma split_two principal role tail :
  contains "," principal = false -> contains "," role = false ->
  segment_end tail = true ->
  exists more, split "," (principal ++ "," ++ role ++ tail) = principal :: role :: more.
Proof.
  intros Hp Hr Ht.
  change (principal ++ "," ++ role ++ tail) with (principal ++ String "," (role ++ tail)).
  rewrite (split_cons _ _ _ Hp).
  destruct tail as [|c tail'].
  - exists []. f_equal. rewrite append_empty_r. apply split_single, Hr.
  - simpl in Ht. apply Ascii.eqb_eq in Ht. subst c.
    exists (split "," tail'). f_equal. apply split_cons. exact Hr.
Qed.

(** [awsAssumeRole] up to its call: with an assertion that decodes and
    parses, and whose attribute text has a second segment, one call is made,
    to STS, with the second segment as role and the first as principal. *)
Lemma awsAssumeRole_request samlb64enc log xml arnDict arnStr principalArn roleArn more :
  b64decode samlb64enc = inr xml ->
  xmltodict_parse xml = inr arnDict ->
  getitems arnDict arn_path = inr (PStr arnStr) ->
  split "," arnStr = principalArn :: roleArn :: more ->
  awsAssumeRole xmltodict_parse http samlb64enc log
  = (rbind (http log (sts_request roleArn principalArn (quote_plus samlb64enc)))
       (fun awsResp => rbind (decode (_content awsResp))
       (fun awsXml => rbind (xmltodict_parse awsXml)
       (fun awsDict => getitems awsDict credentials_path))),
     (log ++ [sts_request roleArn principalArn (quote_plus samlb64enc)])%list).
Proof.
  intros Hb64 Hxml Hpath Hsplit.
  unfold awsAssumeRole, bind, lift, requests_get, send.
  rewrite Hb64, Hxml, Hpath. unfold method_split. rewrite Hsplit.
  unfold list_getitem, seq_index, sts_request, sts_prefix. simpl.
  match goal with |- context [http log ?r] => generalize r end. intros req.
  destruct (http log req) as [e|awsResp]; simpl; [reflexivity|].
  destruct (decode (_content awsResp)) as [e|awsXml]; simpl; [reflexivity|].
  destruct (xmltodict_parse awsXml) as [e|awsDict]; simpl; [reflexivity|].
  destruct (getitems awsDict credentials_path); reflexivity.
Qed.

(** With a single segment the subscript [[1]] is out of range, and no call
    is made. *)
Lemma awsAssumeRole_one_segment samlb64enc log xml arnDict arnStr :
  b64decode samlb64enc = inr xml ->
  xmltodict_parse xml = inr arnDict ->
  getitems arnDict arn_path = inr (PStr arnStr) ->
  contains "," arnStr = false ->
  awsAssumeRole xmltodict_parse http samlb64enc log = (inl IndexError, log).
Proof.
  intros Hb64 Hxml Hpath Hcomma.
  unfold awsAssumeRole, bind, lift.
  rewrite Hb64, Hxml, Hpath. unfold method_split.
  rewrite (split_single _ _ Hcomma). reflexivity.
Qed.

(** [awsAssumeRole] makes at most one call. *)
Lemma awsAssumeRole_log samlb64enc log :
  snd (awsAssumeRole xmltodict_parse http samlb64enc log) = log
  \/ exists req, snd (awsAssumeRole xmltodict_parse http samlb64enc log)
                 = (log ++ [req])%list
                 /\ method req = GET /\ startswith sts_prefix (url req) = true.
Proof.
  unfold awsAssumeRole, bind, lift, requests_get, send.
  destruct (b64decode samlb64enc) as [e|xml]; [left; reflexivity|].
  destruct (xmltodict_parse xml) as [e|arnDict]; [left; reflexivity|].
  destruct (getitems arnDict arn_path) as [e|arnStr]; [left; reflexivity|].
  destruct (method_split arnStr ",") as [e|segments]; [left; reflexivity|].
  destruct (list_getitem segments 1) as [e|roleArn]; [left; reflexivity|].
  destruct (list_getitem segments 0) as [e|principalArn]; [left; reflexivity|].
  right. cbv zeta.
  match goal with
  | |- context [http log ?r] => remember r as req eqn:Hreq
  end.
  exists req. split; [|split].
  - destruct (http log req) as [e|awsResp]; simpl; [reflexivity|].
    destruct (decode (_content awsResp)) as [e|awsXml]; simpl; [reflexivity|].
    destruct (xmltodict_parse awsXml) as [e|awsDict]; simpl; [reflexivity|].
    destruct (getitems awsDict credentials_path); reflexivity.
  - subst req. reflexivity.
  - subst req. reflexivity.
Qed.

End StageFacts.

(** ** Base64: decoding undoes encoding *)

Section Base64Facts.

(** A property checked on every number below [k] holds below [k]. *)
Lemma forall_below (P : N -> bool) (k : nat) :
  forallb P (map N.of_nat (seq 0 k)) = true ->
  forall n, (n < N.of_nat k)%N -> P n = true.
Proof.
  intros H n Hn. rewrite forallb_forall in H. apply H.
  apply in_map_iff. exists (N.to_nat n). split; [apply N2Nat.id|].
  apply in_seq. lia.
Qed.

Lemma code_lt_256 c : (code c < 256)%N.
Proof. apply N_ascii_bounded. Qed.

Lemma byte_of_code c : byte_of (code c) = c.
Proof.
  unfold byte_of. rewrite N.mod_small by apply code_lt_256.
  apply ascii_N_embedding.
Qed.

(** The characters of the alphabet are ASCII, differ from the padding, and
    decode to the number they encode. *)
Lemma b64_char_value n :
  (n < 64)%N ->
  b64_value (b64_char n) = Some n
  /\ Ascii.eqb (b64_char n) "=" = false
  /\ is_ascii_char (b64_char n) = true.
Proof.
  intros Hn.
  assert (H : (match b64_value (b64_char n) with
               | Some m => N.eqb m n
               | None => false
               end
               && negb (Ascii.eqb (b64_char n) "=")
               && is_ascii_char (b64_char n)) = true).
  { revert n Hn.
    apply (forall_below
             (fun n => match b64_value (b64_char n) with
                       | Some m => N.eqb m n
                       | None => false
                       end
                       && negb (Ascii.eqb (b64_char n) "=")
                       && is_ascii_char (b64_char n)) 64).
    vm_compute. reflexivity. }
  apply andb_prop in H as [H H3]. apply andb_prop in H as [H1 H2].
  destruct (b64_value (b64_char n)) as [m|]; [|discriminate].
  apply N.eqb_eq in H1. apply negb_true_iff in H2. subst m. auto.
Qed.

(** The four sextets of three bytes, and how the decoder puts the bytes
    together again. *)
Lemma sextet_1 a :
  (a < 256)%N ->
  (N.shiftr a 2 < 64)%N /\ (N.land a 3 < 4)%N
  /\ (N.lor (N.shiftl (N.shiftr a 2) 2) (N.land a 3) mod 256 = a)%N.
Proof.
  intros Ha.
  assert (H : ((N.shiftr a 2 <? 64) && (N.land a 3 <? 4)
               && (N.lor (N.shiftl (N.shiftr a 2) 2) (N.land a 3) mod 256 =? a))%N = true).
  { revert a Ha.
    apply (forall_below
             (fun a => ((N.shiftr a 2 <? 64) && (N.land a 3 <? 4)
                        && (N.lor (N.shiftl (N.shiftr a 2) 2) (N.land a 3) mod 256 =? a))%N)
             256).
    vm_compute. reflexivity. }
  apply andb_prop in H as [H H3]. apply andb_prop in H as [H1 H2].
  apply N.ltb_lt in H1. apply N.ltb_lt in H2. apply N.eqb_eq in H3. auto.
Qed.

Lemma sextet_2 b :
  (b < 256)%N ->
  (N.shiftr b 4 < 16)%N /\ (N.land b 15 < 16)%N
  /\ (N.lor (N.shiftl (N.shiftr b 4) 4) (N.land b 15) mod 256 = b)%N.
Proof.
  intros Hb.
  assert (H : ((N.shiftr b 4 <? 16) && (N.land b 15 <? 16)
               && (N.lor (N.shiftl (N.shiftr b 4) 4) (N.land b 15) mod 256 =? b))%N = true).
  { revert b Hb.
    apply (forall_below
             (fun b => ((N.shiftr b 4 <? 16) && (N.land b 15 <? 16)
                        && (N.lor (N.shiftl (N.shiftr b 4) 4) (N.land b 15) mod 256 =? b))%N)
             256).
    vm_compute. reflexivity. }
  apply andb_prop in H as [H H3]. apply andb_prop in H as [H1 H2].
  apply N.ltb_lt in H1. apply N.ltb_lt in H2. apply N.eqb_eq in H3. auto.
Qed.

Lemma sextet_3 c :
  (c < 256)%N ->
  (N.shiftr c 6 < 4)%N /\ (N.land c 63 < 64)%N
  /\ (N.lor (N.shiftl (N.shiftr c 6) 6) (N.land c 63) mod 256 = c)%N.
Proof.
  intros Hc.
  assert (H : ((N.shiftr c 6 <? 4) && (N.land c 63 <? 64)
               && (N.lor (N.shiftl (N.shiftr c 6) 6) (N.land c 63) mod 256 =? c))%N = true).
  { revert c Hc.
    apply (forall_below
             (fun c => ((N.shiftr c 6 <? 4) && (N.land c 63 <? 64)
                        && (N.lor (N.shiftl (N.shiftr c 6) 6) (N.land c 63) mod 256 =? c))%N)
             256).
    vm_compute. reflexivity. }
  apply andb_prop in H as [H H3]. apply andb_prop in H as [H1 H2].
  apply N.ltb_lt in H1. apply N.ltb_lt in H2. apply N.eqb_eq in H3. auto.
Qed.

(** Two bits above four: the second sextet. *)
Lemma join_2_4 x y :
  (x < 4)%N -> (y < 16)%N ->
  (N.lor (N.shiftl x 4) y < 64)%N
  /\ N.shiftr (N.lor (N.shiftl x 4) y) 4 = x
  /\ N.land (N.lor (N.shiftl x 4) y) 15 = y.
Proof.
  intros Hx Hy.
  assert (H : (let s := N.lor (N.shiftl x 4) y in
               (s <? 64) && (N.shiftr s 4 =? x) && (N.land s 15 =? y))%N = true).
  { pose proof (forall_below
                  (fun x => forallb
                              (fun y => let s := N.lor (N.shiftl x 4) y in
                                        ((s <? 64) && (N.shiftr s 4 =? x)
                                         && (N.land s 15 =? y))%N)
                              (map N.of_nat (seq 0 16))) 4 eq_refl x Hx) as Hall.
    exact (forall_below _ 16 Hall y Hy). }
  cbv zeta in H.
  apply andb_prop in H as [H H3]. apply andb_prop in H as [H1 H2].
  apply N.ltb_lt in H1. apply N.eqb_eq in H2. apply N.eqb_eq in H3. auto.
Qed.

(** Four bits above two: the third sextet. *)
Lemma join_4_2 x y :
  (x < 16)%N -> (y < 4)%N ->
  (N.lor (N.shiftl x 2) y < 64)%N
  /\ N.shiftr (N.lor (N.shiftl x 2) y) 2 = x
  /\ N.land (N.lor (N.shiftl x 2) y) 3 = y.
Proof.
  intros Hx Hy.
  assert (H : (let s := N.lor (N.shiftl x 2) y in
               (s <? 64) && (N.shiftr s 2 =? x) && (N.land s 3 =? y))%N = true).
  { pose proof (forall_below
                  (fun x => forallb
                              (fun y => let s := N.lor (N.shiftl x 2) y in
                                        ((s <? 64) && (N.shiftr s 2 =? x)
                                         && (N.land s 3 =? y))%N)
                              (map N.of_nat (seq 0 4))) 16 eq_refl x Hx) as Hall.
    exact (forall_below _ 4 Hall y Hy). }
  cbv zeta in H.
  apply andb_prop in H as [H H3]. apply andb_prop in H as [H1 H2].
  apply N.ltb_lt in H1. apply N.eqb_eq in H2. apply N.eqb_eq in H3. auto.
Qed.

(** One step of the decoder on a character of the alphabet. *)
Lemma a2b_step n rest quad_pos leftchar pads :
  (n < 64)%N ->
  a2b_loop (String (b64_char n) rest) quad_pos leftchar pads
  = match quad_pos with
    | 0%nat => a2b_loop rest 1 n 0
    | 1%nat =>
        emit (byte_of (N.lor (N.shiftl leftchar 2) (N.shiftr n 4)))
             (a2b_loop rest 2 (N.land n 15) 0)
    | 2%nat =>
        emit (byte_of (N.lor (N.shiftl leftchar 4) (N.shiftr n 2)))
             (a2b_loop rest 3 (N.land n 3) 0)
    | _ =>
        emit (byte_of (N.lor (N.shiftl leftchar 6) n)) (a2b_loop rest 0 0%N 0)
    end.
Proof.
  intros Hn. destruct (b64_char_value n Hn) as (Hv & Hpad & _).
  cbn [a2b_loop]. rewrite Hpad, Hv. reflexivity.
Qed.

(** The first byte comes back from the first two sextets. *)
Lemma first_byte a y :
  (y < 16)%N ->
  byte_of (N.lor (N.shiftl (N.shiftr (code a) 2) 2)
                 (N.shiftr (N.lor (N.shiftl (N.land (code a) 3) 4) y) 4)) = a.
Proof.
  intros Hy.
  destruct (sextet_1 (code a) (code_lt_256 a)) as (_ & H3 & Heq).
  destruct (join_2_4 _ y H3 Hy) as (_ & Hs & _).
  rewrite Hs. unfold byte_of. rewrite Heq. apply ascii_N_embedding.
Qed.

(** The second byte comes back from the second and third sextets. *)
Lemma second_byte x b y :
  (x < 4)%N -> (y < 4)%N ->
  byte_of (N.lor (N.shiftl (N.land (N.lor (N.shiftl x 4) (N.shiftr (code b) 4)) 15) 4)
                 (N.shiftr (N.lor (N.shiftl (N.land (code b) 15) 2) y) 2)) = b.
Proof.
  intros Hx Hy.
  destruct (sextet_2 (code b) (code_lt_256 b)) as (H1 & H2 & Heq).
  destruct (join_2_4 x _ Hx H1) as (_ & _ & Hl).
  destruct (join_4_2 _ y H2 Hy) as (_ & Hs & _).
  rewrite Hl, Hs. unfold byte_of. rewrite Heq. apply ascii_N_embedding.
Qed.

(** The third byte comes back from the third and fourth sextets. *)
Lemma third_byte x c :
  (x < 16)%N ->
  byte_of (N.lor (N.shiftl (N.land (N.lor (N.shiftl x 2) (N.shiftr (code c) 6)) 3) 6)
                 (N.land (code c) 63)) = c.
Proof.
  intros Hx.
  destruct (sextet_3 (code c) (code_lt_256 c)) as (H1 & _ & Heq).
  destruct (join_4_2 x _ Hx H1) as (_ & _ & Hl).
  rewrite Hl. unfold byte_of. rewrite Heq. apply ascii_N_embedding.
Qed.

Lemma string_ind3 (P : string -> Prop) :
  P "" ->
  (forall a, P (String a "")) ->
  (forall a b, P (String a (String b ""))) ->
  (forall a b c rest, P rest -> P (String a (String b (String c rest)))) ->
  forall s, P s.
Proof.
  intros H0 H1 H2 H3 s.
  assert (H : P s /\ (forall a, P (String a s)) /\ (forall a b, P (String a (String b s)))).
  { induction s as [|x s (IH0 & IH1 & IH2)].
    - auto.
    - split; [apply IH1|]. split; [intros a; apply IH2|].
      intros a b. apply H3. exact IH0. }
  apply H.
Qed.

(** The loop of the decoder run on an encoding gives the bytes back. *)
Lemma a2b_loop_b64encode bs : a2b_loop (b64encode bs) 0 0%N 0 = inr bs.
Proof.
  induction bs as [|a|a b|a b c rest IH] using string_ind3.
  - reflexivity.
  - destruct (sextet_1 (code a) (code_lt_256 a)) as (H1 & H2 & _).
    destruct (join_2_4 _ 0%N H2 ltac:(lia)) as (H3 & _).
    rewrite N.lor_0_r in H3.
    cbn [b64encode].
    rewrite (a2b_step _ _ 0 _ _ H1), (a2b_step _ _ 1 _ _ H3).
    rewrite <- (N.lor_0_r (N.shiftl (N.land (code a) 3) 4)) at 1.
    rewrite first_byte by lia. reflexivity.
  - destruct (sextet_1 (code a) (code_lt_256 a)) as (H1 & H2 & _).
    destruct (sextet_2 (code b) (code_lt_256 b)) as (Hb1 & Hb2 & _).
    destruct (join_2_4 _ _ H2 Hb1) as (H3 & _).
    destruct (join_4_2 _ 0%N Hb2 ltac:(lia)) as (H4 & _).
    rewrite N.lor_0_r in H4.
    cbn [b64encode].
    rewrite (a2b_step _ _ 0 _ _ H1), (a2b_step _ _ 1 _ _ H3), (a2b_step _ _ 2 _ _ H4).
    rewrite first_byte by exact Hb1.
    rewrite <- (N.lor_0_r (N.shiftl (N.land (code b) 15) 2)) at 1.
    rewrite second_byte by (assumption || lia). reflexivity.
  - destruct (sextet_1 (code a) (code_lt_256 a)) as (H1 & H2 & _).
    destruct (sextet_2 (code b) (code_lt_256 b)) as (Hb1 & Hb2 & _).
    destruct (sextet_3 (code c) (code_lt_256 c)) as (Hc1 & Hc2 & _).
    destruct (join_2_4 _ _ H2 Hb1) as (H3 & _).
    destruct (join_4_2 _ _ Hb2 Hc1) as (H4 & _).
    cbn [b64encode].
    rewrite (a2b_step _ _ 0 _ _ H1), (a2b_step _ _ 1 _ _ H3),
      (a2b_step _ _ 2 _ _ H4), (a2b_step _ _ 3 _ _ Hc2).
    rewrite first_byte by exact Hb1.
    rewrite second_byte by assumption.
    rewrite third_byte by exact Hb2.
    rewrite IH. reflexivity.
Qed.

(** An encoding is ASCII text. *)
Lemma b64encode_isascii bs : isascii (b64encode bs) = true.
Proof.
  unfold isascii.
  induction bs as [|a|a b|a b c rest IH] using string_ind3.
  - reflexivity.
  - destruct (sextet_1 (code a) (code_lt_256 a)) as (H1 & H2 & _).
    destruct (join_2_4 _ 0%N H2 ltac:(lia)) as (H3 & _).
    rewrite N.lor_0_r in H3.
    cbn [b64encode string_forall].
    destruct (b64_char_value _ H1) as (_ & _ & ->).
    destruct (b64_char_value _ H3) as (_ & _ & ->). reflexivity.
  - destruct (sextet_1 (code a) (code_lt_256 a)) as (H1 & H2 & _).
    destruct (sextet_2 (code b) (code_lt_256 b)) as (Hb1 & Hb2 & _).
    destruct (join_2_4 _ _ H2 Hb1) as (H3 & _).
    destruct (join_4_2 _ 0%N Hb2 ltac:(lia)) as (H4 & _).
    rewrite N.lor_0_r in H4.
    cbn [b64encode string_forall].
    destruct (b64_char_value _ H1) as (_ & _ & ->).
    destruct (b64_char_value _ H3) as (_ & _ & ->).
    destruct (b64_char_value _ H4) as (_ & _ & ->). reflexivity.
  - destruct (sextet_1 (code a) (code_lt_256 a)) as (H1 & H2 & _).
    destruct (sextet_2 (code b) (code_lt_256 b)) as (Hb1 & Hb2 & _).
    destruct (sextet_3 (code c) (code_lt_256 c)) as (Hc1 & Hc2 & _).
    destruct (join_2_4 _ _ H2 Hb1) as (H3 & _).
    destruct (join_4_2 _ _ Hb2 Hc1) as (H4 & _).
    cbn [b64encode string_forall].
    destruct (b64_char_value _ H1) as (_ & _ & ->).
    destruct (b64_char_value _ H3) as (_ & _ & ->).
    destruct (b64_char_value _ H4) as (_ & _ & ->).
    destruct (b64_char_value _ Hc2) as (_ & _ & ->).
    exact IH.
Qed.

(** [base64.b64decode(base64.b64encode(bs))] is [bs]. *)
Lemma b64decode_b64encode bs : b64decode (b64encode bs) = inr bs.
Proof.
  unfold b64decode, a2b_base64.
  rewrite b64encode_isascii. apply a2b_loop_b64encode.
Qed.

End Base64Facts.

(** C4. When the attribute text starts with two comma-separated segments,
    [awsAssumeRole] takes the first as the principal ARN and the second as
    the role ARN, and the one call it makes is the STS request with these
    two values as [PrincipalArn] and [RoleArn]. *)
Theorem awsAssumeRole_arn_parameters :
  forall xmltodict_parse http samlb64enc log xml arnDict principalArn roleArn tail,
    b64decode samlb64enc = inr xml ->
    xmltodict_parse xml = inr arnDict ->
    getitems arnDict arn_path = inr (PStr (principalArn ++ "," ++ roleArn ++ tail)) ->
    contains "," principalArn = false ->
    contains "," roleArn = false ->
    segment_end tail = true ->
    (exists more,
        split "," (principalArn ++ "," ++ roleArn ++ tail) = principalArn :: roleArn :: more)
    /\ snd (awsAssumeRole xmltodict_parse http samlb64enc log)
       = (log ++ [sts_request roleArn principalArn (quote_plus samlb64enc)])%list.
Proof.
  intros parse http saml log xml arnDict principal role tail Hb Hx Hp Hcp Hcr Ht.
  destruct (split_two principal role tail Hcp Hcr Ht) as (more & Hs).
  split; [exists more; exact Hs|].
  rewrite (awsAssumeRole_request parse http saml log xml arnDict _ _ _ _ Hb Hx Hp Hs).
  reflexivity.
Qed.

(** The example of the specification: the provider is the principal, the
    role is the role. *)
Lemma awsAssumeRole_arn_parameters_witness :
  snd (awsAssumeRole Mock.xmltodict_parse Mock.http Mock.samlb64enc [])
  = [sts_request "arn:aws:iam::111111111111:role/ExampleRole"
                 "arn:aws:iam::111111111111:saml-provider/Example"
                 (quote_plus Mock.samlb64enc)].
Proof.
  apply (awsAssumeRole_arn_parameters Mock.xmltodict_parse Mock.http Mock.samlb64enc []
           Mock.saml_xml (Mock.saml_dict_with Mock.arn_pair)
           "arn:aws:iam::111111111111:saml-provider/Example"
           "arn:aws:iam::111111111111:role/ExampleRole" "");
    vm_compute; reflexivity.
Defined.

(** C5, as the program behaves: an assertion whose attribute text is a
    single ARN makes [awsAssumeRole] raise [IndexError]; there is no
    [MalformedArnPair]. *)
Lemma awsAssumeRole_MalformedArnPair_counterexample :
  getitems (Mock.saml_dict_with Mock.role_arn) arn_path = inr (PStr Mock.role_arn)
  /\ split "," Mock.role_arn = [Mock.role_arn]
  /\ awsAssumeRole Mock.xmltodict_parse Mock.http Mock.samlb64enc_single []
     = (inl IndexError, [])
  /\ ~ fails_with (fst (awsAssumeRole Mock.xmltodict_parse Mock.http
                          Mock.samlb64enc_single [])) "MalformedArnPair".
Proof.
  split; [reflexivity|]. split; [reflexivity|].
  assert (H : awsAssumeRole Mock.xmltodict_parse Mock.http Mock.samlb64enc_single []
              = (inl IndexError, [])) by (vm_compute; reflexivity).
  split; [exact H|].
  rewrite H. intros (e & He & Hk). inversion He; subst e. discriminate Hk.
Qed.

(** C5, amended.  When the attribute text has fewer than two
    comma-separated segments, that is no comma, [awsAssumeRole] raises
    [IndexError] and makes no call. *)
Theorem awsAssumeRole_single_segment :
  forall xmltodict_parse http samlb64enc log xml arnDict arnStr,
    b64decode samlb64enc = inr xml ->
    xmltodict_parse xml = inr arnDict ->
    getitems arnDict arn_path = inr (PStr arnStr) ->
    contains "," arnStr = false ->
    awsAssumeRole xmltodict_parse http samlb64enc log = (inl IndexError, log).
Proof.
  intros parse http saml log xml arnDict arnStr Hb Hx Hp Hc.
  exact (awsAssumeRole_one_segment parse http saml log xml arnDict arnStr Hb Hx Hp Hc).
Qed.

Lemma awsAssumeRole_single_segment_witness :
  awsAssumeRole Mock.xmltodict_parse Mock.http Mock.samlb64enc_single []
  = (inl IndexError, []).
Proof.
  apply (awsAssumeRole_single_segment Mock.xmltodict_parse Mock.http
           Mock.samlb64enc_single [] Mock.saml_xml_single
           (Mock.saml_dict_with Mock.role_arn) Mock.role_arn);
    vm_compute; reflexivity.
Defined.

(** C8, as the program behaves: for rejected credentials Okta answers with
    status 401 and a body without [sessionToken]; [oktaAuth] does not look
    at the status and raises the [KeyError] of the missing key, not an
    [AuthenticationFailed]. *)
Lemma oktaAuth_AuthenticationFailed_counterexample :
  Mock.http [] (authn_request Mock.json_dumps "alice" "wrong" Mock.okta_origin)
  = inr (mkResponse 401 Mock.authn_rejected_body)
  /\ fst (oktaAuth Mock.json_dumps Mock.json Mock.http "alice" "wrong" Mock.okta_origin [])
     = inl (KeyError (KStr "sessionToken"))
  /\ ~ fails_with (fst (oktaAuth Mock.json_dumps Mock.json Mock.http
                          "alice" "wrong" Mock.okta_origin [])) "AuthenticationFailed".
Proof.
  split; [reflexivity|].
  assert (H : fst (oktaAuth Mock.json_dumps Mock.json Mock.http
                     "alice" "wrong" Mock.okta_origin [])
              = inl (KeyError (KStr "sessionToken"))) by (vm_compute; reflexivity).
  split; [exact H|].
  rewrite H. intros (e & He & Hk). inversion He; subst e. discriminate Hk.
Qed.

(** C8, amended.  Whatever the status of the answer, when its JSON body is
    an object [oktaAuth] returns the value of [sessionToken] if the object
    has one and raises [KeyError] if it has none; in both cases it has made
    the one call to the authentication endpoint. *)
Theorem oktaAuth_sessionToken :
  forall json_dumps json http username password oktaUrl log response items,
    http log (authn_request json_dumps username password oktaUrl) = inr response ->
    json response = inr (PDict items) ->
    oktaAuth json_dumps json http username password oktaUrl log
    = (match dict_get items "sessionToken" with
       | Some token => inr token
       | None => inl (KeyError (KStr "sessionToken"))
       end,
       (log ++ [authn_request json_dumps username password oktaUrl])%list).
Proof.
  intros json_dumps json http username password oktaUrl log response items Hhttp Hjson.
  exact (oktaAuth_answer json_dumps json http username password oktaUrl log
           response items Hhttp Hjson).
Qed.

(** The example of the specification: the body [{"sessionToken":"abc123"}]
    with status 200 gives ["abc123"]. *)
Lemma oktaAuth_sessionToken_witness :
  oktaAuth Mock.json_dumps Mock.json Mock.http "alice" "correct horse" Mock.okta_origin []
  = (inr (PStr "abc123"),
     [authn_request Mock.json_dumps "alice" "correct horse" Mock.okta_origin]).
Proof.
  apply (oktaAuth_sessionToken Mock.json_dumps Mock.json Mock.http
           "alice" "correct horse" Mock.okta_origin []
           (mkResponse 200 Mock.authn_ok_body) [("sessionToken", PStr "abc123")]);
    vm_compute; reflexivity.
Defined.

(** C6. When the page holds exactly one [input] element named
    [SAMLResponse], and this element has a [value],
    [oktaGetSamlResponse] returns that value percent-decoded; the value
    ["PHNhbWxwOlJlc3BvbnNlPg%3D%3D"] is decoded to
    ["PHNhbWxwOlJlc3BvbnNlPg=="]. *)
Theorem oktaGetSamlResponse_decoded_value :
  forall BeautifulSoup http oktaUrl token oktaForwardUrl log response markup bs
         attrs contents value,
    http log (redirect_request oktaUrl token oktaForwardUrl) = inr response ->
    decode (_content response) = inr markup ->
    BeautifulSoup markup = inr bs ->
    In (Tag "input" attrs contents) (descendants bs) ->
    attr_get attrs "name" = Some "SAMLResponse" ->
    attr_get attrs "value" = Some value ->
    (forall other, In other (descendants bs) -> is_saml_input other = true ->
                   other = Tag "input" attrs contents) ->
    oktaGetSamlResponse BeautifulSoup http oktaUrl (PStr token) oktaForwardUrl log
    = (inr (unquote value), (log ++ [redirect_request oktaUrl token oktaForwardUrl])%list)
    /\ unquote "PHNhbWxwOlJlc3BvbnNlPg%3D%3D" = "PHNhbWxwOlJlc3BvbnNlPg==".
Proof.
  intros soup http oktaUrl token fwd log response markup bs attrs contents value
         Hhttp Hdec Hsoup Hin Hname Hvalue Huniq.
  split; [|reflexivity].
  rewrite (oktaGetSamlResponse_answer soup http oktaUrl token fwd log response markup bs
             Hhttp Hdec Hsoup).
  assert (Hfind : find bs "input" [("name", "SAMLResponse")]
                  = Some (Tag "input" attrs contents)).
  { unfold find. apply find_unique; [exact Hin| |exact Huniq].
    simpl. rewrite Hname. reflexivity. }
  rewrite Hfind. simpl. rewrite Hvalue. reflexivity.
Qed.

Lemma oktaGetSamlResponse_decoded_value_witness :
  oktaGetSamlResponse Mock.BeautifulSoup Mock.http Mock.okta_origin (PStr "abc123")
    Mock.forward_url []
  = (inr (unquote (quote_plus Mock.samlb64enc)),
     [redirect_request Mock.okta_origin "abc123" Mock.forward_url])
  /\ unquote (quote_plus Mock.samlb64enc) = Mock.samlb64enc.
Proof.
  split; [|vm_compute; reflexivity].
  apply (oktaGetSamlResponse_decoded_value Mock.BeautifulSoup Mock.http
           Mock.okta_origin "abc123" Mock.forward_url []
           (mkResponse 200 Mock.saml_page) Mock.saml_page Mock.saml_soup
           [("name", "SAMLResponse"); ("type", "hidden");
            ("value", quote_plus Mock.samlb64enc)] []
           (quote_plus Mock.samlb64enc)).
  - vm_compute; reflexivity.
  - vm_compute; reflexivity.
  - vm_compute; reflexivity.
  - simpl. right. right. right. left. reflexivity.
  - reflexivity.
  - reflexivity.
  - intros other Hin Hm. simpl in Hin.
    repeat (destruct Hin as [<-|Hin]); try discriminate Hm; try reflexivity.
    contradiction.
Defined.

(** C7, as the program behaves: on a page without the element [find]
    returns [None], and subscripting it raises [TypeError], a generic
    exception; there is no [SamlElementNotFound]. *)
Lemma oktaGetSamlResponse_SamlElementNotFound_counterexample :
  find Mock.login_soup "input" [("name", "SAMLResponse")] = None
  /\ fst (oktaGetSamlResponse Mock.BeautifulSoup Mock.http Mock.okta_origin (PStr "stale")
            Mock.forward_url [])
     = inl TypeError
  /\ ~ fails_with (fst (oktaGetSamlResponse Mock.BeautifulSoup Mock.http Mock.okta_origin
                          (PStr "stale") Mock.forward_url [])) "SamlElementNotFound".
Proof.
  split; [reflexivity|].
  assert (H : fst (oktaGetSamlResponse Mock.BeautifulSoup Mock.http Mock.okta_origin
                     (PStr "stale") Mock.forward_url [])
              = inl TypeError) by (vm_compute; reflexivity).
  split; [exact H|].
  rewrite H. intros (e & He & Hk). inversion He; subst e. discriminate Hk.
Qed.

(** C7, amended.  When the page holds no [input] element named
    [SAMLResponse], [oktaGetSamlResponse] raises [TypeError], after the one
    call it makes. *)
Theorem oktaGetSamlResponse_no_element :
  forall BeautifulSoup http oktaUrl token oktaForwardUrl log response markup bs,
    http log (redirect_request oktaUrl token oktaForwardUrl) = inr response ->
    decode (_content response) = inr markup ->
    BeautifulSoup markup = inr bs ->
    (forall n, In n (descendants bs) -> is_saml_input n = false) ->
    oktaGetSamlResponse BeautifulSoup http oktaUrl (PStr token) oktaForwardUrl log
    = (inl TypeError, (log ++ [redirect_request oktaUrl token oktaForwardUrl])%list).
Proof.
  intros soup http oktaUrl token fwd log response markup bs Hhttp Hdec Hsoup Hnone.
  rewrite (oktaGetSamlResponse_answer soup http oktaUrl token fwd log response markup bs
             Hhttp Hdec Hsoup).
  unfold find.
  change (node_matches "input" [("name", "SAMLResponse")]) with is_saml_input.
  rewrite (find_none _ _ Hnone). reflexivity.
Qed.

Lemma oktaGetSamlResponse_no_element_witness :
  oktaGetSamlResponse Mock.BeautifulSoup Mock.http Mock.okta_origin (PStr "stale")
    Mock.forward_url []
  = (inl TypeError, [redirect_request Mock.okta_origin "stale" Mock.forward_url]).
Proof.
  apply (oktaGetSamlResponse_no_element Mock.BeautifulSoup Mock.http
           Mock.okta_origin "stale" Mock.forward_url []
           (mkResponse 200 Mock.login_page) Mock.login_page Mock.login_soup).
  - vm_compute; reflexivity.
  - vm_compute; reflexivity.
  - vm_compute; reflexivity.
  - intros n Hin. simpl in Hin.
    repeat (destruct Hin as [<-|Hin]); try reflexivity. contradiction.
Defined.

(** C1. [assume] runs the four stages in order, each on what the stages
    before it returned: the origin of the forward URL, the session token
    for that origin, the assertion for that origin and token, the
    credentials for that assertion.  The first stage that raises ends the
    run: its exception is the outcome of [assume] as it is, and the log
    holds the calls made up to then and none of a later stage. *)
Theorem assume_sequential_fail_fast :
  forall nfkc bracketed_host_ok json_dumps json xmltodict_parse BeautifulSoup http
         username password oktaForwardUrl log,
    let run :=
      assume nfkc bracketed_host_ok json_dumps json xmltodict_parse BeautifulSoup http
             username password oktaForwardUrl log in
    let authn oktaUrl := authn_request json_dumps username password oktaUrl in
    (forall e,
        getOktaUrl nfkc bracketed_host_ok oktaForwardUrl = inl e ->
        run = (inl e, log))
    /\ (forall oktaUrl e log1,
           getOktaUrl nfkc bracketed_host_ok oktaForwardUrl = inr oktaUrl ->
           oktaAuth json_dumps json http username password oktaUrl log = (inl e, log1) ->
           run = (inl e, log1) /\ log1 = (log ++ [authn oktaUrl])%list)
    /\ (forall oktaUrl sessionToken log1 e log2,
           getOktaUrl nfkc bracketed_host_ok oktaForwardUrl = inr oktaUrl ->
           oktaAuth json_dumps json http username password oktaUrl log
           = (inr sessionToken, log1) ->
           oktaGetSamlResponse BeautifulSoup http oktaUrl sessionToken oktaForwardUrl log1
           = (inl e, log2) ->
           run = (inl e, log2)
           /\ (log2 = (log ++ [authn oktaUrl])%list
               \/ exists token,
                   sessionToken = PStr token
                   /\ log2 = (log ++ [authn oktaUrl;
                                      redirect_request oktaUrl token oktaForwardUrl])%list))
    /\ (forall oktaUrl sessionToken log1 samlb64enc log2,
           getOktaUrl nfkc bracketed_host_ok oktaForwardUrl = inr oktaUrl ->
           oktaAuth json_dumps json http username password oktaUrl log
           = (inr sessionToken, log1) ->
           oktaGetSamlResponse BeautifulSoup http oktaUrl sessionToken oktaForwardUrl log1
           = (inr samlb64enc, log2) ->
           run = awsAssumeRole xmltodict_parse http samlb64enc log2
           /\ exists token,
               sessionToken = PStr token
               /\ log2 = (log ++ [authn oktaUrl;
                                  redirect_request oktaUrl token oktaForwardUrl])%list).
Proof.
  intros nfkc ok json_dumps json parse soup http username password fwd log run authn.
  subst run authn. unfold assume.
  split; [|split; [|split]].
  - intros e He. unfold bind, lift. rewrite He. reflexivity.
  - intros oktaUrl e log1 Hurl Hauth.
    pose proof (oktaAuth_log json_dumps json http username password oktaUrl log) as Hlog.
    rewrite Hauth in Hlog. simpl in Hlog.
    split; [|exact Hlog].
    unfold bind at 1. unfold lift at 1. rewrite Hurl.
    unfold bind at 1. rewrite Hauth. reflexivity.
  - intros oktaUrl tok log1 e log2 Hurl Hauth Hsaml.
    pose proof (oktaAuth_log json_dumps json http username password oktaUrl log) as Hlog1.
    rewrite Hauth in Hlog1. simpl in Hlog1.
    pose proof (oktaGetSamlResponse_log soup http oktaUrl tok fwd log1) as Hlog2.
    rewrite Hsaml in Hlog2. simpl in Hlog2.
    split.
    + unfold bind at 1. unfold lift at 1. rewrite Hurl.
      unfold bind at 1. rewrite Hauth.
      unfold bind at 1. rewrite Hsaml. reflexivity.
    + subst log1.
      destruct tok; try (left; exact Hlog2).
      right. eexists. split; [reflexivity|].
      rewrite Hlog2, <- app_assoc. reflexivity.
  - intros oktaUrl tok log1 saml log2 Hurl Hauth Hsaml.
    pose proof (oktaAuth_log json_dumps json http username password oktaUrl log) as Hlog1.
    rewrite Hauth in Hlog1. simpl in Hlog1.
    pose proof (oktaGetSamlResponse_log soup http oktaUrl tok fwd log1) as Hlog2.
    rewrite Hsaml in Hlog2. simpl in Hlog2.
    split.
    + unfold bind at 1. unfold lift at 1. rewrite Hurl.
      unfold bind at 1. rewrite Hauth.
      unfold bind at 1. rewrite Hsaml. reflexivity.
    + subst log1.
      destruct tok;
        try (exfalso; unfold oktaGetSamlResponse, bind, lift in Hsaml;
             simpl in Hsaml; discriminate Hsaml).
      eexists. split; [reflexivity|].
      rewrite Hlog2, <- app_assoc. reflexivity.
Qed.

(** The run against the test double: right credentials give the
    credentials of STS after three calls, a wrong password ends the run at
    the first call with the exception of [oktaAuth]. *)
Lemma assume_sequential_fail_fast_witness :
  assume Mock.nfkc Mock.bracketed_host_ok Mock.json_dumps Mock.json Mock.xmltodict_parse
         Mock.BeautifulSoup Mock.http "alice" "correct horse" Mock.forward_url []
  = (inr Mock.credentials,
     [authn_request Mock.json_dumps "alice" "correct horse" Mock.okta_origin;
      redirect_request Mock.okta_origin "abc123" Mock.forward_url;
      sts_request Mock.role_arn Mock.principal_arn (quote_plus Mock.samlb64enc)])
  /\ assume Mock.nfkc Mock.bracketed_host_ok Mock.json_dumps Mock.json Mock.xmltodict_parse
            Mock.BeautifulSoup Mock.http "alice" "wrong" Mock.forward_url []
     = (inl (KeyError (KStr "sessionToken")),
        [authn_request Mock.json_dumps "alice" "wrong" Mock.okta_origin]).
Proof.
  assert (Hurl : getOktaUrl Mock.nfkc Mock.bracketed_host_ok Mock.forward_url
                 = inr Mock.okta_origin) by (vm_compute; reflexivity).
  split.
  - assert (Hauth : oktaAuth Mock.json_dumps Mock.json Mock.http
                      "alice" "correct horse" Mock.okta_origin []
                    = (inr (PStr "abc123"),
                       [authn_request Mock.json_dumps "alice" "correct horse"
                                      Mock.okta_origin]))
      by (vm_compute; reflexivity).
    assert (Hsaml : oktaGetSamlResponse Mock.BeautifulSoup Mock.http Mock.okta_origin
                      (PStr "abc123") Mock.forward_url
                      [authn_request Mock.json_dumps "alice" "correct horse"
                                     Mock.okta_origin]
                    = (inr Mock.samlb64enc,
                       [authn_request Mock.json_dumps "alice" "correct horse"
                                      Mock.okta_origin;
                        redirect_request Mock.okta_origin "abc123" Mock.forward_url]))
      by (vm_compute; reflexivity).
    destruct (assume_sequential_fail_fast Mock.nfkc Mock.bracketed_host_ok Mock.json_dumps
                Mock.json Mock.xmltodict_parse Mock.BeautifulSoup Mock.http
                "alice" "correct horse" Mock.forward_url []) as (_ & _ & _ & H).
    destruct (H _ _ _ _ _ Hurl Hauth Hsaml) as [Hrun _].
    rewrite Hrun. vm_compute. reflexivity.
  - assert (Hauth : oktaAuth Mock.json_dumps Mock.json Mock.http
                      "alice" "wrong" Mock.okta_origin []
                    = (inl (KeyError (KStr "sessionToken")),
                       [authn_request Mock.json_dumps "alice" "wrong" Mock.okta_origin]))
      by (vm_compute; reflexivity).
    destruct (assume_sequential_fail_fast Mock.nfkc Mock.bracketed_host_ok Mock.json_dumps
                Mock.json Mock.xmltodict_parse Mock.BeautifulSoup Mock.http
                "alice" "wrong" Mock.forward_url []) as (_ & H & _).
    destruct (H _ _ _ Hurl Hauth) as [Hrun _].
    exact Hrun.
Defined.

(** * Further properties of the program *)

(** ** Characters *)

Section CharFacts.

(** A property checked on the 256 characters holds of every character. *)
Lemma ascii_forall (P : ascii -> bool) :
  forallb (fun n => P (ascii_of_N n)) (map N.of_nat (seq 0 256)) = true ->
  forall c, P c = true.
Proof.
  intros H c. rewrite <- (ascii_N_embedding c).
  apply (forall_below (fun n => P (ascii_of_N n)) 256 H).
  apply N_ascii_bounded.
Qed.

Lemma lower_char_scheme c :
  scheme_char c = true -> scheme_char (lower_char c) = true.
Proof.
  intros H.
  pose proof (ascii_forall (fun c => implb (scheme_char c) (scheme_char (lower_char c)))
                eq_refl c) as Hc.
  simpl in Hc. rewrite H in Hc. exact Hc.
Qed.

Lemma lower_char_alpha c : is_alpha c = true -> is_alpha (lower_char c) = true.
Proof.
  intros H.
  pose proof (ascii_forall (fun c => implb (is_alpha c) (is_alpha (lower_char c)))
                eq_refl c) as Hc.
  simpl in Hc. rewrite H in Hc. exact Hc.
Qed.

Lemma lower_char_idem c : lower_char (lower_char c) = lower_char c.
Proof.
  apply Ascii.eqb_eq.
  exact (ascii_forall (fun c => Ascii.eqb (lower_char (lower_char c)) (lower_char c))
           eq_refl c).
Qed.

Lemma lower_idem s : lower (lower s) = lower s.
Proof.
  unfold lower. induction s as [|c s IH]; simpl; [reflexivity|].
  rewrite lower_char_idem, IH. reflexivity.
Qed.

Lemma lower_scheme_chars s :
  string_forall scheme_char s = true -> string_forall scheme_char (lower s) = true.
Proof.
  unfold lower. induction s as [|c s IH]; simpl; [reflexivity|].
  intros H. apply andb_prop in H as [Hc Hs].
  rewrite (lower_char_scheme _ Hc), IH by assumption. reflexivity.
Qed.

(** The lower-case form of a scheme is a scheme. *)
Lemma valid_scheme_lower s : valid_scheme s = true -> valid_scheme (lower s) = true.
Proof.
  intros H. destruct (valid_scheme_spec _ H) as (c & s' & -> & Hc & Hall).
  pose proof (lower_scheme_chars _ Hall) as Hl.
  unfold valid_scheme. simpl in Hl |- *. unfold lower in Hl. simpl in Hl.
  rewrite (lower_char_alpha _ Hc). exact Hl.
Qed.

End CharFacts.

(** ** The origin that [getOktaUrl] returns *)

Section OriginFacts.

Variable nfkc : pystr -> pystr.
Variable bracketed_host_ok : pystr -> bool.

(** The scheme that [urlsplit] finds is empty or a scheme in lower case. *)
Lemma split_scheme_shape url sch rest :
  split_scheme url = (sch, rest) ->
  sch = "" \/ (valid_scheme sch = true /\ lower sch = sch).
Proof.
  unfold split_scheme.
  destruct (partition ":" url) as [[a found] b].
  destruct a as [|c0 pre]; [intros H; inversion H; auto|].
  destruct found; [|intros H; inversion H; auto].
  destruct (is_ascii_char c0 && is_alpha c0 && string_forall scheme_char (String c0 pre))
    eqn:E; intros H; inversion H; subst; [|auto].
  right. apply andb_prop in E as [E Hall]. apply andb_prop in E as [_ Ha].
  split; [|apply lower_idem].
  apply valid_scheme_lower. unfold valid_scheme. rewrite Ha. exact Hall.
Qed.

(** What [break_at] returns first holds no delimiter. *)
Lemma break_at_prefix q s a b :
  break_at q s = (a, b) -> string_forall (fun c => negb (q c)) a = true.
Proof.
  revert a b. induction s as [|d s IH]; simpl; intros a b H.
  - inversion H. reflexivity.
  - destruct (q d) eqn:Hd; [inversion H; reflexivity|].
    destruct (break_at q s) as [a' b'] eqn:E. inversion H; subst.
    simpl. rewrite Hd. simpl. exact (IH _ _ eq_refl).
Qed.

Lemma urlsplit_shape url sr :
  urlsplit nfkc bracketed_host_ok url = inr sr ->
  (sr_scheme sr = "" \/ (valid_scheme (sr_scheme sr) = true
                         /\ lower (sr_scheme sr) = sr_scheme sr))
  /\ string_forall (fun c => negb (netloc_delim c)) (sr_netloc sr) = true.
Proof.
  unfold urlsplit.
  destruct (split_scheme (cleaned url)) as [sch rest] eqn:Es.
  pose proof (split_scheme_shape _ _ _ Es) as Hsch.
  destruct (String.eqb (string_take 2 rest) "//").
  - unfold _splitnetloc.
    destruct (break_at netloc_delim (string_drop 2 rest)) as [loc u] eqn:Eb.
    pose proof (break_at_prefix _ _ _ _ Eb) as Hloc.
    destruct (check_brackets bracketed_host_ok loc); simpl; [discriminate|].
    destruct (partition "#" u) as [[u1 f1] frag].
    destruct (partition "?" u1) as [[u2 f2] q].
    destruct (_checknetloc nfkc loc); simpl; [discriminate|].
    intros H. inversion H; subst. simpl. auto.
  - simpl.
    destruct (partition "#" rest) as [[u1 f1] frag].
    destruct (partition "?" u1) as [[u2 f2] q].
    simpl. intros H. inversion H; subst. simpl. auto.
Qed.

Lemma getOktaUrl_inv url origin :
  getOktaUrl nfkc bracketed_host_ok url = inr origin ->
  exists sr, urlsplit nfkc bracketed_host_ok url = inr sr
             /\ origin = sr_scheme sr ++ "://" ++ sr_netloc sr.
Proof.
  destruct (urlsplit nfkc bracketed_host_ok url) as [e|sr] eqn:E.
  - rewrite (getOktaUrl_of_urlsplit_error _ _ _ _ E). discriminate.
  - rewrite (getOktaUrl_of_urlsplit _ _ _ _ E). intros H. inversion H.
    exists sr. auto.
Qed.

(** A network location that holds one bracket without the other is
    refused. *)
Lemma urlsplit_unbalanced sch loc rest :
  valid_scheme sch = true ->
  string_forall (fun c => negb (netloc_delim c) && negb (unsafe_url_byte c)) loc = true ->
  starts_tail rest = true ->
  xorb (contains "[" loc) (contains "]" loc) = true ->
  urlsplit nfkc bracketed_host_ok (sch ++ "://" ++ loc ++ rest) = inl ValueError.
Proof.
  intros Hs Hloc Hr Hx. unfold urlsplit.
  rewrite cleaned_after_scheme by exact Hs.
  assert (Hclean : remove_unsafe ("://" ++ loc ++ rest)
                   = String ":" ("//" ++ loc ++ remove_unsafe rest)).
  { unfold remove_unsafe. simpl. f_equal. f_equal. f_equal.
    rewrite string_filter_app. f_equal. apply string_filter_id.
    eapply string_forall_impl; [|exact Hloc].
    intros c Hc. apply andb_prop in Hc as [_ Hc]. exact Hc. }
  rewrite Hclean, split_scheme_found by exact Hs.
  change (string_take 2 ("//" ++ loc ++ remove_unsafe rest)) with "//".
  rewrite String.eqb_refl. unfold _splitnetloc.
  change (string_drop 2 ("//" ++ loc ++ remove_unsafe rest))
    with (loc ++ remove_unsafe rest).
  rewrite break_at_app.
  - unfold check_brackets.
    destruct (contains "[" loc), (contains "]" loc); try discriminate Hx; reflexivity.
  - eapply string_forall_impl; [|exact Hloc].
    intros c Hc. apply andb_prop in Hc as [Hc _]. exact Hc.
  - apply starts_tail_spec, starts_tail_remove_unsafe, Hr.
Qed.

End OriginFacts.

(** X1. Whatever the input, a string that [getOktaUrl] returns is a scheme,
    ["://"] and a network location: the scheme is empty or an RFC 3986
    scheme in lower case, and the network location holds none of ["/"],
    ["?"] and ["#"], so that no path, query or fragment is ever part of the
    origin. *)
Theorem getOktaUrl_origin_shape :
  forall nfkc bracketed_host_ok fullUrl origin,
    getOktaUrl nfkc bracketed_host_ok fullUrl = inr origin ->
    exists sch loc,
      origin = sch ++ "://" ++ loc
      /\ (sch = "" \/ (valid_scheme sch = true /\ lower sch = sch))
      /\ string_forall (fun c => negb (netloc_delim c)) loc = true.
Proof.
  intros nfkc ok url origin H.
  destruct (getOktaUrl_inv nfkc ok url origin H) as (sr & Hsr & ->).
  destruct (urlsplit_shape nfkc ok url sr Hsr) as [Hsch Hloc].
  exists (sr_scheme sr), (sr_netloc sr). auto.
Qed.

Lemma getOktaUrl_origin_shape_witness :
  exists sch loc,
    "https://okta.example.com:8443" = sch ++ "://" ++ loc
    /\ (sch = "" \/ (valid_scheme sch = true /\ lower sch = sch))
    /\ string_forall (fun c => negb (netloc_delim c)) loc = true.
Proof.
  apply (getOktaUrl_origin_shape Mock.nfkc Mock.bracketed_host_ok
           "HTTPS://okta.example.com:8443/home/amazon_aws/0oa123/272?fromHome=true#top").
  reflexivity.
Defined.

(** X2. On a URL with a scheme and a host [getOktaUrl] is idempotent: the
    origin it returns is itself resolved to the same origin. *)
Theorem getOktaUrl_idempotent :
  forall nfkc bracketed_host_ok sch auth rest origin,
    valid_scheme sch = true ->
    plain_authority auth = true ->
    starts_tail rest = true ->
    getOktaUrl nfkc bracketed_host_ok (sch ++ "://" ++ auth ++ rest) = inr origin ->
    getOktaUrl nfkc bracketed_host_ok origin = inr origin.
Proof.
  intros nfkc ok sch auth rest origin Hs Ha Hr H.
  pose proof (plain_authority_chars auth Ha) as Hc.
  rewrite (getOktaUrl_scheme_authority nfkc ok sch auth rest Hs Hc Hr) in H.
  inversion H; subst origin.
  pose proof (getOktaUrl_scheme_authority nfkc ok (lower sch) auth ""
                (valid_scheme_lower _ Hs) Hc eq_refl) as H2.
  rewrite lower_idem in H2.
  assert (Hnil : auth ++ "" = auth).
  { clear. induction auth as [|x a IH]; simpl; [reflexivity|]. rewrite IH. reflexivity. }
  rewrite Hnil in H2. exact H2.
Qed.

Lemma getOktaUrl_idempotent_witness :
  getOktaUrl Mock.nfkc Mock.bracketed_host_ok "https://okta.example.com"
  = inr "https://okta.example.com".
Proof.
  apply (getOktaUrl_idempotent Mock.nfkc Mock.bracketed_host_ok
           "https" "okta.example.com" "/home/amazon_aws/0oa123/272");
    reflexivity.
Defined.

(** X3. A URL with a scheme whose network location holds an opening bracket
    without a closing one, or a closing one without an opening one, makes
    [getOktaUrl] raise [ValueError], whatever follows the network
    location. *)
Theorem getOktaUrl_unbalanced_bracket :
  forall nfkc bracketed_host_ok sch loc rest,
    valid_scheme sch = true ->
    string_forall (fun c => negb (netloc_delim c) && negb (unsafe_url_byte c)) loc = true ->
    starts_tail rest = true ->
    xorb (contains "[" loc) (contains "]" loc) = true ->
    getOktaUrl nfkc bracketed_host_ok (sch ++ "://" ++ loc ++ rest) = inl ValueError.
Proof.
  intros nfkc ok sch loc rest Hs Hloc Hr Hx.
  apply getOktaUrl_of_urlsplit_error.
  apply urlsplit_unbalanced; assumption.
Qed.

Lemma getOktaUrl_unbalanced_bracket_witness :
  getOktaUrl Mock.nfkc Mock.bracketed_host_ok "https://okta.example.com]/home"
  = inl ValueError.
Proof.
  apply (getOktaUrl_unbalanced_bracket Mock.nfkc Mock.bracketed_host_ok
           "https" "okta.example.com]" "/home");
    reflexivity.
Defined.

(** ** Edge cases of the two Okta stages *)

Section OktaEdgeFacts.

(** [find] returns the first node that passes the filter, whatever comes
    after it. *)
Lemma find_first (f : Node -> bool) (before after : list Node) (n : Node) :
  forallb (fun m => negb (f m)) before = true -> f n = true ->
  List.find f (before ++ n :: after)%list = Some n.
Proof.
  intros Hb Hn. induction before as [|m before IH]; simpl.
  - rewrite Hn. reflexivity.
  - simpl in Hb. apply andb_prop in Hb as [Hm Hb].
    apply negb_true_iff in Hm. rewrite Hm. apply IH, Hb.
Qed.

End OktaEdgeFacts.

(** X4. [oktaAuth] makes exactly one call, whatever comes of it: the POST
    to the origin followed by ["/api/v1/authn"], with the JSON content type
    and the JSON text of the user name and password as body. *)
Theorem oktaAuth_one_call :
  forall json_dumps json http username password oktaUrl log,
    snd (oktaAuth json_dumps json http username password oktaUrl log)
    = (log ++ [mkRequest POST (oktaUrl ++ "/api/v1/authn")%string
                 [("Content-Type", "application/json; charset=utf-8")]
                 (Some (json_dumps [("username", username); ("password", password)]))])%list.
Proof.
  intros json_dumps json http username password oktaUrl log.
  exact (oktaAuth_log json_dumps json http username password oktaUrl log).
Qed.

(** X5. [oktaAuth] passes on the exception of the transport and the
    exception of a body that is not JSON as they are. *)
Theorem oktaAuth_propagates :
  forall json_dumps json http username password oktaUrl log e,
    let req := authn_request json_dumps username password oktaUrl in
    (http log req = inl e
     \/ exists response, http log req = inr response /\ json response = inl e) ->
    oktaAuth json_dumps json http username password oktaUrl log
    = (inl e, (log ++ [req])%list).
Proof.
  intros json_dumps json http username password oktaUrl log e req H.
  subst req. unfold oktaAuth, bind, requests_post, send, lift.
  unfold authn_request in H.
  destruct H as [H|(response & H & Hj)]; rewrite H; [reflexivity|].
  rewrite Hj. reflexivity.
Qed.

Lemma oktaAuth_propagates_witness :
  oktaAuth Mock.json_dumps Mock.json Mock.http "alice" "correct horse"
           "https://unreachable.example.com" []
  = (inl (LibraryError "ConnectionError"),
     [authn_request Mock.json_dumps "alice" "correct horse"
                    "https://unreachable.example.com"])
  /\ oktaAuth Mock.json_dumps (fun _ => inl (LibraryError "JSONDecodeError"))
              (fun _ _ => inr (mkResponse 502 "<html>Bad Gateway</html>"))
              "alice" "correct horse" Mock.okta_origin []
     = (inl (LibraryError "JSONDecodeError"),
        [authn_request Mock.json_dumps "alice" "correct horse" Mock.okta_origin]).
Proof.
  split.
  - apply (oktaAuth_propagates Mock.json_dumps Mock.json Mock.http "alice" "correct horse"
             "https://unreachable.example.com" [] (LibraryError "ConnectionError")).
    left. reflexivity.
  - apply (oktaAuth_propagates Mock.json_dumps
             (fun _ => inl (LibraryError "JSONDecodeError"))
             (fun _ _ => inr (mkResponse 502 "<html>Bad Gateway</html>"))
             "alice" "correct horse" Mock.okta_origin []
             (LibraryError "JSONDecodeError")).
    right. eexists. split; reflexivity.
Defined.

(** X6. When the body of the answer is JSON but not an object (a list, a
    string, a number, [true], [null]), [oktaAuth] raises [TypeError]. *)
Theorem oktaAuth_not_an_object :
  forall json_dumps json http username password oktaUrl log response body,
    http log (authn_request json_dumps username password oktaUrl) = inr response ->
    json response = inr body ->
    (forall items, body <> PDict items) ->
    oktaAuth json_dumps json http username password oktaUrl log
    = (inl TypeError,
       (log ++ [authn_request json_dumps username password oktaUrl])%list).
Proof.
  intros json_dumps json http username password oktaUrl log response body Hhttp Hjson Hno.
  unfold oktaAuth, bind, requests_post, send, lift.
  unfold authn_request in Hhttp. rewrite Hhttp, Hjson.
  destruct body; try reflexivity.
  exfalso. exact (Hno _ eq_refl).
Qed.

Lemma oktaAuth_not_an_object_witness :
  oktaAuth Mock.json_dumps (fun _ => inr (PList [PStr "sessionToken"; PStr "abc123"]))
           Mock.http "alice" "correct horse" Mock.okta_origin []
  = (inl TypeError,
     [authn_request Mock.json_dumps "alice" "correct horse" Mock.okta_origin]).
Proof.
  apply (oktaAuth_not_an_object Mock.json_dumps
           (fun _ => inr (PList [PStr "sessionToken"; PStr "abc123"]))
           Mock.http "alice" "correct horse" Mock.okta_origin []
           (mkResponse 200 Mock.authn_ok_body)
           (PList [PStr "sessionToken"; PStr "abc123"])).
  - reflexivity.
  - reflexivity.
  - intros items H. discriminate H.
Defined.

(** X7. When the session token is not a string (the JSON of Okta held a
    number or [null] under [sessionToken]), [oktaGetSamlResponse] raises
    [TypeError] on building the URL and makes no call. *)
Theorem oktaGetSamlResponse_token_not_str :
  forall BeautifulSoup http oktaUrl sessionToken oktaForwardUrl log,
    (forall token, sessionToken <> PStr token) ->
    oktaGetSamlResponse BeautifulSoup http oktaUrl sessionToken oktaForwardUrl log
    = (inl TypeError, log).
Proof.
  intros soup http oktaUrl tok fwd log Hno.
  unfold oktaGetSamlResponse, bind, lift.
  destruct tok; try reflexivity.
  exfalso. exact (Hno _ eq_refl).
Qed.

Lemma oktaGetSamlResponse_token_not_str_witness :
  oktaGetSamlResponse Mock.BeautifulSoup Mock.http Mock.okta_origin PNone
    Mock.forward_url []
  = (inl TypeError, []).
Proof.
  apply (oktaGetSamlResponse_token_not_str Mock.BeautifulSoup Mock.http
           Mock.okta_origin PNone Mock.forward_url []).
  intros token H. discriminate H.
Defined.

(** X8. When the first [input] element named [SAMLResponse] has no [value]
    attribute, [oktaGetSamlResponse] raises the [KeyError] of ['value'],
    after its one call. *)
Theorem oktaGetSamlResponse_no_value :
  forall BeautifulSoup http oktaUrl token oktaForwardUrl log response markup bs
         before attrs contents after,
    http log (redirect_request oktaUrl token oktaForwardUrl) = inr response ->
    decode (_content response) = inr markup ->
    BeautifulSoup markup = inr bs ->
    descendants bs = (before ++ Tag "input" attrs contents :: after)%list ->
    forallb (fun n => negb (is_saml_input n)) before = true ->
    attr_get attrs "name" = Some "SAMLResponse" ->
    attr_get attrs "value" = None ->
    oktaGetSamlResponse BeautifulSoup http oktaUrl (PStr token) oktaForwardUrl log
    = (inl (KeyError (KStr "value")),
       (log ++ [redirect_request oktaUrl token oktaForwardUrl])%list).
Proof.
  intros soup http oktaUrl token fwd log response markup bs before attrs contents after
         Hhttp Hdec Hsoup Hdesc Hbefore Hname Hvalue.
  rewrite (oktaGetSamlResponse_answer soup http oktaUrl token fwd log response markup bs
             Hhttp Hdec Hsoup).
  unfold find. rewrite Hdesc.
  change (node_matches "input" [("name", "SAMLResponse")]) with is_saml_input.
  rewrite (find_first is_saml_input before after _ Hbefore)
    by (unfold is_saml_input; simpl; rewrite Hname; reflexivity).
  simpl. rewrite Hvalue. reflexivity.
Qed.

Lemma oktaGetSamlResponse_no_value_witness :
  oktaGetSamlResponse
    (fun _ => inr (Tag "[document]" []
                     [Tag "form" [] [Tag "input" [("name", "SAMLResponse")] []]]))
    Mock.http Mock.okta_origin (PStr "abc123") Mock.forward_url []
  = (inl (KeyError (KStr "value")),
     [redirect_request Mock.okta_origin "abc123" Mock.forward_url]).
Proof.
  apply (oktaGetSamlResponse_no_value
           (fun _ => inr (Tag "[document]" []
                            [Tag "form" [] [Tag "input" [("name", "SAMLResponse")] []]]))
           Mock.http Mock.okta_origin "abc123" Mock.forward_url []
           (mkResponse 200 Mock.saml_page) Mock.saml_page
           (Tag "[document]" [] [Tag "form" [] [Tag "input" [("name", "SAMLResponse")] []]])
           [Tag "form" [] [Tag "input" [("name", "SAMLResponse")] []]]
           [("name", "SAMLResponse")] [] []);
    vm_compute; reflexivity.
Defined.

(** X9. When the page holds several [input] elements named [SAMLResponse],
    [oktaGetSamlResponse] returns the decoded [value] of the first one in
    document order and ignores the others. *)
Theorem oktaGetSamlResponse_first_element :
  forall BeautifulSoup http oktaUrl token oktaForwardUrl log response markup bs
         before attrs contents after value,
    http log (redirect_request oktaUrl token oktaForwardUrl) = inr response ->
    decode (_content response) = inr markup ->
    BeautifulSoup markup = inr bs ->
    descendants bs = (before ++ Tag "input" attrs contents :: after)%list ->
    forallb (fun n => negb (is_saml_input n)) before = true ->
    attr_get attrs "name" = Some "SAMLResponse" ->
    attr_get attrs "value" = Some value ->
    oktaGetSamlResponse BeautifulSoup http oktaUrl (PStr token) oktaForwardUrl log
    = (inr (unquote value),
       (log ++ [redirect_request oktaUrl token oktaForwardUrl])%list).
Proof.
  intros soup http oktaUrl token fwd log response markup bs before attrs contents after
         value Hhttp Hdec Hsoup Hdesc Hbefore Hname Hvalue.
  rewrite (oktaGetSamlResponse_answer soup http oktaUrl token fwd log response markup bs
             Hhttp Hdec Hsoup).
  unfold find. rewrite Hdesc.
  change (node_matches "input" [("name", "SAMLResponse")]) with is_saml_input.
  rewrite (find_first is_saml_input before after _ Hbefore)
    by (unfold is_saml_input; simpl; rewrite Hname; reflexivity).
  simpl. rewrite Hvalue. reflexivity.
Qed.

Lemma oktaGetSamlResponse_first_element_witness :
  oktaGetSamlResponse
    (fun _ => inr (Tag "[document]" []
                     [Tag "input" [("name", "RelayState"); ("value", "x")] [];
                      Tag "input" [("name", "SAMLResponse"); ("value", "Zmlyc3Q%3D")] [];
                      Tag "input" [("name", "SAMLResponse"); ("value", "c2Vjb25k")] []]))
    Mock.http Mock.okta_origin (PStr "abc123") Mock.forward_url []
  = (inr "Zmlyc3Q=", [redirect_request Mock.okta_origin "abc123" Mock.forward_url]).
Proof.
  apply (oktaGetSamlResponse_first_element
           (fun _ => inr (Tag "[document]" []
                     [Tag "input" [("name", "RelayState"); ("value", "x")] [];
                      Tag "input" [("name", "SAMLResponse"); ("value", "Zmlyc3Q%3D")] [];
                      Tag "input" [("name", "SAMLResponse"); ("value", "c2Vjb25k")] []]))
           Mock.http Mock.okta_origin "abc123" Mock.forward_url []
           (mkResponse 200 Mock.saml_page) Mock.saml_page
           (Tag "[document]" []
                     [Tag "input" [("name", "RelayState"); ("value", "x")] [];
                      Tag "input" [("name", "SAMLResponse"); ("value", "Zmlyc3Q%3D")] [];
                      Tag "input" [("name", "SAMLResponse"); ("value", "c2Vjb25k")] []])
           [Tag "input" [("name", "RelayState"); ("value", "x")] []]
           [("name", "SAMLResponse"); ("value", "Zmlyc3Q%3D")] []
           [Tag "input" [("name", "SAMLResponse"); ("value", "c2Vjb25k")] []]
           "Zmlyc3Q%3D");
    vm_compute; reflexivity.
Defined.

(** X10. After its call, [oktaGetSamlResponse] passes on what goes wrong as
    it is: the exception of the transport, the [UnicodeDecodeError] of a
    body that is not UTF-8, the exception of the HTML parser. *)
Theorem oktaGetSamlResponse_propagates :
  forall BeautifulSoup http oktaUrl token oktaForwardUrl log e,
    let req := redirect_request oktaUrl token oktaForwardUrl in
    (http log req = inl e
     \/ (exists response, http log req = inr response
                          /\ decode (_content response) = inl e)
     \/ (exists response markup, http log req = inr response
                                 /\ decode (_content response) = inr markup
                                 /\ BeautifulSoup markup = inl e)) ->
    oktaGetSamlResponse BeautifulSoup http oktaUrl (PStr token) oktaForwardUrl log
    = (inl e, (log ++ [req])%list).
Proof.
  intros soup http oktaUrl token fwd log e req H. subst req.
  unfold oktaGetSamlResponse, bind, requests_get, send, lift, ret. simpl.
  unfold redirect_request in H.
  rewrite append_assoc, append_assoc. simpl. simpl in H.
  destruct H as [H|[(response & H & Hd)|(response & markup & H & Hd & Hs)]];
    rewrite H; [reflexivity| |]; rewrite Hd; [reflexivity|].
  rewrite Hs. reflexivity.
Qed.

Lemma oktaGetSamlResponse_propagates_witness :
  oktaGetSamlResponse Mock.BeautifulSoup
    (fun _ _ => inr (mkResponse 200 (String (ascii_of_N 255) "<html>")))
    Mock.okta_origin (PStr "abc123") Mock.forward_url []
  = (inl UnicodeDecodeError,
     [redirect_request Mock.okta_origin "abc123" Mock.forward_url]).
Proof.
  apply (oktaGetSamlResponse_propagates Mock.BeautifulSoup
           (fun _ _ => inr (mkResponse 200 (String (ascii_of_N 255) "<html>")))
           Mock.okta_origin "abc123" Mock.forward_url [] UnicodeDecodeError).
  right. left. eexists. split; reflexivity.
Defined.

(** ** Percent-encoding *)

Section QuotingFacts.

Lemma concat_cons (x : string) (xs : list string) :
  String.concat "" (x :: xs) = x ++ String.concat "" xs.
Proof.
  destruct xs as [|y ys]; simpl; [|reflexivity].
  symmetry. apply append_empty_r.
Qed.

Lemma split_nonempty c s : exists seg segs, split c s = seg :: segs.
Proof.
  destruct s as [|d s]; simpl; [eauto|].
  destruct (Ascii.eqb d c); [eauto|].
  destruct (split c s); eauto.
Qed.

(** The two digits that [quote] writes for a byte are hexadecimal digits,
    unreserved characters, and name that byte. *)
Lemma percent_digits c :
  let hi := hex_digit (code c / 16) in
  let lo := hex_digit (code c mod 16) in
  (exists a b, hex_value hi = Some a /\ hex_value lo = Some b
               /\ ascii_of_N (16 * a + b) = c)
  /\ always_safe hi = true /\ always_safe lo = true.
Proof.
  intros hi lo. subst hi lo.
  pose proof (ascii_forall
                (fun c => match hex_value (hex_digit (code c / 16)),
                                hex_value (hex_digit (code c mod 16)) with
                          | Some a, Some b => Ascii.eqb (ascii_of_N (16 * a + b)) c
                          | _, _ => false
                          end
                          && always_safe (hex_digit (code c / 16))
                          && always_safe (hex_digit (code c mod 16)))
                eq_refl c) as H.
  simpl in H. apply andb_prop in H as [H H3]. apply andb_prop in H as [H1 H2].
  split; [|split; assumption].
  destruct (hex_value (hex_digit (code c / 16))) as [a|]; [|discriminate].
  destruct (hex_value (hex_digit (code c mod 16))) as [b|]; [|discriminate].
  exists a, b. apply Ascii.eqb_eq in H1. auto.
Qed.

(** An unreserved character is ASCII and is neither ["%"], nor a space, nor
    one of the characters that delimit the parts of a query. *)
Lemma always_safe_plain c :
  always_safe c = true ->
  is_ascii_char c = true /\ Ascii.eqb c "%" = false /\ Ascii.eqb c " " = false
  /\ Ascii.eqb c "&" = false /\ Ascii.eqb c "=" = false /\ Ascii.eqb c "#" = false
  /\ Ascii.eqb c "+" = false.
Proof.
  intros H.
  pose proof (ascii_forall
                (fun c => implb (always_safe c)
                            (is_ascii_char c && negb (Ascii.eqb c "%")
                             && negb (Ascii.eqb c " ") && negb (Ascii.eqb c "&")
                             && negb (Ascii.eqb c "=") && negb (Ascii.eqb c "#")
                             && negb (Ascii.eqb c "+")))
                eq_refl c) as Hc.
  simpl in Hc. rewrite H in Hc. simpl in Hc.
  repeat (apply andb_prop in Hc as [Hc ?]).
  repeat match goal with
         | X : negb _ = true |- _ => apply negb_true_iff in X
         end.
  auto 10.
Qed.

Lemma unquote_to_bytes_kept c q :
  Ascii.eqb c "%" = false ->
  unquote_to_bytes (String c q) = String c (unquote_to_bytes q).
Proof.
  intros Hc. unfold unquote_to_bytes. cbn [split]. rewrite Hc.
  destruct (split_nonempty "%" q) as (seg & segs & ->).
  rewrite !concat_cons. reflexivity.
Qed.

Lemma unquote_to_bytes_escape c q :
  unquote_to_bytes (percent_byte c ++ q) = String c (unquote_to_bytes q).
Proof.
  destruct (percent_digits c) as ((a & b & Ha & Hb & Hab) & Hhi & Hlo).
  apply always_safe_plain in Hhi as (_ & Hhi & _).
  apply always_safe_plain in Hlo as (_ & Hlo & _).
  unfold unquote_to_bytes, percent_byte. cbn [append split].
  rewrite Ascii.eqb_refl, Hhi, Hlo.
  destruct (split_nonempty "%" q) as (seg & segs & ->).
  cbn [map]. rewrite !concat_cons. cbn [unquote_item append].
  rewrite Ha, Hb, Hab. reflexivity.
Qed.

(** Decoding the escapes of a quoted text gives the bytes that were
    quoted. *)
Lemma unquote_to_bytes_quote safe s :
  (forall c, safe c = true -> Ascii.eqb c "%" = false) ->
  unquote_to_bytes (quote_from_bytes safe s) = s.
Proof.
  intros Hsafe. induction s as [|c s IH]; [reflexivity|].
  cbn [quote_from_bytes].
  destruct (is_ascii_char c && (always_safe c || safe c)) eqn:E.
  - cbn [append]. rewrite unquote_to_bytes_kept, IH; [reflexivity|].
    apply andb_prop in E as [_ E]. apply orb_prop in E as [E|E].
    + apply always_safe_plain in E as (_ & E & _). exact E.
    + apply Hsafe, E.
  - rewrite unquote_to_bytes_escape, IH. reflexivity.
Qed.

(** What [quote] writes: unreserved characters, safe characters and
    ["%"]. *)
Lemma quote_from_bytes_chars safe s :
  string_forall (fun c => always_safe c || Ascii.eqb c "%" || safe c)
                (quote_from_bytes safe s) = true.
Proof.
  induction s as [|c s IH]; [reflexivity|].
  cbn [quote_from_bytes].
  destruct (is_ascii_char c && (always_safe c || safe c)) eqn:E.
  - cbn [append string_forall]. rewrite IH, andb_true_r.
    apply andb_prop in E as [_ E]. apply orb_prop in E as [E|E]; rewrite E.
    + reflexivity.
    + apply orb_true_r.
  - destruct (percent_digits c) as (_ & Hhi & Hlo).
    unfold percent_byte. cbn [append string_forall].
    rewrite Hhi, Hlo, IH, Ascii.eqb_refl. rewrite orb_true_r. reflexivity.
Qed.

Lemma string_forall_map (p q : ascii -> bool) (f : ascii -> ascii) s :
  (forall c, p c = true -> q (f c) = true) ->
  string_forall p s = true -> string_forall q (string_map f s) = true.
Proof.
  intros Hpq. induction s as [|c s IH]; simpl; [reflexivity|].
  intros H. apply andb_prop in H as [Hc Hs].
  rewrite (Hpq _ Hc), IH by assumption. reflexivity.
Qed.

(** ASCII bytes are decoded to themselves. *)
Lemma decode_replace_ascii s : isascii s = true -> decode_replace s = s.
Proof.
  unfold decode_replace, isascii.
  induction s as [|c s IH]; [reflexivity|].
  cbn [string_forall]. intros H. apply andb_prop in H as [Hc Hs].
  cbn [utf8_scan]. unfold is_ascii_char in Hc. rewrite Hc.
  cbn [map]. rewrite concat_cons, IH by assumption. reflexivity.
Qed.

Lemma ascii_runs_ascii c s :
  isascii (String c s) = true -> ascii_runs (String c s) = [(true, String c s)].
Proof.
  unfold isascii. revert c. induction s as [|d s IH]; intros c H.
  - cbn [string_forall] in H. apply andb_prop in H as [Hc _].
    cbn [ascii_runs]. rewrite Hc. reflexivity.
  - cbn [string_forall] in H. apply andb_prop in H as [Hc Hs].
    change (ascii_runs (String c (String d s)))
      with (let a := is_ascii_char c in
            match ascii_runs (String d s) with
            | (a', run) :: runs =>
                if Bool.eqb a a' then (a, String c run) :: runs
                else (a, String c "") :: (a', run) :: runs
            | [] => [(a, String c "")]
            end).
    rewrite (IH d Hs). cbv zeta. rewrite Hc. reflexivity.
Qed.

Lemma quote_isascii s : isascii (quote_from_bytes (fun _ => false) s) = true.
Proof.
  unfold isascii.
  eapply string_forall_impl; [|apply (quote_from_bytes_chars (fun _ => false) s)].
  intros c Hc. cbv beta in Hc. rewrite orb_false_r in Hc.
  apply orb_prop in Hc as [Hc|Hc].
  - apply always_safe_plain in Hc as [Hc _]. exact Hc.
  - apply Ascii.eqb_eq in Hc. subst c. reflexivity.
Qed.

(** [unquote] undoes [quote] on ASCII text. *)
Lemma unquote_quote s :
  isascii s = true -> unquote (quote_from_bytes (fun _ => false) s) = s.
Proof.
  intros Hs.
  pose proof (unquote_to_bytes_quote (fun _ => false) s
                ltac:(intros c H; discriminate H)) as Hq.
  pose proof (quote_isascii s) as Ha.
  unfold unquote.
  destruct (contains "%" (quote_from_bytes (fun _ => false) s)) eqn:Hc; cbn [negb].
  - destruct (quote_from_bytes (fun _ => false) s) as [|c q] eqn:E; [discriminate Hc|].
    rewrite (ascii_runs_ascii _ _ Ha). cbn [map String.concat].
    rewrite Hq. apply decode_replace_ascii, Hs.
  - rewrite <- Hq at 2. unfold unquote_to_bytes.
    rewrite (split_single _ _ Hc). reflexivity.
Qed.

End QuotingFacts.

(** X11. On ASCII text without a space the percent-decoding of
    [oktaGetSamlResponse] undoes the percent-encoding that [awsAssumeRole]
    applies: [unquote(quote_plus(s))] is [s].  In particular the base64
    assertion that a page carries percent-encoded is recovered as it
    was. *)
Theorem unquote_quote_plus :
  forall s,
    isascii s = true -> contains " " s = false ->
    unquote (quote_plus s) = s.
Proof.
  intros s Ha Hsp. unfold quote_plus, quote. rewrite Hsp. cbn [negb].
  apply unquote_quote, Ha.
Qed.

Lemma unquote_quote_plus_witness :
  unquote (quote_plus "PHNhbWxwOlJlc3BvbnNlPg==") = "PHNhbWxwOlJlc3BvbnNlPg=="
  /\ quote_plus "PHNhbWxwOlJlc3BvbnNlPg==" = "PHNhbWxwOlJlc3BvbnNlPg%3D%3D".
Proof.
  split; [|reflexivity].
  apply (unquote_quote_plus "PHNhbWxwOlJlc3BvbnNlPg=="); reflexivity.
Defined.

(** X12. Whatever the assertion, the text that [awsAssumeRole] puts after
    ["SAMLAssertion="] is made of letters, digits, ["_"], ["."], ["-"],
    ["~"], ["%"] and ["+"] only: it holds no ["&"], ["="], ["#"] or space
    that could end the parameter or add another one. *)
Theorem quote_plus_query_safe :
  forall s,
    string_forall (fun c => always_safe c || Ascii.eqb c "%" || Ascii.eqb c "+")
                  (quote_plus s) = true
    /\ contains "&" (quote_plus s) = false
    /\ contains "=" (quote_plus s) = false
    /\ contains "#" (quote_plus s) = false
    /\ contains " " (quote_plus s) = false.
Proof.
  intros s.
  assert (H : string_forall (fun c => always_safe c || Ascii.eqb c "%" || Ascii.eqb c "+")
                            (quote_plus s) = true).
  { unfold quote_plus, quote.
    destruct (contains " " s); cbn [negb].
    - unfold space_to_plus.
      eapply string_forall_map;
        [|apply (quote_from_bytes_chars (fun c => Ascii.eqb c " ") (s))].
      intros c Hc. cbv beta in Hc |- *.
      destruct (Ascii.eqb c " ") eqn:Hsp; [reflexivity|].
      rewrite orb_false_r in Hc. rewrite Hc. reflexivity.
    - eapply string_forall_impl; [|apply (quote_from_bytes_chars (fun _ => false) s)].
      intros c Hc. cbv beta in Hc. rewrite orb_false_r in Hc. rewrite Hc. reflexivity. }
  split; [exact H|].
  repeat split;
    (eapply (forall_not_contains
               (fun c => always_safe c || Ascii.eqb c "%" || Ascii.eqb c "+"));
     [reflexivity|exact H]).
Qed.

(** ** Edge cases of [awsAssumeRole] *)

Section AssumeRoleEdgeFacts.

Lemma getitems_app v ks1 ks2 :
  getitems v (ks1 ++ ks2) = rbind (getitems v ks1) (fun v' => getitems v' ks2).
Proof.
  revert v. induction ks1 as [|k ks1 IH]; intros v; simpl; [reflexivity|].
  destruct (getitem v k) as [e|v']; simpl; [reflexivity|]. apply IH.
Qed.

Lemma string_forall_append p a b :
  string_forall p (a ++ b) = string_forall p a && string_forall p b.
Proof.
  induction a as [|c a IH]; simpl; [reflexivity|].
  rewrite IH. apply andb_assoc.
Qed.

(** The decoder steps over a character that is neither of the alphabet nor
    the padding, in whatever state it is. *)
Lemma a2b_loop_skip a c b :
  b64_value c = None -> Ascii.eqb c "=" = false ->
  forall quad_pos leftchar pads,
    a2b_loop (a ++ String c b) quad_pos leftchar pads
    = a2b_loop (a ++ b) quad_pos leftchar pads.
Proof.
  intros Hv Hp. induction a as [|d a IH]; intros quad_pos leftchar pads.
  - cbn [append a2b_loop]. rewrite Hp, Hv. reflexivity.
  - cbn [append a2b_loop].
    destruct (Ascii.eqb d "=").
    + destruct (2 <=? quad_pos)%nat; [|apply IH].
      destruct (4 <=? quad_pos + S pads)%nat; [reflexivity|apply IH].
    + destruct (b64_value d) as [this_ch|]; [|apply IH].
      destruct quad_pos as [|[|[|n]]]; rewrite IH; reflexivity.
Qed.

(** The segments of [split] hold no separator, and joined with the
    separator they give the text back. *)
Lemma split_segments c s : Forall (fun seg => contains c seg = false) (split c s).
Proof.
  induction s as [|d s IH]; simpl.
  - constructor; [reflexivity|constructor].
  - destruct (Ascii.eqb d c) eqn:Hd.
    + constructor; [reflexivity|exact IH].
    + destruct (split c s) as [|seg segs]; [constructor; [|constructor]|].
      * simpl. rewrite Hd. reflexivity.
      * inversion IH; subst. constructor; [|assumption].
        simpl. rewrite Hd. assumption.
Qed.

Lemma split_join c s : String.concat (String c "") (split c s) = s.
Proof.
  induction s as [|d s IH]; [reflexivity|].
  cbn [split]. destruct (split_nonempty c s) as (seg & segs & E).
  rewrite E in IH |- *.
  destruct (Ascii.eqb_spec d c) as [->|Hd].
  - change (String c (String.concat (String c "") (seg :: segs)) = String c s).
    rewrite IH. reflexivity.
  - destruct segs as [|seg' segs].
    + change (String d seg = String d s).
      change (seg = s) in IH. rewrite IH. reflexivity.
    + change (String d (String.concat (String c "") (seg :: seg' :: segs)) = String d s).
      rewrite IH. reflexivity.
Qed.

End AssumeRoleEdgeFacts.

(** X13. [awsAssumeRole] calls STS only with an assertion that decodes from
    base64, parses as XML, holds the attribute text at the fixed path and
    has a comma in that text; on any other assertion it makes no call. *)
Theorem awsAssumeRole_call_needs_pair :
  forall xmltodict_parse http samlb64enc log,
    snd (awsAssumeRole xmltodict_parse http samlb64enc log) <> log ->
    exists xml arnDict arnStr,
      b64decode samlb64enc = inr xml
      /\ xmltodict_parse xml = inr arnDict
      /\ getitems arnDict arn_path = inr (PStr arnStr)
      /\ contains "," arnStr = true.
Proof.
  intros parse http saml log Hcall.
  destruct (b64decode saml) as [e|xml] eqn:Hb.
  { exfalso. apply Hcall. unfold awsAssumeRole, bind, lift. rewrite Hb. reflexivity. }
  destruct (parse xml) as [e|arnDict] eqn:Hx.
  { exfalso. apply Hcall. unfold awsAssumeRole, bind, lift. rewrite Hb, Hx. reflexivity. }
  destruct (getitems arnDict arn_path) as [e|arnStr] eqn:Hp.
  { exfalso. apply Hcall. unfold awsAssumeRole, bind, lift.
    rewrite Hb, Hx, Hp. reflexivity. }
  destruct arnStr as [| | | |text| |];
    try (exfalso; apply Hcall; unfold awsAssumeRole, bind, lift;
         rewrite Hb, Hx, Hp; reflexivity).
  exists xml, arnDict, text.
  split; [first [assumption|reflexivity]|].
  split; [first [assumption|reflexivity]|].
  split; [first [assumption|reflexivity]|].
  destruct (contains "," text) eqn:Hc; [reflexivity|].
  exfalso. apply Hcall.
  rewrite (awsAssumeRole_one_segment parse http saml log xml arnDict text Hb Hx Hp Hc).
  reflexivity.
Qed.

Lemma awsAssumeRole_call_needs_pair_witness :
  exists xml arnDict arnStr,
    b64decode Mock.samlb64enc = inr xml
    /\ Mock.xmltodict_parse xml = inr arnDict
    /\ getitems arnDict arn_path = inr (PStr arnStr)
    /\ contains "," arnStr = true.
Proof.
  apply (awsAssumeRole_call_needs_pair Mock.xmltodict_parse Mock.http Mock.samlb64enc []).
  intros H. vm_compute in H. discriminate H.
Defined.

(** X14. When the attribute statement holds a single attribute, which
    [xmltodict] gives as a dictionary and not as a list, the subscript
    [[0]] raises the [KeyError] of [0] and no call is made. *)
Theorem awsAssumeRole_single_attribute :
  forall xmltodict_parse http samlb64enc log xml arnDict statement items,
    b64decode samlb64enc = inr xml ->
    xmltodict_parse xml = inr arnDict ->
    getitems arnDict [KStr "saml2p:Response"; KStr "saml2:Assertion";
                      KStr "saml2:AttributeStatement"] = inr statement ->
    getitem statement (KStr "saml2:Attribute") = inr (PDict items) ->
    awsAssumeRole xmltodict_parse http samlb64enc log = (inl (KeyError (KInt 0)), log).
Proof.
  intros parse http saml log xml arnDict statement items Hb Hx Hs Ha.
  unfold awsAssumeRole, bind, lift. rewrite Hb, Hx.
  change arn_path
    with ([KStr "saml2p:Response"; KStr "saml2:Assertion";
           KStr "saml2:AttributeStatement"]
            ++ [KStr "saml2:Attribute"; KInt 0; KStr "saml2:AttributeValue";
                KStr "#text"])%list.
  rewrite getitems_app, Hs. cbn [rbind getitems]. rewrite Ha. reflexivity.
Qed.

Lemma awsAssumeRole_single_attribute_witness :
  awsAssumeRole
    (fun _ => inr (PDict [("saml2p:Response",
                     PDict [("saml2:Assertion",
                       PDict [("saml2:AttributeStatement",
                         PDict [("saml2:Attribute",
                           PDict [("@Name", PStr "https://aws.amazon.com/SAML/Attributes/Role");
                                  ("saml2:AttributeValue",
                                   PDict [("@xsi:type", PStr "xs:string");
                                          ("#text", PStr Mock.arn_pair)])])])])])]))
    Mock.http Mock.samlb64enc []
  = (inl (KeyError (KInt 0)), []).
Proof.
  eapply (awsAssumeRole_single_attribute _ Mock.http Mock.samlb64enc [] Mock.saml_xml);
    vm_compute; reflexivity.
Defined.

(** X15. When STS answers with a document whose root is not
    [AssumeRoleWithSAMLResponse], as its error documents are, whatever the
    status, [awsAssumeRole] raises the [KeyError] of that name after its
    one call. *)
Theorem awsAssumeRole_sts_error_document :
  forall xmltodict_parse http samlb64enc log xml arnDict principalArn roleArn tail
         awsResp awsXml items,
    b64decode samlb64enc = inr xml ->
    xmltodict_parse xml = inr arnDict ->
    getitems arnDict arn_path = inr (PStr (principalArn ++ "," ++ roleArn ++ tail)) ->
    contains "," principalArn = false ->
    contains "," roleArn = false ->
    segment_end tail = true ->
    http log (sts_request roleArn principalArn (quote_plus samlb64enc)) = inr awsResp ->
    decode (_content awsResp) = inr awsXml ->
    xmltodict_parse awsXml = inr (PDict items) ->
    dict_get items "AssumeRoleWithSAMLResponse" = None ->
    awsAssumeRole xmltodict_parse http samlb64enc log
    = (inl (KeyError (KStr "AssumeRoleWithSAMLResponse")),
       (log ++ [sts_request roleArn principalArn (quote_plus samlb64enc)])%list).
Proof.
  intros parse http saml log xml arnDict principal role tail awsResp awsXml items
         Hb Hx Hp Hcp Hcr Ht Hhttp Hdec Hparse Hnone.
  destruct (split_two principal role tail Hcp Hcr Ht) as (more & Hs).
  rewrite (awsAssumeRole_request parse http saml log xml arnDict _ _ _ _ Hb Hx Hp Hs).
  rewrite Hhttp. cbn [rbind]. rewrite Hdec. cbn [rbind]. rewrite Hparse. cbn [rbind].
  unfold credentials_path. cbn [getitems getitem]. rewrite Hnone. reflexivity.
Qed.

Lemma awsAssumeRole_sts_error_document_witness :
  awsAssumeRole
    (fun xml => if String.eqb xml Mock.saml_xml
                then inr (Mock.saml_dict_with Mock.arn_pair)
                else inr (PDict [("ErrorResponse",
                                  PDict [("Error",
                                          PDict [("Code", PStr "ExpiredTokenException")])])]))
    (fun _ _ => inr (mkResponse 400 "<ErrorResponse/>"))
    Mock.samlb64enc []
  = (inl (KeyError (KStr "AssumeRoleWithSAMLResponse")),
     [sts_request Mock.role_arn Mock.principal_arn (quote_plus Mock.samlb64enc)]).
Proof.
  eapply (awsAssumeRole_sts_error_document _ _ Mock.samlb64enc [] Mock.saml_xml
            (Mock.saml_dict_with Mock.arn_pair) Mock.principal_arn Mock.role_arn ""
            (mkResponse 400 "<ErrorResponse/>") "<ErrorResponse/>");
    vm_compute; reflexivity.
Defined.

(** X16. [b64decode], as [awsAssumeRole] calls it, steps over every ASCII
    character that is neither of the base64 alphabet nor ["="]: line breaks
    and spaces inside the assertion do not change the decoded document. *)
Theorem b64decode_ignores_foreign :
  forall a c b,
    is_ascii_char c = true -> b64_value c = None -> Ascii.eqb c "=" = false ->
    b64decode (a ++ String c b) = b64decode (a ++ b).
Proof.
  intros a c b Ha Hv Hp. unfold b64decode, a2b_base64, isascii.
  rewrite !string_forall_append. cbn [string_forall]. rewrite Ha. cbn [andb].
  destruct (string_forall is_ascii_char a && string_forall is_ascii_char b);
    [|reflexivity].
  apply a2b_loop_skip; assumption.
Qed.

Lemma b64decode_ignores_foreign_witness :
  b64decode ("PHNhbWxw" ++ String (ascii_of_N 10) "OlJlc3BvbnNlPg==")
  = inr "<samlp:Response>".
Proof.
  rewrite (b64decode_ignores_foreign "PHNhbWxw" (ascii_of_N 10) "OlJlc3BvbnNlPg==");
    reflexivity.
Defined.

(** X17. [b64decode] undoes [b64encode]: every document is recovered from
    its base64 encoding, byte for byte. *)
Theorem b64decode_undoes_b64encode :
  forall bs, b64decode (b64encode bs) = inr bs.
Proof.
  intros bs. apply b64decode_b64encode.
Qed.

(** X18. The segments into which [awsAssumeRole] splits the attribute text
    hold no comma, there is at least one, and joined with commas they give
    the text back; so of the two subscripts only [[1]] can fail. *)
Theorem split_comma_segments :
  forall arnStr,
    Forall (fun seg => contains "," seg = false) (split "," arnStr)
    /\ String.concat "," (split "," arnStr) = arnStr
    /\ exists principalArn more,
        split "," arnStr = principalArn :: more
        /\ list_getitem (split "," arnStr) 0 = inr principalArn.
Proof.
  intros arnStr. split; [apply split_segments|]. split; [apply (split_join ",")|].
  destruct (split_nonempty "," arnStr) as (seg & segs & E).
  exists seg, segs. rewrite E. split; reflexivity.
Qed.

(** ** The whole run *)

Section RunFacts.

Variable nfkc : pystr -> pystr.
Variable bracketed_host_ok : pystr -> bool.
Variable json_dumps : list (pystr * pystr) -> pystr.
Variable json : Response -> result pyval.
Variable xmltodict_parse : pybytes -> result pyval.
Variable BeautifulSoup : pystr -> result Node.
Variable http : list Request -> Request -> result Response.

(** The call of [awsAssumeRole], when it makes one, is the STS request for
    two ARNs and the percent-encoded assertion. *)
Lemma awsAssumeRole_log_request samlb64enc log :
  snd (awsAssumeRole xmltodict_parse http samlb64enc log) = log
  \/ exists roleArn principalArn,
      snd (awsAssumeRole xmltodict_parse http samlb64enc log)
      = (log ++ [sts_request roleArn principalArn (quote_plus samlb64enc)])%list.
Proof.
  destruct (b64decode samlb64enc) as [e|xml] eqn:Hb;
    [left; unfold awsAssumeRole, bind, lift; rewrite Hb; reflexivity|].
  destruct (xmltodict_parse xml) as [e|arnDict] eqn:Hx;
    [left; unfold awsAssumeRole, bind, lift; rewrite Hb, Hx; reflexivity|].
  destruct (getitems arnDict arn_path) as [e|arnStr] eqn:Hp;
    [left; unfold awsAssumeRole, bind, lift; rewrite Hb, Hx, Hp; reflexivity|].
  destruct arnStr as [| | | |text| |];
    try (left; unfold awsAssumeRole, bind, lift; rewrite Hb, Hx, Hp; reflexivity).
  destruct (split "," text) as [|principalArn [|roleArn more]] eqn:Hs.
  - left. unfold awsAssumeRole, bind, lift. rewrite Hb, Hx, Hp.
    unfold method_split. rewrite Hs. reflexivity.
  - left. unfold awsAssumeRole, bind, lift. rewrite Hb, Hx, Hp.
    unfold method_split. rewrite Hs. reflexivity.
  - right. exists roleArn, principalArn.
    rewrite (awsAssumeRole_request xmltodict_parse http samlb64enc log xml arnDict text
               principalArn roleArn more Hb Hx Hp Hs).
    reflexivity.
Qed.

(** The calls of a run, stage by stage. *)
Lemma assume_log username password oktaForwardUrl log :
  let run :=
    assume nfkc bracketed_host_ok json_dumps json xmltodict_parse BeautifulSoup http
           username password oktaForwardUrl log in
  (exists e, getOktaUrl nfkc bracketed_host_ok oktaForwardUrl = inl e /\ snd run = log)
  \/ exists oktaUrl,
      getOktaUrl nfkc bracketed_host_ok oktaForwardUrl = inr oktaUrl
      /\ (snd run = (log ++ [authn_request json_dumps username password oktaUrl])%list
          \/ exists token,
              snd run = (log ++ [authn_request json_dumps username password oktaUrl;
                                 redirect_request oktaUrl token oktaForwardUrl])%list
              \/ exists samlb64enc roleArn principalArn,
                  snd run
                  = (log ++ [authn_request json_dumps username password oktaUrl;
                             redirect_request oktaUrl token oktaForwardUrl;
                             sts_request roleArn principalArn
                                         (quote_plus samlb64enc)])%list).
Proof.
  intros run. subst run.
  remember (snd (assume nfkc bracketed_host_ok json_dumps json xmltodict_parse
                        BeautifulSoup http username password oktaForwardUrl log))
    as final eqn:Hf.
  unfold assume in Hf.
  unfold bind at 1 in Hf. unfold lift at 1 in Hf.
  destruct (getOktaUrl nfkc bracketed_host_ok oktaForwardUrl) as [e|oktaUrl] eqn:Hurl.
  { left. exists e. split; [reflexivity|exact Hf]. }
  right. exists oktaUrl. split; [reflexivity|].
  pose proof (oktaAuth_log json_dumps json http username password oktaUrl log) as Hlog1.
  unfold bind at 1 in Hf.
  destruct (oktaAuth json_dumps json http username password oktaUrl log)
    as [[e|tok] log1]; simpl in Hlog1; subst log1; [left; exact Hf|].
  destruct tok as [| | | |token| |]; try (left; exact Hf).
  right. exists token.
  pose proof (oktaGetSamlResponse_log BeautifulSoup http oktaUrl (PStr token)
                oktaForwardUrl
                (log ++ [authn_request json_dumps username password oktaUrl])%list)
    as Hlog2.
  unfold bind at 1 in Hf.
  destruct (oktaGetSamlResponse BeautifulSoup http oktaUrl (PStr token) oktaForwardUrl _)
    as [[e|saml] log2]; simpl in Hlog2; subst log2.
  - left. cbn [snd] in Hf. rewrite <- app_assoc in Hf. exact Hf.
  - destruct (awsAssumeRole_log_request saml
                ((log ++ [authn_request json_dumps username password oktaUrl])
                   ++ [redirect_request oktaUrl token oktaForwardUrl])%list)
      as [H|(r & p & H)]; rewrite H in Hf.
    + left. rewrite <- app_assoc in Hf. exact Hf.
    + right. exists saml, r, p. rewrite <- !app_assoc in Hf. exact Hf.
Qed.

(** [assume] as the chain of its stages. *)
Lemma assume_chain username password oktaForwardUrl log :
  assume nfkc bracketed_host_ok json_dumps json xmltodict_parse BeautifulSoup http
         username password oktaForwardUrl log
  = match getOktaUrl nfkc bracketed_host_ok oktaForwardUrl with
    | inl e => (inl e, log)
    | inr oktaUrl =>
        match oktaAuth json_dumps json http username password oktaUrl log with
        | (inl e, log1) => (inl e, log1)
        | (inr sessionToken, log1) =>
            match oktaGetSamlResponse BeautifulSoup http oktaUrl sessionToken
                    oktaForwardUrl log1 with
            | (inl e, log2) => (inl e, log2)
            | (inr samlb64enc, log2) => awsAssumeRole xmltodict_parse http samlb64enc log2
            end
        end
    end.
Proof.
  unfold assume. unfold bind at 1. unfold lift at 1.
  destruct (getOktaUrl nfkc bracketed_host_ok oktaForwardUrl) as [e|oktaUrl];
    [reflexivity|].
  unfold bind at 1.
  destruct (oktaAuth json_dumps json http username password oktaUrl log)
    as [[e|tok] log1]; [reflexivity|].
  unfold bind at 1.
  destruct (oktaGetSamlResponse BeautifulSoup http oktaUrl tok oktaForwardUrl log1)
    as [[e|saml] log2]; reflexivity.
Qed.

(** A property of the alphabet and of the padding holds of every
    character of an encoding. *)
Lemma b64encode_forall (p : ascii -> bool) :
  forallb (fun n => p (b64_char n)) (map N.of_nat (seq 0 64)) = true ->
  p "="%char = true ->
  forall bs, string_forall p (b64encode bs) = true.
Proof.
  intros Hall Hpad bs.
  pose proof (forall_below (fun n => p (b64_char n)) 64 Hall) as Hp.
  induction bs as [|a|a b|a b c rest IH] using string_ind3.
  - reflexivity.
  - destruct (sextet_1 (code a) (code_lt_256 a)) as (H1 & H2 & _).
    destruct (join_2_4 _ 0%N H2 ltac:(lia)) as (H3 & _).
    rewrite N.lor_0_r in H3.
    cbn [b64encode string_forall].
    rewrite (Hp _ H1), (Hp _ H3), Hpad. reflexivity.
  - destruct (sextet_1 (code a) (code_lt_256 a)) as (H1 & H2 & _).
    destruct (sextet_2 (code b) (code_lt_256 b)) as (Hb1 & Hb2 & _).
    destruct (join_2_4 _ _ H2 Hb1) as (H3 & _).
    destruct (join_4_2 _ 0%N Hb2 ltac:(lia)) as (H4 & _).
    rewrite N.lor_0_r in H4.
    cbn [b64encode string_forall].
    rewrite (Hp _ H1), (Hp _ H3), (Hp _ H4), Hpad. reflexivity.
  - destruct (sextet_1 (code a) (code_lt_256 a)) as (H1 & H2 & _).
    destruct (sextet_2 (code b) (code_lt_256 b)) as (Hb1 & Hb2 & _).
    destruct (sextet_3 (code c) (code_lt_256 c)) as (Hc1 & Hc2 & _).
    destruct (join_2_4 _ _ H2 Hb1) as (H3 & _).
    destruct (join_4_2 _ _ Hb2 Hc1) as (H4 & _).
    cbn [b64encode string_forall].
    rewrite (Hp _ H1), (Hp _ H3), (Hp _ H4), (Hp _ Hc2). exact IH.
Qed.

(** The percent-encoding of a base64 text is undone by [unquote]. *)
Lemma unquote_quote_plus_b64 bs :
  unquote (quote_plus (b64encode bs)) = b64encode bs.
Proof.
  assert (Hsp : contains " " (b64encode bs) = false).
  { apply (forall_not_contains (fun c => negb (Ascii.eqb c " "))); [reflexivity|].
    apply b64encode_forall; reflexivity. }
  unfold quote_plus, quote. rewrite Hsp. cbn [negb].
  apply unquote_quote, b64encode_isascii.
Qed.

End RunFacts.

(** X19. A run of [assume] adds to the log, in this order and each at most
    once, the POST of the credentials to the origin of the forward URL, the
    GET of the redirect page and the GET to STS; it stops after the last
    call it made, so there are never more than three calls, no call is
    repeated, and none is made when the forward URL is refused. *)
Theorem assume_call_sequence :
  forall nfkc bracketed_host_ok json_dumps json xmltodict_parse BeautifulSoup http
         username password oktaForwardUrl log,
    let run :=
      assume nfkc bracketed_host_ok json_dumps json xmltodict_parse BeautifulSoup http
             username password oktaForwardUrl log in
    (exists e, getOktaUrl nfkc bracketed_host_ok oktaForwardUrl = inl e /\ snd run = log)
    \/ exists oktaUrl,
        getOktaUrl nfkc bracketed_host_ok oktaForwardUrl = inr oktaUrl
        /\ (snd run = (log ++ [authn_request json_dumps username password oktaUrl])%list
            \/ exists token,
                snd run = (log ++ [authn_request json_dumps username password oktaUrl;
                                   redirect_request oktaUrl token oktaForwardUrl])%list
                \/ exists samlb64enc roleArn principalArn,
                    snd run
                    = (log ++ [authn_request json_dumps username password oktaUrl;
                               redirect_request oktaUrl token oktaForwardUrl;
                               sts_request roleArn principalArn
                                           (quote_plus samlb64enc)])%list).
Proof.
  intros nfkc ok json_dumps json parse soup http username password fwd log.
  exact (assume_log nfkc ok json_dumps json parse soup http username password fwd log).
Qed.

(** X20. A forward URL without a colon and without a leading ["//"] is not
    refused: [assume] goes on with the origin ["://"] and its first call
    posts the credentials to [":///api/v1/authn"]. *)
Theorem assume_degenerate_origin :
  forall nfkc bracketed_host_ok json_dumps json xmltodict_parse BeautifulSoup http
         username password oktaForwardUrl log,
    contains ":" oktaForwardUrl = false ->
    startswith "//" (cleaned oktaForwardUrl) = false ->
    exists later,
      snd (assume nfkc bracketed_host_ok json_dumps json xmltodict_parse BeautifulSoup http
                  username password oktaForwardUrl log)
      = (log ++ mkRequest POST ":///api/v1/authn"
                  [("Content-Type", "application/json; charset=utf-8")]
                  (Some (json_dumps [("username", username); ("password", password)]))
             :: later)%list.
Proof.
  intros nfkc ok json_dumps json parse soup http username password fwd log Hc Hs.
  pose proof (getOktaUrl_no_scheme_no_host nfkc ok fwd Hc Hs) as Hurl.
  destruct (assume_log nfkc ok json_dumps json parse soup http username password fwd log)
    as [(e & He & _)|(oktaUrl & Ho & H)].
  - rewrite Hurl in He. discriminate He.
  - rewrite Hurl in Ho. inversion Ho; subst oktaUrl.
    destruct H as [H|(token & [H|(saml & r & p & H)])]; rewrite H; eexists; reflexivity.
Qed.

Lemma assume_degenerate_origin_witness :
  exists later,
    snd (assume Mock.nfkc Mock.bracketed_host_ok Mock.json_dumps Mock.json
                Mock.xmltodict_parse Mock.BeautifulSoup Mock.http
                "alice" "correct horse" "okta.example.com/home/amazon_aws/0oa123/272" [])
    = ([] ++ mkRequest POST ":///api/v1/authn"
                [("Content-Type", "application/json; charset=utf-8")]
                (Some (Mock.json_dumps [("username", "alice");
                                        ("password", "correct horse")]))
            :: later)%list.
Proof.
  apply (assume_degenerate_origin Mock.nfkc Mock.bracketed_host_ok Mock.json_dumps
           Mock.json Mock.xmltodict_parse Mock.BeautifulSoup Mock.http
           "alice" "correct horse" "okta.example.com/home/amazon_aws/0oa123/272" []);
    reflexivity.
Defined.

(** X21. End to end.  With a forward URL that has a scheme and a host, an
    Okta that answers the credentials with a session token and the token
    with a page whose one [SAMLResponse] field holds the percent-encoded
    base64 of an assertion naming the two ARNs, and an STS that answers
    with a [Credentials] node, [assume] returns that node after exactly
    three calls: the credentials to the origin of the forward URL, the
    token to the same origin, the assertion to STS. *)
Theorem assume_end_to_end :
  forall nfkc bracketed_host_ok json_dumps json xmltodict_parse BeautifulSoup http
         username password sch auth rest log
         authnResp items token samlAuth markup bs attrs contents
         xml arnDict principalArn roleArn tail awsResp awsXml awsDict credentials,
    let oktaForwardUrl := sch ++ "://" ++ auth ++ rest in
    let oktaUrl := lower sch ++ "://" ++ auth in
    let call1 := authn_request json_dumps username password oktaUrl in
    let call2 := redirect_request oktaUrl token oktaForwardUrl in
    let call3 := sts_request roleArn principalArn (quote_plus (b64encode xml)) in
    valid_scheme sch = true ->
    plain_authority auth = true ->
    starts_tail rest = true ->
    http log call1 = inr authnResp ->
    json authnResp = inr (PDict items) ->
    dict_get items "sessionToken" = Some (PStr token) ->
    http (log ++ [call1])%list call2 = inr samlAuth ->
    decode (_content samlAuth) = inr markup ->
    BeautifulSoup markup = inr bs ->
    In (Tag "input" attrs contents) (descendants bs) ->
    attr_get attrs "name" = Some "SAMLResponse" ->
    attr_get attrs "value" = Some (quote_plus (b64encode xml)) ->
    (forall other, In other (descendants bs) -> is_saml_input other = true ->
                   other = Tag "input" attrs contents) ->
    xmltodict_parse xml = inr arnDict ->
    getitems arnDict arn_path = inr (PStr (principalArn ++ "," ++ roleArn ++ tail)) ->
    contains "," principalArn = false ->
    contains "," roleArn = false ->
    segment_end tail = true ->
    http (log ++ [call1; call2])%list call3 = inr awsResp ->
    decode (_content awsResp) = inr awsXml ->
    xmltodict_parse awsXml = inr awsDict ->
    getitems awsDict credentials_path = inr credentials ->
    assume nfkc bracketed_host_ok json_dumps json xmltodict_parse BeautifulSoup http
           username password oktaForwardUrl log
    = (inr credentials, (log ++ [call1; call2; call3])%list).
Proof.
  intros nfkc ok json_dumps json parse soup http username password sch auth rest log
         authnResp items token samlAuth markup bs attrs contents
         xml arnDict principal role tail awsResp awsXml awsDict creds
         fwd oktaUrl call1 call2 call3
         Hs Ha Hr Hhttp1 Hjson Htok Hhttp2 Hdec2 Hsoup Hin Hname Hvalue Huniq
         Hx Hp Hcp Hcr Ht Hhttp3 Hdec3 Hparse Hcreds.
  subst fwd oktaUrl call1 call2 call3.
  rewrite assume_chain.
  rewrite (getOktaUrl_scheme_authority nfkc ok sch auth rest Hs
             (plain_authority_chars auth Ha) Hr).
  rewrite (oktaAuth_answer json_dumps json http username password _ log authnResp items
             Hhttp1 Hjson), Htok.
  rewrite (oktaGetSamlResponse_answer soup http _ token _ _ samlAuth markup bs
             Hhttp2 Hdec2 Hsoup).
  assert (Hfind : find bs "input" [("name", "SAMLResponse")]
                  = Some (Tag "input" attrs contents)).
  { unfold find. apply find_unique; [exact Hin| |exact Huniq].
    simpl. rewrite Hname. reflexivity. }
  rewrite Hfind. cbn [tag_getitem]. rewrite Hvalue. cbn [rbind].
  rewrite unquote_quote_plus_b64.
  destruct (split_two principal role tail Hcp Hcr Ht) as (more & Hsplit).
  rewrite (awsAssumeRole_request parse http (b64encode xml) _ xml arnDict _ _ _ _
             (b64decode_b64encode xml) Hx Hp Hsplit).
  rewrite <- app_assoc. cbn [app].
  rewrite Hhttp3. cbn [rbind]. rewrite Hdec3. cbn [rbind]. rewrite Hparse. cbn [rbind].
  rewrite Hcreds. rewrite <- app_assoc. reflexivity.
Qed.

Lemma assume_end_to_end_witness :
  assume Mock.nfkc Mock.bracketed_host_ok Mock.json_dumps Mock.json Mock.xmltodict_parse
         Mock.BeautifulSoup Mock.http "alice" "correct horse"
         "https://okta.example.com/home/amazon_aws/0oa123/272" []
  = (inr Mock.credentials,
     [authn_request Mock.json_dumps "alice" "correct horse" "https://okta.example.com";
      redirect_request "https://okta.example.com" "abc123"
                       "https://okta.example.com/home/amazon_aws/0oa123/272";
      sts_request Mock.role_arn Mock.principal_arn
                  (quote_plus (b64encode Mock.saml_xml))]).
Proof.
  apply (assume_end_to_end Mock.nfkc Mock.bracketed_host_ok Mock.json_dumps Mock.json
           Mock.xmltodict_parse Mock.BeautifulSoup Mock.http "alice" "correct horse"
           "https" "okta.example.com" "/home/amazon_aws/0oa123/272" []
           (mkResponse 200 Mock.authn_ok_body) [("sessionToken", PStr "abc123")] "abc123"
           (mkResponse 200 Mock.saml_page) Mock.saml_page Mock.saml_soup
           [("name", "SAMLResponse"); ("type", "hidden");
            ("value", quote_plus Mock.samlb64enc)] []
           Mock.saml_xml (Mock.saml_dict_with Mock.arn_pair)
           Mock.principal_arn Mock.role_arn ""
           (mkResponse 200 Mock.sts_xml) Mock.sts_xml Mock.sts_dict Mock.credentials);
    try (vm_compute; reflexivity).
  - simpl. right. right. right. left. reflexivity.
  - intros other Hin Hm. simpl in Hin.
    repeat (destruct Hin as [<-|Hin]); try discriminate Hm; try reflexivity.
    contradiction.
Defined.

(** X22. When the JSON of Okta holds under [sessionToken] something that is
    not a string, [oktaAuth] returns it as it is and the run ends in the
    next stage with [TypeError], after the one call of [oktaAuth]: no
    redirect page is asked for and STS is not called. *)
Theorem assume_token_not_str :
  forall nfkc bracketed_host_ok json_dumps json xmltodict_parse BeautifulSoup http
         username password oktaForwardUrl log oktaUrl response items sessionToken,
    getOktaUrl nfkc bracketed_host_ok oktaForwardUrl = inr oktaUrl ->
    http log (authn_request json_dumps username password oktaUrl) = inr response ->
    json response = inr (PDict items) ->
    dict_get items "sessionToken" = Some sessionToken ->
    (forall token, sessionToken <> PStr token) ->
    assume nfkc bracketed_host_ok json_dumps json xmltodict_parse BeautifulSoup http
           username password oktaForwardUrl log
    = (inl TypeError, (log ++ [authn_request json_dumps username password oktaUrl])%list).
Proof.
  intros nfkc ok json_dumps json parse soup http username password fwd log oktaUrl
         response items tok Hurl Hhttp Hjson Htok Hno.
  rewrite assume_chain, Hurl.
  rewrite (oktaAuth_answer json_dumps json http username password oktaUrl log
             response items Hhttp Hjson), Htok.
  destruct tok; try reflexivity.
  exfalso. exact (Hno _ eq_refl).
Qed.

Lemma assume_token_not_str_witness :
  assume Mock.nfkc Mock.bracketed_host_ok Mock.json_dumps
         (fun _ => inr (PDict [("status", PStr "MFA_REQUIRED"); ("sessionToken", PNone)]))
         Mock.xmltodict_parse Mock.BeautifulSoup Mock.http
         "alice" "correct horse" Mock.forward_url []
  = (inl TypeError,
     [authn_request Mock.json_dumps "alice" "correct horse" Mock.okta_origin]).
Proof.
  apply (assume_token_not_str Mock.nfkc Mock.bracketed_host_ok Mock.json_dumps
           (fun _ => inr (PDict [("status", PStr "MFA_REQUIRED"); ("sessionToken", PNone)]))
           Mock.xmltodict_parse Mock.BeautifulSoup Mock.http
           "alice" "correct horse" Mock.forward_url [] Mock.okta_origin
           (mkResponse 200 Mock.authn_ok_body)
           [("status", PStr "MFA_REQUIRED"); ("sessionToken", PNone)] PNone).
  - vm_compute; reflexivity.
  - vm_compute; reflexivity.
  - reflexivity.
  - reflexivity.
  - intros token H. discriminate H.
Defined.

(** ** The assertion as STS receives it *)

Section AssertionParameterFacts.

(** The digits of an escape are digits or letters. *)
Lemma percent_digits_alnum c :
  (is_alpha (hex_digit (code c / 16)) || is_digit (hex_digit (code c / 16))) = true
  /\ (is_alpha (hex_digit (code c mod 16)) || is_digit (hex_digit (code c mod 16))) = true.
Proof.
  pose proof (ascii_forall
                (fun c => (is_alpha (hex_digit (code c / 16))
                           || is_digit (hex_digit (code c / 16)))
                          && (is_alpha (hex_digit (code c mod 16))
                              || is_digit (hex_digit (code c mod 16))))
                eq_refl c) as H.
  simpl in H. apply andb_prop in H. exact H.
Qed.

(** An unreserved character is a letter, a digit or one of the four
    marks. *)
Lemma always_safe_alnum c :
  always_safe c = true ->
  (Ascii.eqb c "_" || Ascii.eqb c "." || Ascii.eqb c "-" || Ascii.eqb c "~") = false ->
  (is_alpha c || is_digit c) = true.
Proof.
  unfold always_safe. intros H Hm.
  apply orb_false_elim in Hm as [Hm H4]. apply orb_false_elim in Hm as [Hm H3].
  apply orb_false_elim in Hm as [H1 H2].
  rewrite H1, H2, H3, H4, !orb_false_r in H. exact H.
Qed.

(** Quoting a text without the four marks leaves letters and digits and
    writes everything else as an escape. *)
Lemma quote_from_bytes_alnum s :
  string_forall (fun c => negb (Ascii.eqb c "_" || Ascii.eqb c "." || Ascii.eqb c "-"
                                || Ascii.eqb c "~")) s = true ->
  string_forall (fun c => is_alpha c || is_digit c || Ascii.eqb c "%")
                (quote_from_bytes (fun _ => false) s) = true.
Proof.
  induction s as [|c s IH]; [reflexivity|].
  cbn [string_forall quote_from_bytes]. intros H. apply andb_prop in H as [Hc Hs].
  apply negb_true_iff in Hc.
  destruct (is_ascii_char c && (always_safe c || false)) eqn:E.
  - cbn [append string_forall]. rewrite (IH Hs), andb_true_r.
    apply andb_prop in E as [_ E]. rewrite orb_false_r in E.
    rewrite (always_safe_alnum c E Hc). reflexivity.
  - destruct (percent_digits_alnum c) as [Hhi Hlo].
    unfold percent_byte. cbn [append string_forall].
    rewrite Hhi, Hlo, (IH Hs), Ascii.eqb_refl. rewrite orb_true_r. reflexivity.
Qed.

(** The percent-encoding of a base64 text is made of letters, digits and
    escapes: the ["+"], ["/"] and ["="] of base64 are all escaped. *)
Lemma quote_plus_b64_alnum bs :
  string_forall (fun c => is_alpha c || is_digit c || Ascii.eqb c "%")
                (quote_plus (b64encode bs)) = true.
Proof.
  assert (Hsp : contains " " (b64encode bs) = false).
  { apply (forall_not_contains (fun c => negb (Ascii.eqb c " "))); [reflexivity|].
    apply b64encode_forall; reflexivity. }
  unfold quote_plus, quote. rewrite Hsp. cbn [negb].
  apply quote_from_bytes_alnum.
  apply b64encode_forall; reflexivity.
Qed.

End AssertionParameterFacts.

(** C9. For the base64 encoding of an XML document that holds the pair of
    ARNs, against an STS whose answer holds a [Credentials] node,
    [awsAssumeRole] returns that node as it is, and the one call it makes
    carries the assertion percent-encoded as [SAMLAssertion]: what follows
    ["SAMLAssertion="] is made of letters, digits and ["%"] escapes only,
    so that the ["+"], ["/"] and ["="] of base64 never appear as they are,
    and percent-decoding it gives the assertion back, still base64, which
    in turn decodes to the document. *)
Theorem awsAssumeRole_pass_through :
  forall xmltodict_parse http xml log arnDict principalArn roleArn tail
         awsResp awsXml awsDict credentials,
    xmltodict_parse xml = inr arnDict ->
    getitems arnDict arn_path = inr (PStr (principalArn ++ "," ++ roleArn ++ tail)) ->
    contains "," principalArn = false ->
    contains "," roleArn = false ->
    segment_end tail = true ->
    http log (sts_request roleArn principalArn (quote_plus (b64encode xml))) = inr awsResp ->
    decode (_content awsResp) = inr awsXml ->
    xmltodict_parse awsXml = inr awsDict ->
    getitems awsDict credentials_path = inr credentials ->
    awsAssumeRole xmltodict_parse http (b64encode xml) log
    = (inr credentials,
       (log ++ [sts_request roleArn principalArn (quote_plus (b64encode xml))])%list)
    /\ string_forall (fun c => is_alpha c || is_digit c || Ascii.eqb c "%")
                     (quote_plus (b64encode xml)) = true
    /\ contains "+" (quote_plus (b64encode xml)) = false
    /\ contains "/" (quote_plus (b64encode xml)) = false
    /\ contains "=" (quote_plus (b64encode xml)) = false
    /\ unquote (quote_plus (b64encode xml)) = b64encode xml
    /\ b64decode (unquote (quote_plus (b64encode xml))) = inr xml.
Proof.
  intros parse http xml log arnDict principal role tail awsResp awsXml awsDict creds
         Hx Hp Hcp Hcr Ht Hhttp Hdec Hparse Hcreds.
  split.
  { destruct (split_two principal role tail Hcp Hcr Ht) as (more & Hs).
    rewrite (awsAssumeRole_request parse http (b64encode xml) log xml arnDict _ _ _ _
               (b64decode_b64encode xml) Hx Hp Hs).
    rewrite Hhttp. cbn [rbind]. rewrite Hdec. cbn [rbind]. rewrite Hparse. cbn [rbind].
    rewrite Hcreds. reflexivity. }
  pose proof (quote_plus_b64_alnum xml) as Hchars.
  split; [exact Hchars|].
  split; [eapply (forall_not_contains
                    (fun c => is_alpha c || is_digit c || Ascii.eqb c "%"));
          [reflexivity|exact Hchars]|].
  split; [eapply (forall_not_contains
                    (fun c => is_alpha c || is_digit c || Ascii.eqb c "%"));
          [reflexivity|exact Hchars]|].
  split; [eapply (forall_not_contains
                    (fun c => is_alpha c || is_digit c || Ascii.eqb c "%"));
          [reflexivity|exact Hchars]|].
  split; [apply unquote_quote_plus_b64|].
  rewrite unquote_quote_plus_b64. apply b64decode_b64encode.
Qed.

(** The assertion of the test double: its base64 text ends in ["="] and
    holds ["+"], which reach STS as ["%3D"] and ["%2B"]. *)
Lemma awsAssumeRole_pass_through_witness :
  (awsAssumeRole Mock.xmltodict_parse Mock.http (b64encode Mock.saml_xml) []
   = (inr Mock.credentials,
      [sts_request Mock.role_arn Mock.principal_arn
                   (quote_plus (b64encode Mock.saml_xml))])
   /\ string_forall (fun c => is_alpha c || is_digit c || Ascii.eqb c "%")
                    (quote_plus (b64encode Mock.saml_xml)) = true
   /\ contains "+" (quote_plus (b64encode Mock.saml_xml)) = false
   /\ contains "/" (quote_plus (b64encode Mock.saml_xml)) = false
   /\ contains "=" (quote_plus (b64encode Mock.saml_xml)) = false
   /\ unquote (quote_plus (b64encode Mock.saml_xml)) = b64encode Mock.saml_xml
   /\ b64decode (unquote (quote_plus (b64encode Mock.saml_xml))) = inr Mock.saml_xml)
  /\ contains "+" (b64encode Mock.saml_xml) = true
  /\ contains "=" (b64encode Mock.saml_xml) = true.
Proof.
  split; [|split; vm_compute; reflexivity].
  apply (awsAssumeRole_pass_through Mock.xmltodict_parse Mock.http
           Mock.saml_xml [] (Mock.saml_dict_with Mock.arn_pair)
           Mock.principal_arn Mock.role_arn ""
           (mkResponse 200 Mock.sts_xml) Mock.sts_xml Mock.sts_dict Mock.credentials);
    vm_compute; reflexivity.
Defined.
